(** * agent-config-manager: the configuration store, the dotted-key accessor,
    the validator and the exporter of [main.go], embedded in Rocq.

    The program is a Go command-line tool working on one JSON document on
    disk.  The embedding follows [main.go] function by function; the parts of
    the Go standard library it calls ([strconv], [fmt.Sscanf],
    [encoding/json], [os]) are modelled in modules of their own, named after
    the packages. *)

From Stdlib Require Import ZArith String Ascii List Bool Lia SpecFloat.
From stdpp Require Import base option gmap strings list sorting.

Open Scope string_scope.
Open Scope Z_scope.

(** ** Characters and strings as Go has them: sequences of bytes *)

Definition byte_code (c : ascii) : Z := Z.of_N (N_of_ascii c).
Definition byte_of (n : Z) : ascii := ascii_of_N (Z.to_N n).

(** [strings.IndexRune(ok, r) >= 0] for an ASCII set [ok]. *)
Fixpoint indexRune (ok : string) (c : ascii) : bool :=
  match ok with
  | EmptyString => false
  | String o ok' => Ascii.eqb o c || indexRune ok' c
  end.

Definition decimalDigits := "0123456789".
Definition hexadecimalDigits := "0123456789aAbBcCdDeEfF".
Definition sign := "+-".
Definition period := ".".
Definition exponent := "eEpP".

Definition isDigit (c : ascii) : bool := indexRune decimalDigits c.

(** [lower(c)] of strconv: [c | ('x' - 'X')]. *)
Definition lower (c : ascii) : ascii := byte_of (Z.lor (byte_code c) 32).

Definition isHexLetter (c : ascii) : bool :=
  (97 <=? byte_code (lower c)) && (byte_code (lower c) <=? 102).

Definition digitVal (c : ascii) : Z := byte_code c - 48.
Definition hexLetterVal (c : ascii) : Z := byte_code (lower c) - 97 + 10.

Definition nl : string := String (byte_of 10) "".

Fixpoint drop_str (n : nat) (s : string) : string :=
  match n, s with
  | O, _ => s
  | S n', String _ s' => drop_str n' s'
  | S _, EmptyString => EmptyString
  end.

Fixpoint take_str (n : nat) (s : string) : string :=
  match n, s with
  | S n', String c s' => String c (take_str n' s')
  | _, _ => EmptyString
  end.

(** ** float64: IEEE 754 binary64, after the Standard Library's [SpecFloat] *)

Module Float64.

Definition prec : Z := 53.
Definition emax : Z := 1024.

Definition t : Type := spec_float.

Definition zero : t := S754_zero false.

Definition IsNaN (f : t) : bool :=
  match f with S754_nan => true | _ => false end.

Definition IsInf (f : t) : bool :=
  match f with S754_infinity _ => true | _ => false end.

Definition finite (f : t) : bool := negb (IsNaN f || IsInf f).

(** Go's [x <= y] on float64: false whenever an operand is NaN. *)
Definition leb (x y : t) : bool := SFleb x y.

(** The binary64 nearest to [m * 2^e] (ties to even), infinite on
    overflow. *)
Definition of_binary (neg : bool) (m : Z) (e : Z) : t :=
  match m with
  | Zpos p => binary_round prec emax neg p e
  | _ => S754_zero neg
  end.

(** The binary64 nearest to [num / den] (ties to even), for [num >= 0]:
    the quotient is taken with at least 55 significant bits and the
    remainder decides the rounding. *)
Definition of_ratio (neg : bool) (num : Z) (den : positive) : t :=
  match num with
  | Zpos _ =>
      let sh := Z.max 0 (55 + Z.log2 (Zpos den) - Z.log2 num) in
      let '(q, r) := Z.div_eucl (Z.shiftl num sh) (Zpos den) in
      binary_round_aux prec emax neg q (- sh) (new_location (Zpos den) r)
  | _ => S754_zero neg
  end.

(** The binary64 nearest to [m * 10^e], for [m >= 0]. *)
Definition of_decimal (neg : bool) (m : Z) (e : Z) : t :=
  if 0 <=? e then of_ratio neg (m * 10 ^ e) 1
  else of_ratio neg m (Z.to_pos (10 ^ (- e))).

Definition of_Z (z : Z) : t := of_binary (z <? 0) (Z.abs z) 0.

(** [math.Ldexp(f, e)]: [f * 2^e], correctly rounded. *)
Definition Ldexp (f : t) (e : Z) : t := SFldexp prec emax f e.

(** The integer a finite float64 is equal to, when it is an integer. *)
Definition to_Z (f : t) : option Z :=
  match f with
  | S754_zero _ => Some 0
  | S754_finite s m e =>
      let v :=
        if 0 <=? e then Some (Zpos m * 2 ^ e)
        else if Zpos m mod 2 ^ (- e) =? 0 then Some (Zpos m / 2 ^ (- e))
        else None in
      (fun z => if s then - z else z) <$> v
  | _ => None
  end.

(** The same float64, bit for bit (not Go's [==]). *)
Definition same (x y : t) : bool :=
  match x, y with
  | S754_zero a, S754_zero b | S754_infinity a, S754_infinity b => Bool.eqb a b
  | S754_nan, S754_nan => true
  | S754_finite a m e, S754_finite b n f => Bool.eqb a b && Pos.eqb m n && (e =? f)
  | _, _ => false
  end.

Definition signbit (f : t) : bool :=
  match f with
  | S754_zero s | S754_infinity s | S754_finite s _ _ => s
  | S754_nan => false
  end.

End Float64.

Definition float64 : Type := Float64.t.

(** ** unicode/utf8 *)

Module Utf8.

Definition RuneError : Z := 65533.

Definition cont (c : ascii) : bool :=
  (128 <=? byte_code c) && (byte_code c <=? 191).

Definition between (lo hi : Z) (c : ascii) : bool :=
  (lo <=? byte_code c) && (byte_code c <=? hi).

(** [utf8.DecodeRuneInString]: the first rune of [s] and its width in
    bytes; [(RuneError, 1)] for a byte that starts no well-formed
    encoding, [(RuneError, 0)] for the empty string. *)
Definition DecodeRune (s : string) : Z * nat :=
  match s with
  | EmptyString => (RuneError, 0%nat)
  | String b0 s1 =>
      let x0 := byte_code b0 in
      if x0 <? 128 then (x0, 1%nat)
      else if between 194 223 b0 then
        match s1 with
        | String b1 _ =>
            if cont b1
            then (Z.lor (Z.shiftl (Z.land x0 31) 6) (Z.land (byte_code b1) 63), 2%nat)
            else (RuneError, 1%nat)
        | _ => (RuneError, 1%nat)
        end
      else if between 224 239 b0 then
        match s1 with
        | String b1 (String b2 _) =>
            let lo := if x0 =? 224 then 160 else 128 in
            let hi := if x0 =? 237 then 159 else 191 in
            if between lo hi b1 && cont b2
            then (Z.lor (Z.shiftl (Z.land x0 15) 12)
                    (Z.lor (Z.shiftl (Z.land (byte_code b1) 63) 6)
                       (Z.land (byte_code b2) 63)), 3%nat)
            else (RuneError, 1%nat)
        | _ => (RuneError, 1%nat)
        end
      else if between 240 244 b0 then
        match s1 with
        | String b1 (String b2 (String b3 _)) =>
            let lo := if x0 =? 240 then 144 else 128 in
            let hi := if x0 =? 244 then 143 else 191 in
            if between lo hi b1 && cont b2 && cont b3
            then (Z.lor (Z.shiftl (Z.land x0 7) 18)
                    (Z.lor (Z.shiftl (Z.land (byte_code b1) 63) 12)
                       (Z.lor (Z.shiftl (Z.land (byte_code b2) 63) 6)
                          (Z.land (byte_code b3) 63))), 4%nat)
            else (RuneError, 1%nat)
        | _ => (RuneError, 1%nat)
        end
      else (RuneError, 1%nat)
  end.

(** A byte at which decoding fails. *)
Definition invalid_at (s : string) : bool :=
  let '(r, size) := DecodeRune s in (r =? RuneError) && Nat.eqb size 1.

(** [utf8.ValidString]; [skip] counts the continuation bytes of the rune
    being stepped over. *)
Fixpoint valid_from (skip : nat) (s : string) : bool :=
  match s with
  | EmptyString => true
  | String _ s' =>
      match skip with
      | S k => valid_from k s'
      | O => negb (invalid_at s) && valid_from (snd (DecodeRune s) - 1) s'
      end
  end.

Definition ValidString (s : string) : bool := valid_from 0 s.

(** The encoding of U+FFFD. *)
Definition replacement : string :=
  String (byte_of 239) (String (byte_of 191) (String (byte_of 189) "")).

(** Every byte that starts no well-formed encoding replaced by U+FFFD:
    what [encoding/json] does to a Go string when it writes it and when
    it reads a string literal. *)
Fixpoint coerce_from (skip : nat) (s : string) : string :=
  match s with
  | EmptyString => EmptyString
  | String c s' =>
      match skip with
      | S k => String c (coerce_from k s')
      | O =>
          if invalid_at s then replacement ++ coerce_from 0 s'
          else String c (coerce_from (snd (DecodeRune s) - 1) s')
      end
  end.

Definition ToValid (s : string) : string := coerce_from 0 s.

End Utf8.

(** ** strconv *)

Module Strconv.

Fixpoint digits_value (acc : Z) (s : string) : option Z :=
  match s with
  | EmptyString => Some acc
  | String c s' =>
      if isDigit c then digits_value (acc * 10 + digitVal c) s' else None
  end.

(** [ParseUint(s, 10, 64)] before its range check: the exact value of a
    non-empty string of decimal digits. *)
Definition ParseUint (s : string) : option Z :=
  match s with
  | EmptyString => None
  | _ => digits_value 0 s
  end.

(** [ParseInt(s, 10, 64)]; [None] for a syntax error and for a value
    outside the int64 range. *)
Definition ParseInt (s : string) : option Z :=
  match s with
  | EmptyString => None
  | String c s' =>
      let '(neg, body) :=
        if Ascii.eqb c "+" then (false, s')
        else if Ascii.eqb c "-" then (true, s')
        else (false, s) in
      match ParseUint body with
      | None => None
      | Some un =>
          let cutoff := 2 ^ 63 in
          if negb neg && (cutoff <=? un) then None
          else if neg && (cutoff <? un) then None
          else Some (if neg then - un else un)
      end
  end.

(** [Atoi(s)] on a 64-bit platform. *)
Definition Atoi (s : string) : option Z := ParseInt s.

Fixpoint commonPrefixLenIgnoreCase (s prefix : string) : nat :=
  match s, prefix with
  | String c s', String p prefix' =>
      let c := if (65 <=? byte_code c) && (byte_code c <=? 90)
               then byte_of (byte_code c + 32) else c in
      if Ascii.eqb c p then S (commonPrefixLenIgnoreCase s' prefix') else O
  | _, _ => O
  end.

(** [special]: the infinities and NaN, with the number of bytes read. *)
Definition special (s : string) : option (float64 * nat) :=
  let inf (neg : bool) (nsign : nat) (s : string) :=
    let n := commonPrefixLenIgnoreCase s "infinity" in
    let n := if (3 <? n)%nat && (n <? 8)%nat then 3%nat else n in
    if Nat.eqb n 3 || Nat.eqb n 8
    then Some (S754_infinity neg, (nsign + n)%nat) else None in
  match s with
  | EmptyString => None
  | String c s' =>
      if Ascii.eqb c "+" then inf false 1%nat s'
      else if Ascii.eqb c "-" then inf true 1%nat s'
      else if Ascii.eqb c "i" || Ascii.eqb c "I" then inf false 0%nat s
      else if Ascii.eqb c "n" || Ascii.eqb c "N" then
        if Nat.eqb (commonPrefixLenIgnoreCase s "nan") 3
        then Some (S754_nan, 3%nat) else None
      else None
  end.

(** The state of [readFloat]'s digit loop; [mant] is the value of all the
    digits read (Go keeps the first 19 and a truncation flag, and goes back
    to the full digit string when they do not decide the rounding). *)
Record mantissa := Mantissa {
  sawdot : bool; sawdigits : bool; nd : Z; dp : Z; mant : Z;
  underscores : bool }.

Fixpoint readMantissa (hex : bool) (st : mantissa) (s : string)
  : mantissa * string :=
  match s with
  | EmptyString => (st, s)
  | String c s' =>
      let '(Mantissa sdot sdig n d m u) := st in
      if Ascii.eqb c "_" then readMantissa hex (Mantissa sdot sdig n d m true) s'
      else if Ascii.eqb c "." then
        if sdot then (st, s)
        else readMantissa hex (Mantissa true sdig n n m u) s'
      else if isDigit c then
        if Ascii.eqb c "0" && (n =? 0)
        then readMantissa hex (Mantissa sdot true n (d - 1) m u) s'
        else readMantissa hex
               (Mantissa sdot true (n + 1) d
                  (m * (if hex then 16 else 10) + digitVal c) u) s'
      else if hex && isHexLetter c then
        readMantissa hex (Mantissa sdot true (n + 1) d (m * 16 + hexLetterVal c) u) s'
      else (st, s)
  end.

(** The exponent digits: [e] stops growing once it has reached 10000. *)
Fixpoint readExponent (e : Z) (u : bool) (s : string) : Z * bool * string :=
  match s with
  | EmptyString => (e, u, s)
  | String c s' =>
      if Ascii.eqb c "_" then readExponent e true s'
      else if isDigit c
      then readExponent (if e <? 10000 then e * 10 + digitVal c else e) u s'
      else (e, u, s)
  end.

(** [underscoreOK]; [saw] is the kind of the last byte: ["^"], ["0"],
    ["_"] or ["!"]. *)
Fixpoint underscoreOK_loop (hex : bool) (saw : ascii) (s : string) : bool :=
  match s with
  | EmptyString => negb (Ascii.eqb saw "_")
  | String c s' =>
      if isDigit c || (hex && isHexLetter c) then underscoreOK_loop hex "0" s'
      else if Ascii.eqb c "_" then
        if Ascii.eqb saw "0" then underscoreOK_loop hex "_" s' else false
      else if Ascii.eqb saw "_" then false
      else underscoreOK_loop hex "!" s'
  end.

Definition underscoreOK (s : string) : bool :=
  let s := match s with
           | String c s' => if Ascii.eqb c "-" || Ascii.eqb c "+" then s' else s
           | _ => s
           end in
  match s with
  | String c0 (String c1 s') =>
      if Ascii.eqb c0 "0" &&
         (Ascii.eqb (lower c1) "b" || Ascii.eqb (lower c1) "o" || Ascii.eqb (lower c1) "x")
      then underscoreOK_loop (Ascii.eqb (lower c1) "x") "0" s'
      else underscoreOK_loop false "^" s
  | _ => underscoreOK_loop false "^" s
  end.

(** [readFloat]: sign, whether the number is hexadecimal, the digits as an
    integer, the exponent to apply to them (of 10, or of 2 for a
    hexadecimal number) and the input left unread. *)
Definition readFloat (s : string) : option (bool * bool * Z * Z * string) :=
  match s with
  | EmptyString => None
  | String c s' =>
      let '(neg, s1) :=
        if Ascii.eqb c "+" then (false, s')
        else if Ascii.eqb c "-" then (true, s')
        else (false, s) in
      let '(hex, s2) :=
        match s1 with
        | String c0 (String c1 (String c2 s'')) =>
            if Ascii.eqb c0 "0" && Ascii.eqb (lower c1) "x"
            then (true, String c2 s'') else (false, s1)
        | _ => (false, s1)
        end in
      let '(Mantissa sdot sdig n d m u, s3) :=
        readMantissa hex (Mantissa false false 0 0 0 false) s2 in
      if negb sdig then None else
      let d := if sdot then d else n in
      let '(d, n) := if hex then (d * 4, n * 4) else (d, n) in
      let finish (d : Z) (u : bool) (rest : string) :=
        let read := take_str (String.length s - String.length rest) s in
        if u && negb (underscoreOK read) then None
        else Some (neg, hex, m, (if m =? 0 then 0 else d - n), rest) in
      match s3 with
      | String ce s4 =>
          if Ascii.eqb (lower ce) (if hex then "p" else "e") then
            match s4 with
            | EmptyString => None
            | String cs s5 =>
                let '(esign, s6) :=
                  if Ascii.eqb cs "+" then (1, s5)
                  else if Ascii.eqb cs "-" then (-1, s5)
                  else (1, s4) in
                match s6 with
                | String cd _ =>
                    if isDigit cd then
                      let '(e, u', rest) := readExponent 0 u s6 in
                      finish (d + e * esign) u' rest
                    else None
                | EmptyString => None
                end
            end
          else if hex then None
          else finish d u s3
      | EmptyString => if hex then None else finish d u s3
      end
  end.

(** [ParseFloat(s, 64)]: the whole of [s] must be a number; the result is
    the nearest binary64 (ties to even).  [None] stands for both of its errors: a
    syntax error, and a range error when the nearest value is infinite. *)
Definition ParseFloat (s : string) : option float64 :=
  match special s with
  | Some (f, n) => if Nat.eqb n (String.length s) then Some f else None
  | None =>
      match readFloat s with
      | Some (neg, hex, m, e, EmptyString) =>
          let f := if hex then Float64.of_binary neg m e
                   else Float64.of_decimal neg m e in
          if Float64.IsInf f then None else Some f
      | _ => None
      end
  end.

End Strconv.

(** ** fmt: the scanner behind [Sscanf], for the verbs the program uses *)

Module Fmt.

(** The scan state [ss]: the input not read yet and the token buffer. *)
Record ss := mk_ss { rs : string; buf : string }.

(** The white space of [fmt]'s scanner (its [space] table). *)
Definition isSpace (r : Z) : bool :=
  ((9 <=? r) && (r <=? 13)) || (r =? 32) || (r =? 133) || (r =? 160)
  || (r =? 5760) || ((8192 <=? r) && (r <=? 8202))
  || ((8232 <=? r) && (r <=? 8233)) || (r =? 8239) || (r =? 8287)
  || (r =? 12288).

(** [SkipSpace] of the [Sscan] family: a newline is an error there;
    [skip] counts the bytes left of the rune being stepped over. *)
Fixpoint skipSpace_from (skip : nat) (s : string) : option string :=
  match s with
  | EmptyString => Some s
  | String _ s' =>
      match skip with
      | S k => skipSpace_from k s'
      | O =>
          let '(r, size) := Utf8.DecodeRune s in
          if r =? 10 then None
          else if isSpace r then skipSpace_from (size - 1) s'
          else Some s
      end
  end.

Definition SkipSpace (s : ss) : option ss :=
  r ← skipSpace_from 0 (rs s); Some (mk_ss r (buf s)).

(** [notEOF]: panics with [io.EOF] at the end of the input. *)
Definition notEOF (s : ss) : option ss :=
  match rs s with EmptyString => None | _ => Some s end.

(** [accept]: reads the next rune when it is in [ok], into the buffer. *)
Definition accept (ok : string) (s : ss) : bool * ss :=
  match rs s with
  | String c r =>
      if indexRune ok c then (true, mk_ss r (buf s ++ String c ""))
      else (false, s)
  | EmptyString => (false, s)
  end.

(** [for s.accept(ok) {}] *)
Fixpoint acceptAll_from (ok : string) (r : string) (b : string) : ss :=
  match r with
  | String c r' =>
      if indexRune ok c then acceptAll_from ok r' (b ++ String c "")
      else mk_ss r b
  | EmptyString => mk_ss r b
  end.

Definition acceptAll (ok : string) (s : ss) : ss :=
  acceptAll_from ok (rs s) (buf s).

(** [a && s.accept(ok)] *)
Definition andAccept (a : bool) (ok : string) (s : ss) : bool * ss :=
  if a then accept ok s else (false, s).

Definition floatToken (s : ss) : string * ss :=
  let s := mk_ss (rs s) "" in
  (* NaN? *)
  let '(a, s) := accept "nN" s in
  let '(a, s) := andAccept a "aA" s in
  let '(a, s) := andAccept a "nN" s in
  if a then (buf s, s) else
  (* leading sign? *)
  let '(_, s) := accept sign s in
  (* Inf? *)
  let '(a, s) := accept "iI" s in
  let '(a, s) := andAccept a "nN" s in
  let '(a, s) := andAccept a "fF" s in
  if a then (buf s, s) else
  let '(a, s) := accept "0" s in
  let '(hex, s) := andAccept a "xX" s in
  let digits := if hex then hexadecimalDigits ++ "_" else decimalDigits ++ "_" in
  let exp := if hex then "pP" else exponent in
  (* digits? *)
  let s := acceptAll digits s in
  (* decimal point? *)
  let '(a, s) := accept period s in
  (* fraction? *)
  let s := if a then acceptAll digits s else s in
  (* exponent? *)
  let '(a, s) := accept exp s in
  let s := if a then acceptAll (decimalDigits ++ "_") (snd (accept sign s)) else s in
  (buf s, s).

Fixpoint index_of (c : ascii) (s : string) : option nat :=
  match s with
  | EmptyString => None
  | String d s' => if Ascii.eqb d c then Some O else S <$> index_of c s'
  end.

Definition hasX (s : string) : bool :=
  bool_decide (is_Some (index_of "x" s)) || bool_decide (is_Some (index_of "X" s)).

(** [convertFloat]: [strconv.ParseFloat], and the scanner's own
    decimal-mantissa-with-binary-exponent form ([1.5p3]). *)
Definition convertFloat (str : string) : option float64 :=
  match index_of "p" str with
  | Some p =>
      if negb (hasX str) then
        f ← Strconv.ParseFloat (take_str p str);
        m ← Strconv.Atoi (drop_str (S p) str);
        Some (Float64.Ldexp f m)
      else Strconv.ParseFloat str
  | None => Strconv.ParseFloat str
  end.

(** [scanNumber(digits, false)] *)
Definition scanNumber (digits : string) (s : ss) : option (string * ss) :=
  s ← notEOF s;
  let '(a, s) := accept digits s in
  if negb a then None else
  let s := acceptAll digits s in
  Some (buf s, s).

(** [scanInt('d', 64)] *)
Definition scanInt (s : ss) : option (Z * ss) :=
  s ← SkipSpace s;
  s ← notEOF s;
  let '(_, s) := accept sign s in
  '(tok, s) ← scanNumber decimalDigits s;
  i ← Strconv.ParseInt tok;
  Some (i, s).

(** [scanOne('f', arg)] for [arg] a [*float64] *)
Definition scanFloat (s : ss) : option (float64 * ss) :=
  s ← SkipSpace s;
  s ← notEOF s;
  let '(tok, s) := floatToken s in
  f ← convertFloat tok;
  Some (f, s).

(** The outcome of [Sscanf(str, format, &arg)] for a format that is one
    verb: the content of [arg] afterwards, the number of items scanned and
    whether an error is returned.  [doScanf] skips white space before it
    hands the verb to [scanOne]; a failure anywhere is recovered by
    [errorHandler] and returned, with [arg] not written to. *)
Definition Sscanf1 {A : Type} (scanOne : ss → option (A * ss))
    (str : string) (arg : A) : A * Z * bool :=
  match s ← SkipSpace (mk_ss str ""); scanOne (mk_ss (rs s) "") with
  | Some (v, _) => (v, 1, false)
  | None => (arg, 0, true)
  end.

(** [fmt.Sscanf(str, "%f", &arg)] *)
Definition Sscanf_f (str : string) (arg : float64) : float64 * Z * bool :=
  Sscanf1 scanFloat str arg.

(** [fmt.Sscanf(str, "%d", &arg)] *)
Definition Sscanf_d (str : string) (arg : Z) : Z * Z * bool :=
  Sscanf1 scanInt str arg.

End Fmt.

(** ** The data model of [main.go] *)

(** A Go slice of strings; [None] is the nil slice, which differs from the
    empty one in what [encoding/json] writes for it. *)
Definition strings := option (list string).

Definition len (s : strings) : Z := Z.of_nat (length (default [] s)).

Definition version := "0.1.0".

Record AgentInfo := mkAgentInfo {
  Name : string;
  ID : string;
  ERC8004ID : Z;
  Website : string;
  GitHub : string }.

Record WalletConfig := mkWalletConfig {
  Address : string;
  Networks : strings;
  DailyLimit : float64;
  AlertThreshold : float64 }.

Record SecurityConfig := mkSecurityConfig {
  FirewallEnabled : bool;
  HoneypotEnabled : bool;
  PromptGuardEnabled : bool;
  SimulatorEnabled : bool;
  WhitelistedAddresses : strings;
  BlacklistedAddresses : strings }.

Record APIKeysConfig := mkAPIKeysConfig {
  Etherscan : string;
  Basescan : string;
  OpenAI : string;
  Anthropic : string;
  Discord : string }.

Record MonitoringConfig := mkMonitoringConfig {
  DashboardEnabled : bool;
  DashboardPort : Z;
  WebhookURL : string;
  CheckInterval : Z }.

(** AgentConfig is the unified configuration for all agent tools *)
Record AgentConfig := mkAgentConfig {
  Version : string;
  Agent : AgentInfo;
  Wallet : WalletConfig;
  Security : SecurityConfig;
  APIKeys : APIKeysConfig;
  Monitoring : MonitoringConfig }.

(** Go's zero values, what [var config AgentConfig] and [APIKeysConfig{}]
    hold. *)
Definition zeroAgentInfo := mkAgentInfo "" "" 0 "" "".
Definition zeroWalletConfig := mkWalletConfig "" None Float64.zero Float64.zero.
Definition zeroSecurityConfig := mkSecurityConfig false false false false None None.
Definition zeroAPIKeysConfig := mkAPIKeysConfig "" "" "" "" "".
Definition zeroMonitoringConfig := mkMonitoringConfig false 0 "" 0.
Definition zeroAgentConfig :=
  mkAgentConfig "" zeroAgentInfo zeroWalletConfig zeroSecurityConfig
    zeroAPIKeysConfig zeroMonitoringConfig.

(** Assignments to one field, [config.Wallet.DailyLimit = limit] and the
    like. *)
Definition set_Wallet (f : WalletConfig → WalletConfig) (c : AgentConfig) :=
  mkAgentConfig (Version c) (Agent c) (f (Wallet c)) (Security c) (APIKeys c)
    (Monitoring c).
Definition set_APIKeys (f : APIKeysConfig → APIKeysConfig) (c : AgentConfig) :=
  mkAgentConfig (Version c) (Agent c) (Wallet c) (Security c) (f (APIKeys c))
    (Monitoring c).
Definition set_Monitoring (f : MonitoringConfig → MonitoringConfig) (c : AgentConfig) :=
  mkAgentConfig (Version c) (Agent c) (Wallet c) (Security c) (APIKeys c)
    (f (Monitoring c)).

Definition set_DailyLimit (v : float64) (w : WalletConfig) :=
  mkWalletConfig (Address w) (Networks w) v (AlertThreshold w).
Definition set_AlertThreshold (v : float64) (w : WalletConfig) :=
  mkWalletConfig (Address w) (Networks w) (DailyLimit w) v.
Definition set_Etherscan (v : string) (k : APIKeysConfig) :=
  mkAPIKeysConfig v (Basescan k) (OpenAI k) (Anthropic k) (Discord k).
Definition set_Basescan (v : string) (k : APIKeysConfig) :=
  mkAPIKeysConfig (Etherscan k) v (OpenAI k) (Anthropic k) (Discord k).
Definition set_OpenAI (v : string) (k : APIKeysConfig) :=
  mkAPIKeysConfig (Etherscan k) (Basescan k) v (Anthropic k) (Discord k).
Definition set_Anthropic (v : string) (k : APIKeysConfig) :=
  mkAPIKeysConfig (Etherscan k) (Basescan k) (OpenAI k) v (Discord k).
Definition set_Discord (v : string) (k : APIKeysConfig) :=
  mkAPIKeysConfig (Etherscan k) (Basescan k) (OpenAI k) (Anthropic k) v.
Definition set_WebhookURL (v : string) (m : MonitoringConfig) :=
  mkMonitoringConfig (DashboardEnabled m) (DashboardPort m) v (CheckInterval m).
Definition set_CheckInterval (v : Z) (m : MonitoringConfig) :=
  mkMonitoringConfig (DashboardEnabled m) (DashboardPort m) (WebhookURL m) v.

(** A value of Go's [interface{}], as the program boxes them: what it
    prints and what it puts in the export maps. *)
Inductive any :=
  | AString (s : string)
  | AInt (i : Z)
  | AFloat (f : float64)
  | ABool (b : bool)
  | AStrings (l : strings)
  | APath (p : list string)   (* a string that is a file path *)
  | AError.                   (* an error value; its text is not modelled *)

(** ** encoding/json

    A JSON text is kept as the tree it spells.  What is not kept is the
    spelling of a number: a number literal is kept as what the two readers
    of the decoder make of it, [strconv.ParseInt(lit, 10, 64)] and
    [strconv.ParseFloat(lit, 64)].  For a float64 the encoder writes the
    shortest decimal literal that [ParseFloat] reads back as the same
    float64 (the contract of [strconv.AppendFloat] with precision -1), so
    the float reading of a number it wrote is that float64. *)

Module Json.

Record number := Number {
  asInt : option Z;     (* ParseInt's result; None for an error *)
  asFloat : float64 }.  (* ParseFloat's result; infinite for a range error *)

#[warnings="-register-all"]
Inductive value :=
  | Null
  | Bool (b : bool)
  | Num (n : number)
  | Str (s : string)
  | Arr (elems : list value)
  | Obj (members : list (string * value)).

(** *** Encoding *)

Definition inInt64 (n : Z) : bool := (- 2 ^ 63 <=? n) && (n <? 2 ^ 63).

Definition int (n : Z) : value :=
  Num (Number (if inInt64 n then Some n else None) (Float64.of_Z n)).

(** The shortest run of digits, padded with zeros, that reads as the
    integral float64 [f] of magnitude [F]: the literal written for it when
    [F] is 2^53 or more. *)
Fixpoint shortestInt (k : nat) (f : float64) (F : Z) : Z :=
  match k with
  | O => F
  | S k' =>
      let p := 10 ^ Z.of_nat k in
      let lo := F / p * p in
      let hi := lo + p in
      let okdown := Float64.same (Float64.of_Z lo) f in
      let okup := Float64.same (Float64.of_Z hi) f in
      if okdown && okup then
        if 2 * (F - lo) <? p then lo
        else if p <? 2 * (F - lo) then hi
        else if Z.even (lo / p) then lo else hi
      else if okdown then lo
      else if okup then hi
      else shortestInt k' f F
  end.

(** How [ParseInt] reads the literal written for [f]: an integer when [f]
    is integral, since below 10^21 it is then written without fraction or
    exponent; ["-0"] reads as 0. *)
Definition floatLiteralAsInt (f : float64) : option Z :=
  match Float64.to_Z f with
  | Some z =>
      let F := Z.abs z in
      let F := if F <? 2 ^ 53 then F
               else shortestInt 20 (SFabs f) F in
      let z := if Float64.signbit f then - F else F in
      if inInt64 z then Some z else None
  | None => None
  end.

(** [floatEncoder]: NaN and the infinities are an [UnsupportedValueError]. *)
Definition float (f : float64) : option value :=
  if Float64.finite f then Some (Num (Number (floatLiteralAsInt f) f))
  else None.

Definition string (s : string) : value := Str (Utf8.ToValid s).

Definition strings (l : option (list String.string)) : value :=
  match l with
  | None => Null
  | Some l => Arr (string <$> l)
  end.

(** A field tagged [omitempty] is left out when its string is empty. *)
Definition omitempty (name : String.string) (s : String.string)
  : list (String.string * value) :=
  match s with
  | EmptyString => []
  | _ => [(name, string s)]
  end.

(** *** Decoding *)

(** [foldName]: names are matched without regard to case; the Kelvin sign
    (E2 84 AA) folds with K and the long s (C5 BF) with S.  Other bytes
    outside ASCII are left alone: no field name of the program has one. *)
Fixpoint foldName (s : String.string) : String.string :=
  match s with
  | EmptyString => EmptyString
  | String c s1 =>
      let keep :=
        String (if (97 <=? byte_code c) && (byte_code c <=? 122)
                then byte_of (byte_code c - 32) else c) (foldName s1) in
      match s1 with
      | String c1 s2 =>
          if (byte_code c =? 197) && (byte_code c1 =? 191)
          then String "S" (foldName s2)
          else
            match s2 with
            | String c2 s3 =>
                if (byte_code c =? 226) && (byte_code c1 =? 132)
                   && (byte_code c2 =? 170)
                then String "K" (foldName s3)
                else keep
            | EmptyString => keep
            end
      | EmptyString => keep
      end
  end.

(** Whether the key [k] of a JSON object names the field tagged [name]. *)
Definition names (k name : String.string) : bool :=
  String.eqb (foldName k) (foldName name).

(** Each reader takes the JSON value and what the Go variable holds, and
    gives what it holds afterwards; [None] is an [UnmarshalTypeError].
    [null] leaves a string, number or boolean as it is. *)
Definition getString (v : value) (cur : String.string) : option String.string :=
  match v with
  | Null => Some cur
  | Str s => Some (Utf8.ToValid s)
  | _ => None
  end.

Definition getBool (v : value) (cur : bool) : option bool :=
  match v with
  | Null => Some cur
  | Bool b => Some b
  | _ => None
  end.

Definition getInt (v : value) (cur : Z) : option Z :=
  match v with
  | Null => Some cur
  | Num n => asInt n
  | _ => None
  end.

Definition getFloat (v : value) (cur : float64) : option float64 :=
  match v with
  | Null => Some cur
  | Num n => if Float64.finite (asFloat n) then Some (asFloat n) else None
  | _ => None
  end.

(** An array is read element by element into the slice, an element that
    is there already being read into; elements past the current length
    start out empty. *)
Fixpoint getElems (l : list value) (cur : list String.string)
  : option (list String.string) :=
  match l with
  | [] => Some []
  | v :: l' =>
      x ← getString v (hd "" cur);
      xs ← getElems l' (tl cur);
      Some (x :: xs)
  end.

(** [null] makes a slice nil. *)
Definition getStrings (v : value) (cur : option (list String.string))
  : option (option (list String.string)) :=
  match v with
  | Null => Some None
  | Arr l => Some <$> getElems l (default [] cur)
  | _ => None
  end.

(** An object is read member by member, in the order of the text; a
    member whose key names no field is skipped, and a key that comes twice
    is read twice. *)
Fixpoint getMembers {T : Type}
    (field : String.string → value → T → option T)
    (ms : list (String.string * value)) (cur : T) : option T :=
  match ms with
  | [] => Some cur
  | (k, v) :: ms' => cur' ← field k v cur; getMembers field ms' cur'
  end.

Definition getStruct {T : Type}
    (field : String.string → value → T → option T)
    (v : value) (cur : T) : option T :=
  match v with
  | Null => Some cur
  | Obj ms => getMembers field ms cur
  | _ => None
  end.

End Json.

(** *** The struct tags of [main.go]: how each struct is written and read *)

Module Codec.
Import Json.

Definition encAgentInfo (a : AgentInfo) : value :=
  Obj [("name", string (Name a)); ("id", string (ID a));
       ("erc8004_id", int (ERC8004ID a)); ("website", string (Website a));
       ("github", string (GitHub a))].

Definition encWalletConfig (w : WalletConfig) : option value :=
  dl ← float (DailyLimit w);
  at' ← float (AlertThreshold w);
  Some (Obj [("address", string (Address w)); ("networks", strings (Networks w));
             ("daily_limit", dl); ("alert_threshold", at')]).

Definition encSecurityConfig (s : SecurityConfig) : value :=
  Obj [("firewall_enabled", Bool (FirewallEnabled s));
       ("honeypot_enabled", Bool (HoneypotEnabled s));
       ("prompt_guard_enabled", Bool (PromptGuardEnabled s));
       ("simulator_enabled", Bool (SimulatorEnabled s));
       ("whitelisted_addresses", strings (WhitelistedAddresses s));
       ("blacklisted_addresses", strings (BlacklistedAddresses s))].

Definition encAPIKeysConfig (k : APIKeysConfig) : value :=
  Obj (omitempty "etherscan" (Etherscan k) ++ omitempty "basescan" (Basescan k)
       ++ omitempty "openai" (OpenAI k) ++ omitempty "anthropic" (Anthropic k)
       ++ omitempty "discord" (Discord k)).

Definition encMonitoringConfig (m : MonitoringConfig) : value :=
  Obj ([("dashboard_enabled", Bool (DashboardEnabled m));
        ("dashboard_port", int (DashboardPort m))]
       ++ omitempty "webhook_url" (WebhookURL m)
       ++ [("check_interval_minutes", int (CheckInterval m))]).

(** [json.MarshalIndent(config, "", "  ")]; [None] is its error. *)
Definition Marshal (c : AgentConfig) : option value :=
  w ← encWalletConfig (Wallet c);
  Some (Obj [("version", string (Version c)); ("agent", encAgentInfo (Agent c));
             ("wallet", w); ("security", encSecurityConfig (Security c));
             ("api_keys", encAPIKeysConfig (APIKeys c));
             ("monitoring", encMonitoringConfig (Monitoring c))]).

Definition decAgentInfo (k : String.string) (v : value) (a : AgentInfo)
  : option AgentInfo :=
  if names k "name" then
    x ← getString v (Name a);
    Some (mkAgentInfo x (ID a) (ERC8004ID a) (Website a) (GitHub a))
  else if names k "id" then
    x ← getString v (ID a);
    Some (mkAgentInfo (Name a) x (ERC8004ID a) (Website a) (GitHub a))
  else if names k "erc8004_id" then
    x ← getInt v (ERC8004ID a);
    Some (mkAgentInfo (Name a) (ID a) x (Website a) (GitHub a))
  else if names k "website" then
    x ← getString v (Website a);
    Some (mkAgentInfo (Name a) (ID a) (ERC8004ID a) x (GitHub a))
  else if names k "github" then
    x ← getString v (GitHub a);
    Some (mkAgentInfo (Name a) (ID a) (ERC8004ID a) (Website a) x)
  else Some a.

Definition decWalletConfig (k : String.string) (v : value) (w : WalletConfig)
  : option WalletConfig :=
  if names k "address" then
    x ← getString v (Address w);
    Some (mkWalletConfig x (Networks w) (DailyLimit w) (AlertThreshold w))
  else if names k "networks" then
    x ← getStrings v (Networks w);
    Some (mkWalletConfig (Address w) x (DailyLimit w) (AlertThreshold w))
  else if names k "daily_limit" then
    x ← getFloat v (DailyLimit w); Some (set_DailyLimit x w)
  else if names k "alert_threshold" then
    x ← getFloat v (AlertThreshold w); Some (set_AlertThreshold x w)
  else Some w.

Definition decSecurityConfig (k : String.string) (v : value) (s : SecurityConfig)
  : option SecurityConfig :=
  if names k "firewall_enabled" then
    x ← getBool v (FirewallEnabled s);
    Some (mkSecurityConfig x (HoneypotEnabled s) (PromptGuardEnabled s)
            (SimulatorEnabled s) (WhitelistedAddresses s) (BlacklistedAddresses s))
  else if names k "honeypot_enabled" then
    x ← getBool v (HoneypotEnabled s);
    Some (mkSecurityConfig (FirewallEnabled s) x (PromptGuardEnabled s)
            (SimulatorEnabled s) (WhitelistedAddresses s) (BlacklistedAddresses s))
  else if names k "prompt_guard_enabled" then
    x ← getBool v (PromptGuardEnabled s);
    Some (mkSecurityConfig (FirewallEnabled s) (HoneypotEnabled s) x
            (SimulatorEnabled s) (WhitelistedAddresses s) (BlacklistedAddresses s))
  else if names k "simulator_enabled" then
    x ← getBool v (SimulatorEnabled s);
    Some (mkSecurityConfig (FirewallEnabled s) (HoneypotEnabled s)
            (PromptGuardEnabled s) x (WhitelistedAddresses s)
            (BlacklistedAddresses s))
  else if names k "whitelisted_addresses" then
    x ← getStrings v (WhitelistedAddresses s);
    Some (mkSecurityConfig (FirewallEnabled s) (HoneypotEnabled s)
            (PromptGuardEnabled s) (SimulatorEnabled s) x (BlacklistedAddresses s))
  else if names k "blacklisted_addresses" then
    x ← getStrings v (BlacklistedAddresses s);
    Some (mkSecurityConfig (FirewallEnabled s) (HoneypotEnabled s)
            (PromptGuardEnabled s) (SimulatorEnabled s) (WhitelistedAddresses s) x)
  else Some s.

Definition decAPIKeysConfig (k : String.string) (v : value) (a : APIKeysConfig)
  : option APIKeysConfig :=
  if names k "etherscan" then x ← getString v (Etherscan a); Some (set_Etherscan x a)
  else if names k "basescan" then x ← getString v (Basescan a); Some (set_Basescan x a)
  else if names k "openai" then x ← getString v (OpenAI a); Some (set_OpenAI x a)
  else if names k "anthropic" then x ← getString v (Anthropic a); Some (set_Anthropic x a)
  else if names k "discord" then x ← getString v (Discord a); Some (set_Discord x a)
  else Some a.

Definition decMonitoringConfig (k : String.string) (v : value) (m : MonitoringConfig)
  : option MonitoringConfig :=
  if names k "dashboard_enabled" then
    x ← getBool v (DashboardEnabled m);
    Some (mkMonitoringConfig x (DashboardPort m) (WebhookURL m) (CheckInterval m))
  else if names k "dashboard_port" then
    x ← getInt v (DashboardPort m);
    Some (mkMonitoringConfig (DashboardEnabled m) x (WebhookURL m) (CheckInterval m))
  else if names k "webhook_url" then
    x ← getString v (WebhookURL m); Some (set_WebhookURL x m)
  else if names k "check_interval_minutes" then
    x ← getInt v (CheckInterval m); Some (set_CheckInterval x m)
  else Some m.

Definition decAgentConfig (k : String.string) (v : value) (c : AgentConfig)
  : option AgentConfig :=
  if names k "version" then
    x ← getString v (Version c);
    Some (mkAgentConfig x (Agent c) (Wallet c) (Security c) (APIKeys c) (Monitoring c))
  else if names k "agent" then
    x ← getStruct decAgentInfo v (Agent c);
    Some (mkAgentConfig (Version c) x (Wallet c) (Security c) (APIKeys c) (Monitoring c))
  else if names k "wallet" then
    x ← getStruct decWalletConfig v (Wallet c); Some (set_Wallet (λ _, x) c)
  else if names k "security" then
    x ← getStruct decSecurityConfig v (Security c);
    Some (mkAgentConfig (Version c) (Agent c) (Wallet c) x (APIKeys c) (Monitoring c))
  else if names k "api_keys" then
    x ← getStruct decAPIKeysConfig v (APIKeys c); Some (set_APIKeys (λ _, x) c)
  else if names k "monitoring" then
    x ← getStruct decMonitoringConfig v (Monitoring c);
    Some (set_Monitoring (λ _, x) c)
  else Some c.

(** [json.Unmarshal(data, &config)] on the text of the tree [v], [config]
    holding [cur]; [None] is its error. *)
Definition Unmarshal (v : value) (cur : AgentConfig) : option AgentConfig :=
  getStruct decAgentConfig v cur.

(** The encoding of an [interface{}] by its dynamic type. *)
Definition encAny (a : any) : option value :=
  match a with
  | AString s => Some (string s)
  | AInt i => Some (int i)
  | AFloat f => float f
  | ABool b => Some (Bool b)
  | AStrings l => Some (strings l)
  | APath p => Some (Str (Utf8.ToValid (String.concat "/" p)))
  | AError => Some (Obj [])
  end.

Fixpoint encMembers (l : list (String.string * any))
  : option (list (String.string * value)) :=
  match l with
  | [] => Some []
  | (k, a) :: l' =>
      v ← encAny a; ms ← encMembers l'; Some ((Utf8.ToValid k, v) :: ms)
  end.

(** Byte-wise order on strings, in which a map's keys are written. *)
Definition key_le (x y : String.string * any) : Prop :=
  String.leb (fst x) (fst y) = true.

#[global] Instance key_le_dec x y : Decision (key_le x y).
Proof. unfold key_le. apply _. Defined.

(** [json.MarshalIndent(config, "", "  ")] for [config] a
    [map[string]interface{}]: the keys sorted. *)
Definition MarshalMap (m : gmap String.string any) : option value :=
  Obj <$> encMembers (merge_sort key_le (map_to_list m)).

End Codec.

(** ** os, path/filepath and the process: the world the program runs in *)

(** What a file holds: the text of a JSON value, kept as that value, or
    bytes that are not a JSON text. *)
Inductive data :=
  | JSON (v : Json.value)
  | Raw (bytes : string).

Inductive node :=
  | Dir
  | File (perm : Z) (content : data).

(** What the program writes to standard output, one call at a time. *)
Inductive event :=
  | Println (args : list any)
  | Printf (format : string) (args : list any).

(** A path is the list of its elements: [filepath.Join] appends and
    [filepath.Dir] drops the last one.  [home] is what [os.UserHomeDir]
    returns. *)
Record world := mkWorld {
  home : list string;
  files : gmap (list string) node;
  stdout : list event }.

(** A run either goes on with a value or has left through [os.Exit]. *)
Inductive result (A : Type) :=
  | Done (a : A) (w : world)
  | Exit (code : Z) (w : world).
Arguments Done {A} a w.
Arguments Exit {A} code w.

Definition IO (A : Type) : Type := world → result A.

Definition ret {A} (a : A) : IO A := λ w, Done a w.

Definition bind {A B} (m : IO A) (k : A → IO B) : IO B :=
  λ w, match m w with
       | Done a w' => k a w'
       | Exit code w' => Exit code w'
       end.

Notation "x <- m ;; k" := (bind m (λ x, k))
  (at level 100, m at next level, right associativity).
Notation "m ;; k" := (bind m (λ _, k))
  (at level 100, right associativity).

Module OS.

Definition Exit {A} (code : Z) : IO A := λ w, Exit code w.

Definition UserHomeDir : IO (list string) := λ w, Done (home w) w.

(** The root (or, for a relative path, the working directory) is a
    directory. *)
Definition lookup (fs : gmap (list string) node) (p : list string) : option node :=
  match p with
  | [] => Some Dir
  | _ => fs !! p
  end.

(** [os.MkdirAll], on the path reversed: a directory that is there is left
    alone, a file in the way is an error, and what is missing is made from
    the top down.  [None] is an error. *)
Fixpoint mkdirAll (rp : list string) (fs : gmap (list string) node)
  : option (gmap (list string) node) :=
  match lookup fs (rev rp) with
  | Some Dir => Some fs
  | Some (File _ _) => None
  | None =>
      match rp with
      | [] => Some fs
      | _ :: rp' =>
          fs' ← mkdirAll rp' fs;
          match lookup fs' (rev rp') with
          | Some Dir => Some (<[rev rp := Dir]> fs')
          | _ => None
          end
      end
  end.

(** [os.MkdirAll(path, 0755)]; the result is whether an error is
    returned.  Access rights are not modelled. *)
Definition MkdirAll (p : list string) : IO bool := λ w,
  match mkdirAll (rev p) (files w) with
  | Some fs => Done false (mkWorld (home w) fs (stdout w))
  | None => Done true w
  end.

(** [os.Stat(path)]: whether an error is returned. *)
Definition Stat (p : list string) : IO bool := λ w,
  Done (bool_decide (lookup (files w) p = None)) w.

(** [os.ReadFile(path)]: [None] is an error. *)
Definition ReadFile (p : list string) : IO (option data) := λ w,
  match lookup (files w) p with
  | Some (File _ d) => Done (Some d) w
  | _ => Done None w
  end.

(** [os.WriteFile(path, data, perm)]: a file that is there is
    overwritten and keeps its mode; else the file is made in its
    directory, which has to be there.  [None] is an error. *)
Definition writeFile (p : list string) (d : data) (perm : Z)
    (fs : gmap (list string) node) : option (gmap (list string) node) :=
  match lookup fs p with
  | Some (File m _) => Some (<[p := File m d]> fs)
  | Some Dir => None
  | None =>
      match lookup fs (removelast p) with
      | Some Dir => Some (<[p := File perm d]> fs)
      | _ => None
      end
  end.

(** The result is whether an error is returned. *)
Definition WriteFile (p : list string) (d : data) (perm : Z) : IO bool := λ w,
  match writeFile p d perm (files w) with
  | Some fs => Done false (mkWorld (home w) fs (stdout w))
  | None => Done true w
  end.

End OS.

Module fmt.
Definition Println (args : list any) : IO unit := λ w,
  Done () (mkWorld (home w) (files w) (stdout w ++ [Println args])).
Definition Printf (format : string) (args : list any) : IO unit := λ w,
  Done () (mkWorld (home w) (files w) (stdout w ++ [Printf format args])).
End fmt.

Module filepath.
Definition Join (elems : list (list string)) : list string := concat elems.
Definition Dir (p : list string) : list string := removelast p.
End filepath.

(** ** main.go *)

Definition printUsage : IO unit :=
  fmt.Println [AString "🔧 Agent Config Manager"];;
  fmt.Println [AString "========================"];;
  fmt.Println [AString ""];;
  fmt.Println [AString "Usage:"];;
  fmt.Println [AString "  acm init        - Create initial configuration"];;
  fmt.Println [AString "  acm show        - Display current configuration"];;
  fmt.Println [AString "  acm get <key>   - Get specific value (e.g., 'wallet.address')"];;
  fmt.Println [AString "  acm set <key> <val> - Set specific value"];;
  fmt.Println [AString "  acm validate    - Validate configuration"];;
  fmt.Println [AString "  acm export      - Export config for all tools"];;
  fmt.Println [AString ""];;
  fmt.Println [AString "Config location: ~/.config/agent/config.json"].

Definition getConfigPath : IO (list string) :=
  home <- OS.UserHomeDir;;
  ret (filepath.Join [home; [".config"]; ["agent"]; ["config.json"]]).

Definition saveConfig (config : AgentConfig) : IO unit :=
  configPath <- getConfigPath;;
  match Codec.Marshal config with
  | None =>
      fmt.Printf ("❌ Failed to marshal config: %v" ++ nl) [AError];;
      OS.Exit 1
  | Some data =>
      (* Set restrictive permissions (no group/other read) *)
      err <- OS.WriteFile configPath (JSON data) 384;;
      if err : bool then
        fmt.Printf ("❌ Failed to write config: %v" ++ nl) [AError];;
        OS.Exit 1
      else ret ()
  end.

Definition defaultConfig : AgentConfig :=
  {| Version := version;
     Agent := {| Name := "Arithmos";
                 ID := "arithmos-quillsworth";
                 ERC8004ID := 1941;
                 Website := "https://arithmos.dev";
                 GitHub := "https://github.com/arithmosquillsworth" |};
     Wallet := {| Address := "0x120e011fB8a12bfcB61e5c1d751C26A5D33Aae91";
                  Networks := Some ["ethereum"; "base"];
                  DailyLimit := Float64.of_decimal false 5 (-1);
                  AlertThreshold := Float64.of_decimal false 1 (-1) |};
     Security := {| FirewallEnabled := true;
                    HoneypotEnabled := true;
                    PromptGuardEnabled := true;
                    SimulatorEnabled := true;
                    WhitelistedAddresses := Some [];
                    BlacklistedAddresses := Some [] |};
     APIKeys := zeroAPIKeysConfig;
     Monitoring := {| DashboardEnabled := true;
                      DashboardPort := 8080;
                      WebhookURL := "";
                      CheckInterval := 5 |} |}.

Definition initConfig : IO unit :=
  configPath <- getConfigPath;;
  let configDir := filepath.Dir configPath in
  (* Create directory *)
  OS.MkdirAll configDir;;
  (* Check if config already exists *)
  err <- OS.Stat configPath;;
  if negb err then
    fmt.Printf ("⚠️  Config already exists at %s" ++ nl) [APath configPath];;
    fmt.Println [AString "   Use 'acm show' to view or 'acm set' to modify"]
  else
    (* Create default config *)
    let config := defaultConfig in
    (* Save config *)
    saveConfig config;;
    fmt.Printf ("✅ Config created at %s" ++ nl) [APath configPath];;
    fmt.Println [AString ""];;
    fmt.Println [AString "Next steps:"];;
    fmt.Println [AString "  1. Add API keys: acm set api_keys.etherscan YOUR_KEY"];;
    fmt.Println [AString "  2. View config:  acm show"];;
    fmt.Println [AString "  3. Validate:     acm validate"].

Definition loadConfig : IO AgentConfig :=
  configPath <- getConfigPath;;
  data <- OS.ReadFile configPath;;
  match data with
  | None =>
      fmt.Printf ("❌ Config not found at %s" ++ nl) [APath configPath];;
      fmt.Println [AString "   Run 'acm init' to create"];;
      OS.Exit 1
  | Some data =>
      let config := zeroAgentConfig in
      match (match data with
             | JSON v => Codec.Unmarshal v config
             | Raw _ => None
             end) with
      | None =>
          fmt.Printf ("❌ Invalid config: %v" ++ nl) [AError];;
          OS.Exit 1
      | Some config => ret config
      end
  end.

Fixpoint repeat_nat (s : string) (n : nat) : string :=
  match n with
  | O => ""
  | S n' => repeat_nat s n' ++ s
  end.

Definition repeat (s : string) (n : Z) : string := repeat_nat s (Z.to_nat n).

Definition boolStatus (b : bool) : string :=
  if b then "✅ enabled" else "❌ disabled".

Definition keyStatus (key : string) : string :=
  if String.eqb key "" then "❌ not set" else "✅ set".

Definition webhookStatus (url : string) : string :=
  if String.eqb url "" then "not configured" else "✅ configured".

Definition showConfig : IO unit :=
  config <- loadConfig;;
  fmt.Println [AString (repeat "═" 60)];;
  fmt.Println [AString "  AGENT CONFIGURATION"];;
  fmt.Println [AString (repeat "═" 60)];;
  fmt.Println [];;
  fmt.Printf ("Version: %s" ++ nl) [AString (Version config)];;
  fmt.Println [];;
  fmt.Println [AString "AGENT:"];;
  fmt.Printf ("  Name:       %s" ++ nl) [AString (Name (Agent config))];;
  fmt.Printf ("  ID:         %s" ++ nl) [AString (ID (Agent config))];;
  fmt.Printf ("  ERC-8004:   #%d" ++ nl) [AInt (ERC8004ID (Agent config))];;
  fmt.Printf ("  Website:    %s" ++ nl) [AString (Website (Agent config))];;
  fmt.Printf ("  GitHub:     %s" ++ nl) [AString (GitHub (Agent config))];;
  fmt.Println [];;
  fmt.Println [AString "WALLET:"];;
  fmt.Printf ("  Address:    %s" ++ nl) [AString (Address (Wallet config))];;
  fmt.Printf ("  Networks:   %v" ++ nl) [AStrings (Networks (Wallet config))];;
  fmt.Printf ("  Daily Limit: %.2f ETH" ++ nl) [AFloat (DailyLimit (Wallet config))];;
  fmt.Printf ("  Alert Threshold: %.2f ETH" ++ nl) [AFloat (AlertThreshold (Wallet config))];;
  fmt.Println [];;
  fmt.Println [AString "SECURITY:"];;
  fmt.Printf ("  Firewall:   %s" ++ nl) [AString (boolStatus (FirewallEnabled (Security config)))];;
  fmt.Printf ("  Honeypot:   %s" ++ nl) [AString (boolStatus (HoneypotEnabled (Security config)))];;
  fmt.Printf ("  Prompt Guard: %s" ++ nl) [AString (boolStatus (PromptGuardEnabled (Security config)))];;
  fmt.Printf ("  Simulator:  %s" ++ nl) [AString (boolStatus (SimulatorEnabled (Security config)))];;
  fmt.Printf ("  Whitelist:  %d addresses" ++ nl) [AInt (len (WhitelistedAddresses (Security config)))];;
  fmt.Printf ("  Blacklist:  %d addresses" ++ nl) [AInt (len (BlacklistedAddresses (Security config)))];;
  fmt.Println [];;
  fmt.Println [AString "API KEYS:"];;
  fmt.Printf ("  Etherscan:  %s" ++ nl) [AString (keyStatus (Etherscan (APIKeys config)))];;
  fmt.Printf ("  Basescan:   %s" ++ nl) [AString (keyStatus (Basescan (APIKeys config)))];;
  fmt.Printf ("  OpenAI:     %s" ++ nl) [AString (keyStatus (OpenAI (APIKeys config)))];;
  fmt.Printf ("  Anthropic:  %s" ++ nl) [AString (keyStatus (Anthropic (APIKeys config)))];;
  fmt.Printf ("  Discord:    %s" ++ nl) [AString (keyStatus (Discord (APIKeys config)))];;
  fmt.Println [];;
  fmt.Println [AString "MONITORING:"];;
  fmt.Printf ("  Dashboard:  %s (port %d)" ++ nl)
    [AString (boolStatus (DashboardEnabled (Monitoring config)));
     AInt (DashboardPort (Monitoring config))];;
  fmt.Printf ("  Check Interval: %d minutes" ++ nl) [AInt (CheckInterval (Monitoring config))];;
  fmt.Printf ("  Webhook:    %s" ++ nl) [AString (webhookStatus (WebhookURL (Monitoring config)))];;
  fmt.Println [];;
  fmt.Println [AString (repeat "═" 60)].

(** The [switch key] of [getValue]: the value handed to [fmt.Println], or
    [None] for the [default] case. *)
Definition getValue_switch (config : AgentConfig) (key : string) : option any :=
  if String.eqb key "agent.name" then Some (AString (Name (Agent config)))
  else if String.eqb key "agent.id" then Some (AString (ID (Agent config)))
  else if String.eqb key "agent.erc8004_id" then Some (AInt (ERC8004ID (Agent config)))
  else if String.eqb key "wallet.address" then Some (AString (Address (Wallet config)))
  else if String.eqb key "wallet.daily_limit" then Some (AFloat (DailyLimit (Wallet config)))
  else if String.eqb key "wallet.alert_threshold" then
    Some (AFloat (AlertThreshold (Wallet config)))
  else if String.eqb key "security.firewall_enabled" then
    Some (ABool (FirewallEnabled (Security config)))
  else if String.eqb key "security.honeypot_enabled" then
    Some (ABool (HoneypotEnabled (Security config)))
  else if String.eqb key "monitoring.dashboard_port" then
    Some (AInt (DashboardPort (Monitoring config)))
  else None.

Definition getValue (key : string) : IO unit :=
  config <- loadConfig;;
  match getValue_switch config key with
  | Some v => fmt.Println [v]
  | None =>
      fmt.Printf ("❌ Unknown key: %s" ++ nl) [AString key];;
      OS.Exit 1
  end.

(** The [switch key] of [setValue]: [config] after the assignment, or [None]
    for the [default] case.  The scanned variables start at zero and the
    results of [Sscanf] are dropped. *)
Definition setValue_switch (config : AgentConfig) (key value : string)
  : option AgentConfig :=
  if String.eqb key "api_keys.etherscan" then
    Some (set_APIKeys (set_Etherscan value) config)
  else if String.eqb key "api_keys.basescan" then
    Some (set_APIKeys (set_Basescan value) config)
  else if String.eqb key "api_keys.openai" then
    Some (set_APIKeys (set_OpenAI value) config)
  else if String.eqb key "api_keys.anthropic" then
    Some (set_APIKeys (set_Anthropic value) config)
  else if String.eqb key "api_keys.discord" then
    Some (set_APIKeys (set_Discord value) config)
  else if String.eqb key "wallet.daily_limit" then
    let limit := Float64.zero in
    let '(limit, _, _) := Fmt.Sscanf_f value limit in
    Some (set_Wallet (set_DailyLimit limit) config)
  else if String.eqb key "wallet.alert_threshold" then
    let threshold := Float64.zero in
    let '(threshold, _, _) := Fmt.Sscanf_f value threshold in
    Some (set_Wallet (set_AlertThreshold threshold) config)
  else if String.eqb key "monitoring.webhook_url" then
    Some (set_Monitoring (set_WebhookURL value) config)
  else if String.eqb key "monitoring.check_interval" then
    let interval := 0 in
    let '(interval, _, _) := Fmt.Sscanf_d value interval in
    Some (set_Monitoring (set_CheckInterval interval) config)
  else None.

Definition setValue (key value : string) : IO unit :=
  config <- loadConfig;;
  match setValue_switch config key value with
  | Some config =>
      saveConfig config;;
      fmt.Printf ("✅ Set %s" ++ nl) [AString key]
  | None =>
      fmt.Printf ("❌ Unknown key: %s" ++ nl) [AString key];;
      OS.Exit 1
  end.

(** The checks of [validateConfig], in its order. *)
Definition validateConfig_issues (config : AgentConfig) : list string :=
  let issues : list string := [] in
  (* Check required fields *)
  let issues :=
    if String.eqb (Address (Wallet config)) ""
    then (issues ++ ["❌ Wallet address not set"])%list else issues in
  let issues :=
    if Float64.leb (DailyLimit (Wallet config)) Float64.zero
    then (issues ++ ["⚠️  Daily limit should be positive"])%list else issues in
  let issues :=
    if String.eqb (Etherscan (APIKeys config)) ""
    then (issues ++ ["⚠️  Etherscan API key not set (needed for monitoring)"])%list
    else issues in
  let issues :=
    if String.eqb (Basescan (APIKeys config)) ""
    then (issues ++ ["⚠️  Basescan API key not set (needed for monitoring)"])%list
    else issues in
  (* Check security settings *)
  let issues :=
    if negb (FirewallEnabled (Security config))
       && negb (HoneypotEnabled (Security config))
    then (issues ++ ["⚠️  All security features disabled"])%list else issues in
  issues.

Fixpoint printEach (issues : list string) : IO unit :=
  match issues with
  | [] => ret ()
  | issue :: rest => fmt.Println [AString issue];; printEach rest
  end.

Definition validateConfig : IO unit :=
  config <- loadConfig;;
  fmt.Println [AString "🔍 Validating configuration..."];;
  fmt.Println [];;
  let issues := validateConfig_issues config in
  (* Print results *)
  if Nat.eqb (length issues) 0 then
    fmt.Println [AString "✅ Configuration is valid!"]
  else
    printEach issues;;
    fmt.Println [];;
    fmt.Printf ("Found %d issue(s)" ++ nl) [AInt (Z.of_nat (length issues))].

Definition exportToolConfig (dir : list string) (filename : string)
    (config : gmap string any) : IO unit :=
  let path := filepath.Join [dir; [filename]] in
  let data := match Codec.MarshalMap config with
              | Some v => JSON v
              | None => Raw ""
              end in
  OS.WriteFile path data 384;;
  ret ().

(** The three maps of [exportConfig]. *)
Definition walletConfig (config : AgentConfig) : gmap string any :=
  list_to_map
    [("address", AString (Address (Wallet config)));
     ("etherscan_key", AString (Etherscan (APIKeys config)));
     ("basescan_key", AString (Basescan (APIKeys config)));
     ("check_interval", AInt (CheckInterval (Monitoring config)));
     ("alert_threshold", AFloat (AlertThreshold (Wallet config)));
     ("webhook_url", AString (WebhookURL (Monitoring config)))].

Definition scannerConfig (config : AgentConfig) : gmap string any :=
  list_to_map
    [("address", AString (Address (Wallet config)));
     ("etherscan_key", AString (Etherscan (APIKeys config)));
     ("basescan_key", AString (Basescan (APIKeys config)))].

Definition dashboardConfig (config : AgentConfig) : gmap string any :=
  list_to_map [("port", AInt (DashboardPort (Monitoring config)))].

Definition exportConfig : IO unit :=
  config <- loadConfig;;
  configPath <- getConfigPath;;
  (* Export individual tool configs *)
  let exportDir := filepath.Join [filepath.Dir configPath; ["exports"]] in
  OS.MkdirAll exportDir;;
  (* Export for wallet-monitor *)
  exportToolConfig exportDir "wallet-monitor.json" (walletConfig config);;
  (* Export for reputation-scanner *)
  exportToolConfig exportDir "reputation-scanner.json" (scannerConfig config);;
  (* Export for security-dashboard *)
  exportToolConfig exportDir "security-dashboard.json" (dashboardConfig config);;
  fmt.Printf ("✅ Exported tool configs to %s/" ++ nl) [APath exportDir];;
  fmt.Println [AString "   - wallet-monitor.json"];;
  fmt.Println [AString "   - reputation-scanner.json"];;
  fmt.Println [AString "   - security-dashboard.json"].

(** [main], with [os.Args] as [args]. *)
Definition main (args : list string) : IO unit :=
  if (length args <? 2)%nat then
    printUsage;;
    OS.Exit 1
  else
    let cmd := nth 1 args "" in
    if String.eqb cmd "init" then initConfig
    else if String.eqb cmd "show" then showConfig
    else if String.eqb cmd "get" then
      if (length args <? 3)%nat then
        fmt.Println [AString "Usage: acm get <key>"];;
        OS.Exit 1
      else getValue (nth 2 args "")
    else if String.eqb cmd "set" then
      if (length args <? 4)%nat then
        fmt.Println [AString "Usage: acm set <key> <value>"];;
        OS.Exit 1
      else setValue (nth 2 args "") (nth 3 args "")
    else if String.eqb cmd "validate" then validateConfig
    else if String.eqb cmd "export" then exportConfig
    else if String.eqb cmd "version" then
      fmt.Printf ("agent-config-manager v%s" ++ nl) [AString version]
    else printUsage.

(** The exit status of the process and the world it leaves. *)
Definition run (args : list string) (w : world) : Z * world :=
  match main args w with
  | Done _ w' => (0, w')
  | Exit code w' => (code, w')
  end.

(** * Properties *)

(** ** What the specification names *)

(** The keys [get] and [set] support, as the specification lists them. *)
Definition gettable_keys : list string :=
  ["agent.name"; "agent.id"; "agent.erc8004_id"; "wallet.address";
   "wallet.daily_limit"; "wallet.alert_threshold"; "security.firewall_enabled";
   "security.honeypot_enabled"; "monitoring.dashboard_port"].

Definition settable_keys : list string :=
  ["api_keys.etherscan"; "api_keys.basescan"; "api_keys.openai";
   "api_keys.anthropic"; "api_keys.discord"; "wallet.daily_limit";
   "wallet.alert_threshold"; "monitoring.webhook_url"; "monitoring.check_interval"].

(** The world after one more call of a printing function. *)
Definition print (e : event) (w : world) : world :=
  mkWorld (home w) (files w) (stdout w ++ [e]).

(** The [UnknownKey] failure: the message and exit status 1. *)
Definition UnknownKey {A} (key : string) (w : world) : result A :=
  Exit 1 (print (Printf ("❌ Unknown key: %s" ++ nl) [AString key]) w).

(** What [validate] reports for a sequence of issues: "valid" when it is
    empty, else every issue and then their number. *)
Definition validate_report (issues : list string) : list event :=
  [Println [AString "🔍 Validating configuration..."]; Println []] ++
  match issues with
  | [] => [Println [AString "✅ Configuration is valid!"]]
  | _ => ((λ issue, Println [AString issue]) <$> issues)
         ++ [Println []; Printf ("Found %d issue(s)" ++ nl) [AInt (Z.of_nat (length issues))]]
  end.

(** What [init] reports when the file is there already. *)
Definition already_exists_report (configPath : list string) : list event :=
  [Printf ("⚠️  Config already exists at %s" ++ nl) [APath configPath];
   Println [AString "   Use 'acm show' to view or 'acm set' to modify"]].

(** What [init] reports when it has made the file. *)
Definition created_report (configPath : list string) : list event :=
  [Printf ("✅ Config created at %s" ++ nl) [APath configPath];
   Println [AString ""];
   Println [AString "Next steps:"];
   Println [AString "  1. Add API keys: acm set api_keys.etherscan YOUR_KEY"];
   Println [AString "  2. View config:  acm show"];
   Println [AString "  3. Validate:     acm validate"]].

(** A valid document: every string is well-formed UTF-8, every integer is
    an int64 and every float is finite.  These are the documents the JSON
    text can hold: the encoder rewrites ill-formed UTF-8, has no text for NaN
    and the infinities, and Go's [int] has no other values. *)
Definition valid_string (s : string) : Prop := Utf8.ValidString s = true.

Definition valid_strings (l : strings) : Prop :=
  match l with
  | None => True
  | Some l => Forall valid_string l
  end.

Definition valid_int (n : Z) : Prop := Json.inInt64 n = true.

Definition valid_float (f : float64) : Prop := Float64.finite f = true.

Definition valid_config (c : AgentConfig) : Prop :=
  valid_string (Version c)
  ∧ (valid_string (Name (Agent c)) ∧ valid_string (ID (Agent c))
     ∧ valid_int (ERC8004ID (Agent c)) ∧ valid_string (Website (Agent c))
     ∧ valid_string (GitHub (Agent c)))
  ∧ (valid_string (Address (Wallet c)) ∧ valid_strings (Networks (Wallet c))
     ∧ valid_float (DailyLimit (Wallet c))
     ∧ valid_float (AlertThreshold (Wallet c)))
  ∧ (valid_strings (WhitelistedAddresses (Security c))
     ∧ valid_strings (BlacklistedAddresses (Security c)))
  ∧ (valid_string (Etherscan (APIKeys c)) ∧ valid_string (Basescan (APIKeys c))
     ∧ valid_string (OpenAI (APIKeys c)) ∧ valid_string (Anthropic (APIKeys c))
     ∧ valid_string (Discord (APIKeys c)))
  ∧ (valid_int (DashboardPort (Monitoring c))
     ∧ valid_string (WebhookURL (Monitoring c))
     ∧ valid_int (CheckInterval (Monitoring c))).

Definition finite_wallet (w : WalletConfig) : Prop :=
  valid_float (DailyLimit w) ∧ valid_float (AlertThreshold w).

(** The member of a JSON object under a key, if there is one. *)
Definition member (k : string) (v : Json.value) : option Json.value :=
  match v with
  | Json.Obj ms => snd <$> List.find (λ m, String.eqb (fst m) k) ms
  | _ => None
  end.

(** Whether a value parses as a number: whether the scan the program runs
    on it, [Sscanf] with [%f] or with [%d], returns no error. *)
Definition parses_as_float (value : string) : bool :=
  negb (snd (Fmt.Sscanf_f value Float64.zero)).

Definition parses_as_int (value : string) : bool :=
  negb (snd (Fmt.Sscanf_d value 0)).

(** Where the export files of a world go, and what [export] makes of the
    files: the directory, then one write for each of the three maps, a
    write that fails leaving the files as they are. *)
Definition exportDir (w : world) : list string :=
  (home w ++ [".config"; "agent"; "exports"])%list.

Definition export_data (m : gmap string any) : data :=
  match Codec.MarshalMap m with
  | Some v => JSON v
  | None => Raw ""
  end.

Definition export_write (dir : list string) (name : string)
    (m : gmap string any) (fs : gmap (list string) node)
  : gmap (list string) node :=
  default fs (OS.writeFile (dir ++ [name]) (export_data m) 384 fs).

Definition export_files (config : AgentConfig) (dir : list string)
    (fs : gmap (list string) node) : gmap (list string) node :=
  export_write dir "security-dashboard.json" (dashboardConfig config)
    (export_write dir "reputation-scanner.json" (scannerConfig config)
       (export_write dir "wallet-monitor.json" (walletConfig config)
          (default fs (OS.mkdirAll (rev dir) fs)))).

Definition exported_report (dir : list string) : list event :=
  [Printf ("✅ Exported tool configs to %s/" ++ nl) [APath dir];
   Println [AString "   - wallet-monitor.json"];
   Println [AString "   - reputation-scanner.json"];
   Println [AString "   - security-dashboard.json"]].

(** A decimal number as text: a sign or none, the digits before the point,
    the point and the digits after it or neither, and the exponent or none
    (its letter, its sign or none, its digits). *)
Record decimal := Decimal {
  d_sign : string;
  d_int : string;
  d_frac : option string;
  d_exp : option (ascii * string * string) }.

Definition frac_text (fp : option string) : string :=
  match fp with
  | Some fd => "." ++ fd
  | None => ""
  end.

Definition exp_text (ex : option (ascii * string * string)) : string :=
  match ex with
  | Some (e, es, ed) => String e (es ++ ed)
  | None => ""
  end.

Definition decimal_text (d : decimal) : string :=
  d_sign d ++ d_int d ++ frac_text (d_frac d) ++ exp_text (d_exp d).

Fixpoint all_in (ok : string) (s : string) : bool :=
  match s with
  | EmptyString => true
  | String c s' => indexRune ok c && all_in ok s'
  end.

Definition starts_in (ok : string) (s : string) : bool :=
  match s with
  | String c _ => indexRune ok c
  | EmptyString => false
  end.

Definition is_sign (sg : string) : bool :=
  String.eqb sg "" || String.eqb sg "+" || String.eqb sg "-".

(** The parts are what they are called; there are digits before the point
    when there is no point, and the exponent has digits. *)
Definition decimal_wf (d : decimal) : bool :=
  is_sign (d_sign d)
  && all_in decimalDigits (d_int d)
  && match d_frac d with
     | Some fd => all_in decimalDigits fd
     | None => negb (String.eqb (d_int d) "")
     end
  && match d_exp d with
     | Some (e, es, ed) =>
         indexRune "eE" e && is_sign es && all_in decimalDigits ed
         && negb (String.eqb ed "")
     | None => true
     end.

(** Trailing text at which the scan of a float, or of an integer, stops:
    empty, or starting with a character the scanner cannot take for a part of
    the number. *)
Definition stops_float (t : string) : bool :=
  negb (starts_in "0123456789_.eEpPxX" t).

Definition stops_int (t : string) : bool := negb (starts_in decimalDigits t).

(** Text that is not empty and in which no character is a decimal digit. *)
Fixpoint no_digit (s : string) : bool :=
  match s with
  | EmptyString => true
  | String c s' => negb (isDigit c) && no_digit s'
  end.

Definition non_numeric (t : string) : bool :=
  negb (String.eqb t "") && no_digit t.

(** Where the configuration file of a world is. *)
Definition configPath (w : world) : list string :=
  (home w ++ [".config"; "agent"; "config.json"])%list.

(** The fields of the document, one by one. *)
Inductive field :=
  | FVersion
  | FName | FID | FERC8004ID | FWebsite | FGitHub
  | FAddress | FNetworks | FDailyLimit | FAlertThreshold
  | FFirewallEnabled | FHoneypotEnabled | FPromptGuardEnabled
  | FSimulatorEnabled | FWhitelistedAddresses | FBlacklistedAddresses
  | FEtherscan | FBasescan | FOpenAI | FAnthropic | FDiscord
  | FDashboardEnabled | FDashboardPort | FWebhookURL | FCheckInterval.

Definition get_field (f : field) (c : AgentConfig) : any :=
  match f with
  | FVersion => AString (Version c)
  | FName => AString (Name (Agent c))
  | FID => AString (ID (Agent c))
  | FERC8004ID => AInt (ERC8004ID (Agent c))
  | FWebsite => AString (Website (Agent c))
  | FGitHub => AString (GitHub (Agent c))
  | FAddress => AString (Address (Wallet c))
  | FNetworks => AStrings (Networks (Wallet c))
  | FDailyLimit => AFloat (DailyLimit (Wallet c))
  | FAlertThreshold => AFloat (AlertThreshold (Wallet c))
  | FFirewallEnabled => ABool (FirewallEnabled (Security c))
  | FHoneypotEnabled => ABool (HoneypotEnabled (Security c))
  | FPromptGuardEnabled => ABool (PromptGuardEnabled (Security c))
  | FSimulatorEnabled => ABool (SimulatorEnabled (Security c))
  | FWhitelistedAddresses => AStrings (WhitelistedAddresses (Security c))
  | FBlacklistedAddresses => AStrings (BlacklistedAddresses (Security c))
  | FEtherscan => AString (Etherscan (APIKeys c))
  | FBasescan => AString (Basescan (APIKeys c))
  | FOpenAI => AString (OpenAI (APIKeys c))
  | FAnthropic => AString (Anthropic (APIKeys c))
  | FDiscord => AString (Discord (APIKeys c))
  | FDashboardEnabled => ABool (DashboardEnabled (Monitoring c))
  | FDashboardPort => AInt (DashboardPort (Monitoring c))
  | FWebhookURL => AString (WebhookURL (Monitoring c))
  | FCheckInterval => AInt (CheckInterval (Monitoring c))
  end.

(** The field a settable key addresses. *)
Definition field_of_key (key : string) : option field :=
  if String.eqb key "api_keys.etherscan" then Some FEtherscan
  else if String.eqb key "api_keys.basescan" then Some FBasescan
  else if String.eqb key "api_keys.openai" then Some FOpenAI
  else if String.eqb key "api_keys.anthropic" then Some FAnthropic
  else if String.eqb key "api_keys.discord" then Some FDiscord
  else if String.eqb key "wallet.daily_limit" then Some FDailyLimit
  else if String.eqb key "wallet.alert_threshold" then Some FAlertThreshold
  else if String.eqb key "monitoring.webhook_url" then Some FWebhookURL
  else if String.eqb key "monitoring.check_interval" then Some FCheckInterval
  else None.

(** A world whose configuration file holds the empty object. *)
Definition blankWorld : world :=
  mkWorld ["home"; "agent"]
    {[ ["home"; "agent"; ".config"; "agent"; "config.json"]
         := File 384 (JSON (Json.Obj [])) ]} [].

(** The world a run ends in. *)
Definition world_of {A} (r : result A) : world :=
  match r with
  | Done _ w => w
  | Exit _ w => w
  end.

(** A world to run examples in: an empty file system, and the same after
    [acm init]. *)
Definition emptyWorld : world := mkWorld ["home"; "agent"] ∅ [].
Definition initWorld : world :=
  mkWorld ["home"; "agent"] (files (snd (run ["acm"; "init"] emptyWorld))) [].

(** ** What the further properties name *)

(** The failures of [loadConfig] and of [saveConfig]: the message and exit
    status 1. *)
Definition NotFound {A} (w : world) : result A :=
  Exit 1 (print (Println [AString "   Run 'acm init' to create"])
            (print (Printf ("❌ Config not found at %s" ++ nl)
                      [APath (configPath w)]) w)).

Definition Malformed {A} (w : world) : result A :=
  Exit 1 (print (Printf ("❌ Invalid config: %v" ++ nl) [AError]) w).

Definition MarshalError {A} (w : world) : result A :=
  Exit 1 (print (Printf ("❌ Failed to marshal config: %v" ++ nl) [AError]) w).

Definition WriteError {A} (w : world) : result A :=
  Exit 1 (print (Printf ("❌ Failed to write config: %v" ++ nl) [AError]) w).

(** What [os.ReadFile] finds at the configuration path, and what
    [json.Unmarshal] makes of it. *)
Definition stored (w : world) : option data :=
  match OS.lookup (files w) (configPath w) with
  | Some (File _ d) => Some d
  | _ => None
  end.

Definition decode (d : data) : option AgentConfig :=
  match d with
  | JSON v => Codec.Unmarshal v zeroAgentConfig
  | Raw _ => None
  end.

(** The exit status of a run. *)
Definition exit_code {A} (r : result A) : Z :=
  match r with
  | Done _ _ => 0
  | Exit code _ => code
  end.

(** The three files [exportConfig] writes. *)
Definition exportPaths (w : world) : list (list string) :=
  [(exportDir w ++ ["wallet-monitor.json"])%list;
   (exportDir w ++ ["reputation-scanner.json"])%list;
   (exportDir w ++ ["security-dashboard.json"])%list].

(** The subcommands [main] knows. *)
Definition commands : list string :=
  ["init"; "show"; "get"; "set"; "validate"; "export"; "version"].

(** Two entries of the same kind: both directories, or both files of the
    same mode. *)
Definition same_kind (x y : node) : Prop :=
  match x, y with
  | Dir, Dir => True
  | File perm _, File perm' _ => perm = perm'
  | _, _ => False
  end.

(** How a command leaves: through [os.Exit] with status 1 and every file as
    it was, or by returning with files of which [Q] holds. *)
Definition outcome {A : Type} (Q : gmap (list string) node → Prop) (w : world)
    (r : result A) : Prop :=
  match r with
  | Exit code w' => code = 1 ∧ files w' = files w
  | Done _ w' => Q (files w')
  end.

(** The settable keys whose value is stored as it is given. *)
Definition string_keys : list string :=
  ["api_keys.etherscan"; "api_keys.basescan"; "api_keys.openai";
   "api_keys.anthropic"; "api_keys.discord"; "monitoring.webhook_url"].

(** The world after a [set] that has returned: the file rewritten and the
    success line printed. *)
Definition after_set (key : string) (perm : Z) (v : Json.value) (w : world)
  : world :=
  mkWorld (home w) (<[configPath w := File perm (JSON v)]> (files w))
    (stdout w ++ [Printf ("✅ Set %s" ++ nl) [AString key]]).

(** The keys whose value [setValue] scans as a number. *)
Definition float_keys : list string :=
  ["wallet.daily_limit"; "wallet.alert_threshold"].

(** Space, tab, vertical tab, form feed and carriage return: the white
    space of one byte other than the newline. *)
Definition blanks : string :=
  String (byte_of 32) (String (byte_of 9) (String (byte_of 11)
    (String (byte_of 12) (String (byte_of 13) "")))).

(** What [showConfig] shows of a document: the secrets, which are the five
    API keys and the webhook URL, only as set or not set, and the two
    address lists only by their length. *)
Definition mask (s : string) : string :=
  if String.eqb s "" then "" else "*".

Definition count (l : strings) : strings :=
  Some (replicate (length (default [] l)) "").

Definition redact (c : AgentConfig) : AgentConfig :=
  {| Version := Version c;
     Agent := Agent c;
     Wallet := Wallet c;
     Security :=
       {| FirewallEnabled := FirewallEnabled (Security c);
          HoneypotEnabled := HoneypotEnabled (Security c);
          PromptGuardEnabled := PromptGuardEnabled (Security c);
          SimulatorEnabled := SimulatorEnabled (Security c);
          WhitelistedAddresses := count (WhitelistedAddresses (Security c));
          BlacklistedAddresses := count (BlacklistedAddresses (Security c)) |};
     APIKeys :=
       {| Etherscan := mask (Etherscan (APIKeys c));
          Basescan := mask (Basescan (APIKeys c));
          OpenAI := mask (OpenAI (APIKeys c));
          Anthropic := mask (Anthropic (APIKeys c));
          Discord := mask (Discord (APIKeys c)) |};
     Monitoring :=
       {| DashboardEnabled := DashboardEnabled (Monitoring c);
          DashboardPort := DashboardPort (Monitoring c);
          WebhookURL := mask (WebhookURL (Monitoring c));
          CheckInterval := CheckInterval (Monitoring c) |} |}.

(** A world in which a regular file is where the export directory should
    be. *)
Definition blockedWorld : world :=
  mkWorld ["home"; "agent"]
    (<[ ["home"; "agent"; ".config"; "agent"; "exports"] := File 420 (Raw "x") ]>
       (files initWorld)) [].




(** ** The steps of the monad *)

Lemma getConfigPath_eq w : getConfigPath w = Done (configPath w) w.
Proof. reflexivity. Qed.

Lemma Dir_configPath w :
  filepath.Dir (configPath w) = (home w ++ [".config"; "agent"])%list.
Proof.
  unfold filepath.Dir, configPath.
  rewrite removelast_app by discriminate. reflexivity.
Qed.

(** What a successful [loadConfig] has seen, and that it changes nothing. *)
Lemma loadConfig_Done w w' config :
  loadConfig w = Done config w' ↔
  w' = w ∧ ∃ perm v,
    OS.lookup (files w) (configPath w) = Some (File perm (JSON v))
    ∧ Codec.Unmarshal v zeroAgentConfig = Some config.
Proof.
  unfold loadConfig, bind. rewrite getConfigPath_eq. unfold OS.ReadFile.
  destruct (OS.lookup (files w) (configPath w)) as [[|perm [v|raw]]|] eqn:E;
    cbn; try (split; [discriminate | intros (_ & ? & ? & [=] & _)]).
  destruct (Codec.Unmarshal v zeroAgentConfig) as [c|] eqn:U; cbn.
  - split.
    + intros [= <- <-]. eauto.
    + intros (-> & ? & ? & [= <- <-] & H). unfold ret. congruence.
  - split; [discriminate | intros (_ & ? & ? & [= <- <-] & H); congruence].
Qed.

Lemma loadConfig_same w w' config : loadConfig w = Done config w' → w' = w.
Proof. intros H. apply loadConfig_Done in H. tauto. Qed.

(** ** The dispatch on the key *)

Ltac case_key key :=
  repeat match goal with
    | |- context [String.eqb key ?s] =>
        destruct (String.eqb_spec key s) as [->|?]
    end.

Lemma getValue_switch_Some config key :
  is_Some (getValue_switch config key) ↔ key ∈ gettable_keys.
Proof.
  unfold getValue_switch, gettable_keys.
  rewrite !elem_of_cons, elem_of_nil.
  case_key key; split; intros H; eauto 10; try tauto.
  destruct H as [? [=]].
Qed.

Lemma setValue_switch_Some config key value :
  is_Some (setValue_switch config key value) ↔ key ∈ settable_keys.
Proof.
  unfold setValue_switch, settable_keys.
  rewrite !elem_of_cons, elem_of_nil.
  case_key key;
    try destruct (Fmt.Sscanf_f _ _) as [[? ?] ?];
    try destruct (Fmt.Sscanf_d _ _) as [[? ?] ?];
    split; intros H; eauto 10; try tauto.
  destruct H as [? [=]].
Qed.
Ltac io_simpl :=
  repeat (unfold bind, ret, fmt.Println, fmt.Printf, OS.Exit; cbn).

Lemma loadConfig_blankWorld : loadConfig blankWorld = Done zeroAgentConfig blankWorld.
Proof. vm_compute. reflexivity. Qed.

Lemma loadConfig_initWorld : loadConfig initWorld = Done defaultConfig initWorld.
Proof. vm_compute. reflexivity. Qed.

(** C1: the dotted-key dispatch tables are closed and asymmetric.  For a
    loaded document, the switch of [getValue] has a case for [key] exactly
    when [key] is one of the nine gettable keys and the switch of [setValue]
    exactly when it is one of the nine settable keys; [get] of a gettable key
    prints the field, and [get] or [set] of any other key ends the run with
    the Unknown-key message and exit status 1.  [wallet.networks] is not
    gettable and [wallet.address] is not settable, though the latter is
    gettable. *)
Theorem C1_dispatch_tables_closed_asymmetric :
  ∀ (w w' : world) (config : AgentConfig) (key value : string),
    loadConfig w = Done config w' →
    (is_Some (getValue_switch config key) ↔ key ∈ gettable_keys)
    ∧ (is_Some (setValue_switch config key value) ↔ key ∈ settable_keys)
    ∧ (key ∈ gettable_keys →
       ∃ v, getValue_switch config key = Some v
            ∧ getValue key w = Done () (print (Println [v]) w'))
    ∧ (key ∉ gettable_keys → getValue key w = UnknownKey key w')
    ∧ (key ∉ settable_keys → setValue key value w = UnknownKey key w')
    ∧ ("wallet.networks" ∉ gettable_keys)
    ∧ ("wallet.address" ∉ settable_keys)
    ∧ ("wallet.address" ∈ gettable_keys)
    ∧ ("api_keys.etherscan" ∈ settable_keys)
    ∧ ("api_keys.etherscan" ∉ gettable_keys).
Proof.
  intros w w' config key value Hload.
  pose proof (getValue_switch_Some config key) as Hget.
  pose proof (setValue_switch_Some config key value) as Hset.
  repeat split; try apply Hget; try apply Hset.
  - intros Hin. apply Hget in Hin as [v Hv]. exists v. split; [done|].
    unfold getValue, bind. rewrite Hload, Hv. reflexivity.
  - intros Hout. unfold getValue, bind. rewrite Hload.
    destruct (getValue_switch config key) eqn:E; [|reflexivity].
    destruct Hout. apply Hget. eauto.
  - intros Hout. unfold setValue, bind. rewrite Hload.
    destruct (setValue_switch config key value) eqn:E; [|reflexivity].
    destruct Hout. apply Hset. eauto.
  - unfold gettable_keys. rewrite !elem_of_cons, elem_of_nil. intuition discriminate.
  - unfold settable_keys. rewrite !elem_of_cons, elem_of_nil. intuition discriminate.
  - unfold gettable_keys. rewrite !elem_of_cons. tauto.
  - unfold settable_keys. rewrite !elem_of_cons. tauto.
  - unfold gettable_keys. rewrite !elem_of_cons, elem_of_nil. intuition discriminate.
Qed.

Lemma C1_witness :
  loadConfig initWorld = Done defaultConfig initWorld
  ∧ getValue "wallet.networks" initWorld = UnknownKey "wallet.networks" initWorld
  ∧ setValue "wallet.address" "0xABC" initWorld = UnknownKey "wallet.address" initWorld.
Proof.
  pose proof (C1_dispatch_tables_closed_asymmetric initWorld initWorld
                defaultConfig "wallet.networks" "0xABC" loadConfig_initWorld)
    as (_ & _ & _ & Hget & _ & Hnot & _).
  pose proof (C1_dispatch_tables_closed_asymmetric initWorld initWorld
                defaultConfig "wallet.address" "0xABC" loadConfig_initWorld)
    as (_ & _ & _ & _ & Hset & _ & Hnot' & _).
  split; [exact loadConfig_initWorld|]. split; [exact (Hget Hnot) | exact (Hset Hnot')].
Defined.
(** What a successful [saveConfig] has done. *)
Lemma saveConfig_Done config w w' :
  saveConfig config w = Done () w' ↔
  ∃ v fs, Codec.Marshal config = Some v
          ∧ OS.writeFile (configPath w) (JSON v) 384 (files w) = Some fs
          ∧ w' = mkWorld (home w) fs (stdout w).
Proof.
  unfold saveConfig, bind. rewrite getConfigPath_eq.
  destruct (Codec.Marshal config) as [v|]; cbn.
  - unfold OS.WriteFile.
    destruct (OS.writeFile (configPath w) (JSON v) 384 (files w)) as [fs|] eqn:Hw; cbn.
    + split.
      * intros [= <-]. eauto.
      * intros (? & ? & [= <-] & Hw' & ->). unfold ret. congruence.
    + split; [discriminate | intros (? & ? & [= <-] & Hw' & _); congruence].
  - split; [discriminate | intros (? & ? & [=] & _)].
Qed.

(** The fields tell documents apart. *)
Lemma get_field_ext c c' : (∀ f, get_field f c = get_field f c') → c = c'.
Proof.
  intros H.
  destruct c as [v [] [] [] [] []], c' as [v' [] [] [] [] []].
  pose proof (H FVersion); pose proof (H FName); pose proof (H FID);
  pose proof (H FERC8004ID); pose proof (H FWebsite); pose proof (H FGitHub);
  pose proof (H FAddress); pose proof (H FNetworks); pose proof (H FDailyLimit);
  pose proof (H FAlertThreshold); pose proof (H FFirewallEnabled);
  pose proof (H FHoneypotEnabled); pose proof (H FPromptGuardEnabled);
  pose proof (H FSimulatorEnabled); pose proof (H FWhitelistedAddresses);
  pose proof (H FBlacklistedAddresses); pose proof (H FEtherscan);
  pose proof (H FBasescan); pose proof (H FOpenAI); pose proof (H FAnthropic);
  pose proof (H FDiscord); pose proof (H FDashboardEnabled);
  pose proof (H FDashboardPort); pose proof (H FWebhookURL);
  pose proof (H FCheckInterval).
  cbn in *. congruence.
Qed.

(** The assignment a settable key stands for touches its field only. *)
Lemma setValue_switch_frame config key value config' :
  setValue_switch config key value = Some config' →
  ∃ fld, field_of_key key = Some fld
         ∧ ∀ f, f ≠ fld → get_field f config' = get_field f config.
Proof.
  unfold setValue_switch, field_of_key.
  case_key key;
    try destruct (Fmt.Sscanf_f _ _) as [[? ?] ?];
    try destruct (Fmt.Sscanf_d _ _) as [[? ?] ?];
    intros [= <-]; eexists; (split; [reflexivity|]);
    intros [] Hne; try reflexivity; destruct Hne; reflexivity.
Qed.

(** C7: a successful [set] mutates only the field its key addresses.  When
    [setValue] returns, the key was a settable one, the document it loaded
    and the document it saved agree on every field but the one the key
    addresses, and nothing but the configuration file has changed on
    disk. *)
Theorem C7_set_mutates_only_addressed_field :
  ∀ (w w' : world) (key value : string),
    setValue key value w = Done () w' →
    ∃ (config config' : AgentConfig) (fld : field) (v : Json.value) (node : node),
      loadConfig w = Done config w
      ∧ setValue_switch config key value = Some config'
      ∧ field_of_key key = Some fld
      ∧ (∀ f, f ≠ fld → get_field f config' = get_field f config)
      ∧ Codec.Marshal config' = Some v
      ∧ files w' = <[configPath w := node]> (files w)
      ∧ (∃ perm, node = File perm (JSON v)).
Proof.
  intros w w' key value H. unfold setValue, bind in H.
  destruct (loadConfig w) as [config w1|] eqn:Hload; [|discriminate].
  pose proof (loadConfig_same _ _ _ Hload) as ->.
  destruct (setValue_switch config key value) as [config'|] eqn:Hsw;
    [|discriminate].
  destruct (saveConfig config' w) as [[] w2|] eqn:Hsave; [|discriminate].
  apply saveConfig_Done in Hsave as (v & fs & Hm & Hw & ->).
  injection H as <-.
  destruct (setValue_switch_frame _ _ _ _ Hsw) as (fld & Hfld & Hframe).
  unfold OS.writeFile in Hw.
  destruct (OS.lookup (files w) (configPath w)) as [[|perm d]|].
  - discriminate.
  - injection Hw as <-. exists config, config', fld, v, (File perm (JSON v)).
    cbn. eauto 10.
  - destruct (OS.lookup (files w) (removelast (configPath w))) as [[|]|];
      try discriminate.
    injection Hw as <-. exists config, config', fld, v, (File 384 (JSON v)).
    cbn. eauto 10.
Qed.

Lemma C7_witness :
  ∃ (config config' : AgentConfig) (fld : field) (v : Json.value) (node : node),
    loadConfig initWorld = Done config initWorld
    ∧ setValue_switch config "api_keys.etherscan" "E1" = Some config'
    ∧ field_of_key "api_keys.etherscan" = Some fld
    ∧ (∀ f, f ≠ fld → get_field f config' = get_field f config)
    ∧ Codec.Marshal config' = Some v
    ∧ files (world_of (setValue "api_keys.etherscan" "E1" initWorld))
      = <[configPath initWorld := node]> (files initWorld)
    ∧ (∃ perm, node = File perm (JSON v)).
Proof.
  apply (C7_set_mutates_only_addressed_field initWorld
           (world_of (setValue "api_keys.etherscan" "E1" initWorld))
           "api_keys.etherscan" "E1").
  vm_compute. reflexivity.
Defined.
Lemma printEach_eq issues w :
  printEach issues w
  = Done () (mkWorld (home w) (files w)
               (stdout w ++ ((λ issue, Println [AString issue]) <$> issues))).
Proof.
  revert w. induction issues as [|issue rest IH]; intros w; cbn.
  - rewrite app_nil_r. by destruct w.
  - io_simpl. rewrite IH. cbn. by rewrite <- app_assoc.
Qed.

(** What [validateConfig] does once the document is loaded: it prints the
    report and touches nothing else. *)
Lemma validateConfig_loaded w w' config :
  loadConfig w = Done config w' →
  validateConfig w
  = Done () (mkWorld (home w) (files w)
               (stdout w ++ validate_report (validateConfig_issues config))).
Proof.
  intros Hload. pose proof (loadConfig_same _ _ _ Hload) as ->.
  unfold validateConfig, bind. rewrite Hload. cbn.
  unfold validate_report.
  destruct (validateConfig_issues config) as [|i l] eqn:E; io_simpl.
  - by rewrite <- !app_assoc.
  - rewrite printEach_eq. io_simpl. by rewrite <- !app_assoc.
Qed.

(** C4: [validate] evaluates five rules in a fixed order and appends one
    issue for each rule that fails: the issue sequence is the concatenation,
    in the order (1) wallet address empty, (2) daily limit <= 0, (3) etherscan
    key empty, (4) basescan key empty, (5) firewall and honeypot both off, of
    one message per failed rule.  A document failing all five gets exactly
    the five issues in that order; a document failing none gets the empty
    sequence and the report says "valid". *)
Theorem C4_validate_five_rules_in_order :
  ∀ (w w' : world) (config : AgentConfig),
    loadConfig w = Done config w' →
    let r1 := bool_decide (Address (Wallet config) = "") in
    let r2 := Float64.leb (DailyLimit (Wallet config)) Float64.zero in
    let r3 := bool_decide (Etherscan (APIKeys config) = "") in
    let r4 := bool_decide (Basescan (APIKeys config) = "") in
    let r5 := negb (FirewallEnabled (Security config))
              && negb (HoneypotEnabled (Security config)) in
    let issues := validateConfig_issues config in
    issues
    = ((if r1 then ["❌ Wallet address not set"] else [])
       ++ (if r2 then ["⚠️  Daily limit should be positive"] else [])
       ++ (if r3 then ["⚠️  Etherscan API key not set (needed for monitoring)"] else [])
       ++ (if r4 then ["⚠️  Basescan API key not set (needed for monitoring)"] else [])
       ++ (if r5 then ["⚠️  All security features disabled"] else []))%list
    ∧ (r1 && r2 && r3 && r4 && r5 = true →
       issues = ["❌ Wallet address not set";
                 "⚠️  Daily limit should be positive";
                 "⚠️  Etherscan API key not set (needed for monitoring)";
                 "⚠️  Basescan API key not set (needed for monitoring)";
                 "⚠️  All security features disabled"]
       ∧ length issues = 5%nat)
    ∧ (r1 || r2 || r3 || r4 || r5 = false →
       issues = []
       ∧ validateConfig w
         = Done () (mkWorld (home w) (files w)
                      (stdout w ++ [Println [AString "🔍 Validating configuration..."];
                                    Println [];
                                    Println [AString "✅ Configuration is valid!"]])))
    ∧ validateConfig w
      = Done () (mkWorld (home w) (files w) (stdout w ++ validate_report issues)).
Proof.
  intros w w' config Hload r1 r2 r3 r4 r5 issues.
  assert (Hissues : issues
    = ((if r1 then ["❌ Wallet address not set"] else [])
       ++ (if r2 then ["⚠️  Daily limit should be positive"] else [])
       ++ (if r3 then ["⚠️  Etherscan API key not set (needed for monitoring)"] else [])
       ++ (if r4 then ["⚠️  Basescan API key not set (needed for monitoring)"] else [])
       ++ (if r5 then ["⚠️  All security features disabled"] else []))%list).
  { subst issues r1 r2 r3 r4 r5. unfold validateConfig_issues.
    destruct (String.eqb_spec (Address (Wallet config)) "") as [->|?];
    destruct (String.eqb_spec (Etherscan (APIKeys config)) "") as [->|?];
    destruct (String.eqb_spec (Basescan (APIKeys config)) "") as [->|?];
    repeat case_bool_decide; try done;
    destruct (Float64.leb _ _), (FirewallEnabled _), (HoneypotEnabled _);
    reflexivity. }
  pose proof (validateConfig_loaded _ _ _ Hload) as Hrun. fold issues in Hrun.
  split; [exact Hissues|]. split; [|split; [|exact Hrun]].
  - intros Hall. rewrite Hissues.
    destruct r1, r2, r3, r4, r5; try discriminate. split; reflexivity.
  - intros Hnone. assert (issues = []) as Hnil.
    { rewrite Hissues. destruct r1, r2, r3, r4, r5; try discriminate. reflexivity. }
    split; [exact Hnil|]. rewrite Hrun, Hnil. reflexivity.
Qed.

Lemma C4_witness :
  validateConfig_issues zeroAgentConfig
  = ["❌ Wallet address not set";
     "⚠️  Daily limit should be positive";
     "⚠️  Etherscan API key not set (needed for monitoring)";
     "⚠️  Basescan API key not set (needed for monitoring)";
     "⚠️  All security features disabled"]
  ∧ length (validateConfig_issues zeroAgentConfig) = 5%nat.
Proof.
  pose proof (C4_validate_five_rules_in_order blankWorld blankWorld
                zeroAgentConfig loadConfig_blankWorld) as (_ & Hall & _).
  apply Hall. reflexivity.
Defined.

(** [loadConfig] writes no file, whether it succeeds or not. *)
Lemma loadConfig_files w : files (world_of (loadConfig w)) = files w.
Proof.
  unfold loadConfig, bind. rewrite getConfigPath_eq. unfold OS.ReadFile.
  destruct (OS.lookup (files w) (configPath w)) as [[|perm [v|raw]]|];
    try reflexivity.
  cbn. destruct (Codec.Unmarshal v zeroAgentConfig); reflexivity.
Qed.

(** C8: [validate] never mutates the document and never ends the
    invocation with a non-zero exit status.  For every loaded document the
    run of [acm validate] returns with status 0 whatever the number of
    issues, and leaves every file as it was; the files are left as they were
    also when the document cannot be loaded. *)
Theorem C8_validate_never_mutates_never_fails :
  ∀ (w w' : world) (config : AgentConfig),
    loadConfig w = Done config w' →
    (∃ w'', validateConfig w = Done () w''
            ∧ run ["acm"; "validate"] w = (0, w'')
            ∧ files w'' = files w
            ∧ loadConfig w'' = Done config w'')
    ∧ (∀ w0, files (world_of (validateConfig w0)) = files w0).
Proof.
  intros w w' config Hload.
  pose proof (validateConfig_loaded _ _ _ Hload) as Hrun.
  split.
  - eexists. split; [exact Hrun|]. split; [|split].
    + unfold run. cbn. rewrite Hrun. reflexivity.
    + reflexivity.
    + pose proof (loadConfig_same _ _ _ Hload) as ->.
      apply loadConfig_Done in Hload as (_ & perm & v & Hl & Hu).
      apply loadConfig_Done. split; [reflexivity|]. exists perm, v. auto.
  - intros w0. unfold validateConfig, bind.
    pose proof (loadConfig_files w0) as Hf.
    destruct (loadConfig w0) as [c w1|code w1] eqn:E; cbn in Hf; [|exact Hf].
    pose proof (validateConfig_loaded _ _ _ E) as Hrun0.
    unfold validateConfig, bind in Hrun0. rewrite E in Hrun0.
    rewrite Hrun0. reflexivity.
Qed.

Lemma C8_witness :
  (∃ w'', validateConfig blankWorld = Done () w''
          ∧ run ["acm"; "validate"] blankWorld = (0, w'')
          ∧ files w'' = files blankWorld
          ∧ loadConfig w'' = Done zeroAgentConfig w'')
  ∧ (∀ w0, files (world_of (validateConfig w0)) = files w0).
Proof.
  exact (C8_validate_never_mutates_never_fails blankWorld blankWorld
           zeroAgentConfig loadConfig_blankWorld).
Defined.
(** ** The file system *)

Lemma lookup_configPath w fs :
  OS.lookup fs (configPath w) = fs !! configPath w.
Proof. unfold configPath. destruct (home w); reflexivity. Qed.

Lemma lookup_nonempty fs (p : list string) : p ≠ [] → OS.lookup fs p = fs !! p.
Proof. destruct p; [done | reflexivity]. Qed.

Lemma rev_cons_nonempty (c : string) rp : rev (c :: rp) ≠ [].
Proof. cbn. intros H. by apply app_eq_nil in H as [_ [=]]. Qed.

Lemma mkdirAll_unfold rp fs :
  OS.mkdirAll rp fs =
  match OS.lookup fs (rev rp) with
  | Some Dir => Some fs
  | Some (File _ _) => None
  | None =>
      match rp with
      | [] => Some fs
      | _ :: rp' =>
          fs' ← OS.mkdirAll rp' fs;
          match OS.lookup fs' (rev rp') with
          | Some Dir => Some (<[rev rp := Dir]> fs')
          | _ => None
          end
      end
  end.
Proof. destruct rp; reflexivity. Qed.

(** [MkdirAll] leaves what is there as it is. *)
Lemma mkdirAll_preserves rp : ∀ fs fs' p x,
  OS.mkdirAll rp fs = Some fs' → fs !! p = Some x → fs' !! p = Some x.
Proof.
  induction rp as [|c rp IH]; intros fs fs' p x H Hp.
  - cbn in H. injection H as <-. exact Hp.
  - rewrite mkdirAll_unfold in H.
    destruct (OS.lookup fs (rev (c :: rp))) as [[|]|] eqn:E.
    + injection H as <-. exact Hp.
    + discriminate.
    + destruct (OS.mkdirAll rp fs) as [fs1|] eqn:E1; [|discriminate]. cbn in H.
      destruct (OS.lookup fs1 (rev rp)) as [[|]|]; try discriminate.
      injection H as <-.
      rewrite lookup_nonempty in E by apply rev_cons_nonempty.
      destruct (decide (rev (c :: rp) = p)) as [<-|Hne]; [congruence|].
      rewrite lookup_insert_ne by done. eauto.
Qed.

(** It makes nothing below the directory asked for. *)
Lemma mkdirAll_longer rp : ∀ fs fs' (p : list string),
  OS.mkdirAll rp fs = Some fs' → (length rp < length p)%nat → fs' !! p = fs !! p.
Proof.
  induction rp as [|c rp IH]; intros fs fs' p H Hp.
  - cbn in H. by injection H as <-.
  - rewrite mkdirAll_unfold in H.
    destruct (OS.lookup fs (rev (c :: rp))) as [[|]|] eqn:E.
    + by injection H as <-.
    + discriminate.
    + destruct (OS.mkdirAll rp fs) as [fs1|] eqn:E1; [|discriminate]. cbn in H.
      destruct (OS.lookup fs1 (rev rp)) as [[|]|]; try discriminate.
      injection H as <-.
      rewrite lookup_insert_ne.
      * apply IH; [done | cbn in Hp; lia].
      * intros Heq. apply (f_equal length) in Heq.
        rewrite length_app, length_rev in Heq. cbn in *. lia.
Qed.

(** When it succeeds the directory is there. *)
Lemma mkdirAll_Dir rp fs fs' :
  OS.mkdirAll rp fs = Some fs' → OS.lookup fs' (rev rp) = Some Dir.
Proof.
  intros H. rewrite mkdirAll_unfold in H.
  destruct (OS.lookup fs (rev rp)) as [[|]|] eqn:E.
  - by injection H as <-.
  - discriminate.
  - destruct rp as [|c rp]; [by injection H as <-|].
    destruct (OS.mkdirAll rp fs) as [fs1|]; [|discriminate]. cbn in H.
    destruct (OS.lookup fs1 (rev rp)) as [[|]|]; try discriminate.
    injection H as <-.
    rewrite lookup_nonempty by apply rev_cons_nonempty.
    apply lookup_insert_eq.
Qed.

Lemma mkdirAll_there rp fs :
  OS.lookup fs (rev rp) = Some Dir → OS.mkdirAll rp fs = Some fs.
Proof. intros H. rewrite mkdirAll_unfold, H. reflexivity. Qed.

(** What [initConfig] does when the file is there: its report, and the
    directories [MkdirAll] may have made. *)
Lemma initConfig_existing w :
  is_Some (files w !! configPath w) →
  ∃ fs, initConfig w
        = Done () (mkWorld (home w) fs
                     (stdout w ++ already_exists_report (configPath w)))
        ∧ fs !! configPath w = files w !! configPath w
        ∧ (OS.mkdirAll (rev (filepath.Dir (configPath w))) (files w) = Some fs
           ∨ OS.mkdirAll (rev (filepath.Dir (configPath w))) (files w) = None
             ∧ fs = files w).
Proof.
  intros [x Hx]. unfold initConfig, bind. rewrite getConfigPath_eq.
  unfold OS.MkdirAll.
  destruct (OS.mkdirAll (rev (filepath.Dir (configPath w))) (files w))
    as [fs|] eqn:E; cbn.
  - exists fs. rewrite lookup_configPath.
    pose proof (mkdirAll_preserves _ _ _ _ _ E Hx) as Hx'.
    rewrite Hx', Hx. rewrite bool_decide_eq_false_2 by done. io_simpl.
    rewrite <- app_assoc. eauto.
  - exists (files w). rewrite lookup_configPath, Hx.
    rewrite bool_decide_eq_false_2 by done. io_simpl.
    rewrite <- app_assoc. eauto.
Qed.
Lemma Marshal_defaultConfig : is_Some (Codec.Marshal defaultConfig).
Proof. vm_compute. eauto. Qed.

Lemma Unmarshal_defaultConfig v :
  Codec.Marshal defaultConfig = Some v →
  Codec.Unmarshal v zeroAgentConfig = Some defaultConfig.
Proof. intros H. vm_compute in H. injection H as <-. vm_compute. reflexivity. Qed.

Lemma length_configPath w :
  length (configPath w) = S (length (filepath.Dir (configPath w))).
Proof.
  rewrite Dir_configPath. unfold configPath. rewrite !length_app. cbn. lia.
Qed.

Lemma saveConfig_eq config w :
  saveConfig config w =
  match Codec.Marshal config with
  | None => Exit 1 (print (Printf ("❌ Failed to marshal config: %v" ++ nl) [AError]) w)
  | Some v =>
      match OS.writeFile (configPath w) (JSON v) 384 (files w) with
      | Some fs => Done () (mkWorld (home w) fs (stdout w))
      | None => Exit 1 (print (Printf ("❌ Failed to write config: %v" ++ nl) [AError]) w)
      end
  end.
Proof.
  unfold saveConfig, bind. rewrite getConfigPath_eq.
  destruct (Codec.Marshal config); [|reflexivity].
  unfold OS.WriteFile. destruct (OS.writeFile _ _ _ _); reflexivity.
Qed.

(** What [initConfig] has done when the file was not there and it
    returns: made the directory and written the default document. *)
Lemma initConfig_absent w w1 :
  files w !! configPath w = None →
  initConfig w = Done () w1 →
  ∃ fs v,
    OS.mkdirAll (rev (filepath.Dir (configPath w))) (files w) = Some fs
    ∧ Codec.Marshal defaultConfig = Some v
    ∧ w1 = mkWorld (home w) (<[configPath w := File 384 (JSON v)]> fs)
             (stdout w ++ created_report (configPath w)).
Proof.
  intros Habs. unfold initConfig, bind. rewrite getConfigPath_eq.
  unfold OS.MkdirAll, OS.Stat.
  destruct Marshal_defaultConfig as [v Hv].
  destruct (OS.mkdirAll (rev (filepath.Dir (configPath w))) (files w))
    as [fs|] eqn:E.
  - assert (fs !! configPath w = None) as Habs'.
    { rewrite (mkdirAll_longer _ _ _ _ E); [done|].
      rewrite length_rev, length_configPath. lia. }
    cbn [files]. rewrite lookup_configPath, Habs'.
    rewrite bool_decide_eq_true_2 by done. cbn [negb].
    rewrite saveConfig_eq, Hv. unfold OS.writeFile. cbn [files home stdout].
    change (configPath {| home := home w; files := fs; stdout := stdout w |})
      with (configPath w).
    rewrite lookup_configPath, Habs'.
    apply mkdirAll_Dir in E as Hdir. rewrite rev_involutive in Hdir.
    unfold filepath.Dir in Hdir. rewrite Hdir. io_simpl.
    intros [= <-]. exists fs, v. split; [done|]. split; [done|].
    by rewrite <- !app_assoc.
  - rewrite lookup_configPath, Habs.
    rewrite bool_decide_eq_true_2 by done. cbn [negb].
    rewrite saveConfig_eq, Hv. unfold OS.writeFile.
    rewrite lookup_configPath, Habs.
    destruct (OS.lookup (files w) (removelast (configPath w))) as [[|]|] eqn:Ep;
      io_simpl; try discriminate.
    rewrite <- (rev_involutive (removelast _)) in Ep.
    apply mkdirAll_there in Ep. unfold filepath.Dir in E. congruence.
Qed.
(** [loadConfig] depends on the home directory and the files only. *)
Lemma loadConfig_transfer w w' config :
  home w' = home w → files w' = files w →
  loadConfig w = Done config w → loadConfig w' = Done config w'.
Proof.
  intros Hh Hf H. apply loadConfig_Done in H as (_ & perm & v & Hl & Hu).
  apply loadConfig_Done. split; [done|]. exists perm, v.
  unfold configPath in *. rewrite Hh, Hf. auto.
Qed.

Lemma Dir_configPath_nonempty w : filepath.Dir (configPath w) ≠ [].
Proof. rewrite Dir_configPath. by destruct (home w). Qed.

Lemma configPath_not_Dir w : configPath w ≠ filepath.Dir (configPath w).
Proof.
  intros H. apply (f_equal length) in H. rewrite length_configPath in H. lia.
Qed.

(** A second [initConfig] changes no file. *)
Lemma initConfig_again w w1 :
  initConfig w = Done () w1 →
  is_Some (files w1 !! configPath w1)
  ∧ initConfig w1
    = Done () (mkWorld (home w1) (files w1)
                 (stdout w1 ++ already_exists_report (configPath w1))).
Proof.
  intros H1.
  assert (is_Some (files w1 !! configPath w1)
          ∧ (OS.mkdirAll (rev (filepath.Dir (configPath w1))) (files w1)
               = Some (files w1)
             ∨ OS.mkdirAll (rev (filepath.Dir (configPath w1))) (files w1)
               = None)) as [Hex Hmk].
  { destruct (files w !! configPath w) as [x|] eqn:Hx.
    - destruct (initConfig_existing w) as (fs & Hinit & Hfs & Hmk); [eauto|].
      rewrite Hinit in H1. injection H1 as <-.
      change (configPath (mkWorld (home w) fs _)) with (configPath w).
      cbn [files]. split; [rewrite Hfs; eauto|].
      destruct Hmk as [Hmk|[Hmk ->]]; [left | by right].
      apply mkdirAll_there. by apply mkdirAll_Dir in Hmk.
    - destruct (initConfig_absent w w1 Hx H1) as (fs & v & Hmk & Hv & ->).
      change (configPath (mkWorld (home w) _ _)) with (configPath w).
      cbn [files]. split; [rewrite lookup_insert_eq; eauto|]. left.
      apply mkdirAll_there. apply mkdirAll_Dir in Hmk.
      rewrite rev_involutive in *.
      rewrite lookup_nonempty in * by apply Dir_configPath_nonempty.
      rewrite lookup_insert_ne by apply configPath_not_Dir. done. }
  split; [done|].
  destruct (initConfig_existing w1 Hex) as (fs & Hinit & Hfs & Hmk').
  rewrite Hinit. f_equal. f_equal.
  destruct Hmk as [Hmk|Hmk], Hmk' as [Hmk'|[Hmk' ->]]; congruence.
Qed.

(** C6: [init] is idempotent with respect to the stored document.  When
    the configuration file is there already, [init] leaves it as it is and
    reports that it exists.  So after an [init] that returned, the file is
    there, and a second [init] returns too, reports that the file exists and
    changes no file at all: the document loaded after the second call is the
    document loaded after the first. *)
Theorem C6_init_idempotent :
  ∀ (w w1 : world),
    initConfig w = Done () w1 →
    is_Some (files w1 !! configPath w1)
    ∧ (∃ w2, initConfig w1 = Done () w2
             ∧ files w2 = files w1
             ∧ stdout w2 = (stdout w1 ++ already_exists_report (configPath w1))%list
             ∧ (∀ config, loadConfig w1 = Done config w1 →
                          loadConfig w2 = Done config w2))
    ∧ (∀ w0, is_Some (files w0 !! configPath w0) →
             ∃ w0', initConfig w0 = Done () w0'
                    ∧ files w0' !! configPath w0 = files w0 !! configPath w0
                    ∧ stdout w0'
                      = (stdout w0 ++ already_exists_report (configPath w0))%list).
Proof.
  intros w w1 H1. destruct (initConfig_again w w1 H1) as [Hex H2].
  split; [done|]. split.
  - eexists. split; [exact H2|]. cbn [files stdout].
    split; [done|]. split; [done|].
    intros config Hc. by apply (loadConfig_transfer w1).
  - intros w0 Hex0.
    destruct (initConfig_existing w0 Hex0) as (fs & Hinit & Hfs & _).
    eexists. split; [exact Hinit|]. cbn [files stdout]. auto.
Qed.

Lemma initConfig_emptyWorld :
  initConfig emptyWorld = Done () (world_of (initConfig emptyWorld)).
Proof. vm_compute. reflexivity. Qed.

Lemma C6_witness :
  is_Some (files (world_of (initConfig emptyWorld))
             !! configPath (world_of (initConfig emptyWorld)))
  ∧ ∃ w2, initConfig (world_of (initConfig emptyWorld)) = Done () w2
          ∧ files w2 = files (world_of (initConfig emptyWorld)).
Proof.
  destruct (C6_init_idempotent emptyWorld (world_of (initConfig emptyWorld))
              initConfig_emptyWorld) as (Hex & (w2 & H2 & Hf & _) & _).
  split; [exact Hex|]. exists w2. split; [exact H2 | exact Hf].
Defined.
(** C9: the default document.  When no configuration file exists and
    [init] returns, the file holds the document [init] constructs, and
    loading it gives that document back: version "0.1.0"; the fixed agent
    identity; wallet networks ["ethereum","base"], daily limit 0.5 and alert
    threshold 0.1 (the float64 nearest to each); the four security flags true
    and both address lists empty; the five API keys empty; the dashboard
    enabled on port 8080, check interval 5 and no webhook URL. *)
Theorem C9_default_document :
  ∀ (w w1 : world),
    files w !! configPath w = None →
    initConfig w = Done () w1 →
    loadConfig w1 = Done defaultConfig w1
    ∧ (∃ v, Codec.Marshal defaultConfig = Some v
            ∧ files w1 !! configPath w = Some (File 384 (JSON v)))
    ∧ Version defaultConfig = "0.1.0"
    ∧ Agent defaultConfig
      = mkAgentInfo "Arithmos" "arithmos-quillsworth" 1941
          "https://arithmos.dev" "https://github.com/arithmosquillsworth"
    ∧ Networks (Wallet defaultConfig) = Some ["ethereum"; "base"]
    ∧ Some (DailyLimit (Wallet defaultConfig)) = Strconv.ParseFloat "0.5"
    ∧ Some (AlertThreshold (Wallet defaultConfig)) = Strconv.ParseFloat "0.1"
    ∧ Security defaultConfig
      = mkSecurityConfig true true true true (Some []) (Some [])
    ∧ len (WhitelistedAddresses (Security defaultConfig)) = 0
    ∧ len (BlacklistedAddresses (Security defaultConfig)) = 0
    ∧ APIKeys defaultConfig = mkAPIKeysConfig "" "" "" "" ""
    ∧ Monitoring defaultConfig = mkMonitoringConfig true 8080 "" 5.
Proof.
  intros w w1 Habs Hinit.
  destruct (initConfig_absent w w1 Habs Hinit) as (fs & v & Hmk & Hv & ->).
  split; [|split].
  - apply loadConfig_Done. split; [done|]. exists 384, v.
    change (configPath (mkWorld (home w) _ _)) with (configPath w).
    cbn [files]. rewrite lookup_configPath, lookup_insert_eq.
    split; [done|]. by apply Unmarshal_defaultConfig.
  - exists v. cbn [files]. by rewrite lookup_insert_eq.
  - repeat split; vm_compute; reflexivity.
Qed.

Lemma C9_witness :
  loadConfig (world_of (initConfig emptyWorld))
  = Done defaultConfig (world_of (initConfig emptyWorld)).
Proof.
  refine (proj1 (C9_default_document emptyWorld (world_of (initConfig emptyWorld))
                   _ initConfig_emptyWorld)).
  vm_compute. reflexivity.
Defined.
(** ** Strings through the encoder and the decoder *)

Lemma coerce_valid s : ∀ skip,
  Utf8.valid_from skip s = true → Utf8.coerce_from skip s = s.
Proof.
  induction s as [|c s IH]; intros skip H; [reflexivity|].
  destruct skip as [|k]; cbn [Utf8.valid_from Utf8.coerce_from] in *.
  - apply andb_true_iff in H as [Hinv Hrest].
    apply negb_true_iff in Hinv. rewrite Hinv. f_equal. by apply IH.
  - f_equal. by apply IH.
Qed.

Lemma ToValid_valid s : valid_string s → Utf8.ToValid s = s.
Proof. apply coerce_valid. Qed.

Lemma getString_string s cur :
  valid_string s → Json.getString (Json.string s) cur = Some s.
Proof.
  intros H. unfold Json.getString, Json.string.
  by rewrite !(ToValid_valid s H).
Qed.

Lemma getInt_int n cur : valid_int n → Json.getInt (Json.int n) cur = Some n.
Proof.
  intros H. unfold valid_int in H. unfold Json.getInt, Json.int. by rewrite H.
Qed.

Lemma getFloat_float f v cur :
  Json.float f = Some v → Json.getFloat v cur = Some f.
Proof.
  unfold Json.float. destruct (Float64.finite f) eqn:E; [|discriminate].
  intros [= <-]. cbn. by rewrite E.
Qed.

Lemma float_is_Some f : valid_float f → is_Some (Json.float f).
Proof. unfold Json.float, valid_float. intros ->. eauto. Qed.

Lemma getElems_strings l :
  Forall valid_string l → Json.getElems (Json.string <$> l) [] = Some l.
Proof.
  induction 1 as [|x l Hx Hl IH]; [reflexivity|].
  cbn [fmap list_fmap Json.getElems hd tl].
  rewrite getString_string by done. cbn. rewrite IH. reflexivity.
Qed.

Lemma getStrings_strings l :
  valid_strings l → Json.getStrings (Json.strings l) None = Some l.
Proof.
  destruct l as [l|]; intros H; [|reflexivity].
  unfold Json.getStrings, Json.strings. cbn [default].
  by rewrite getElems_strings.
Qed.
(** ** Every struct read back from what is written for it *)

Ltac eval_names :=
  repeat match goal with
    | |- context [Json.names ?a ?b] =>
        let r := eval vm_compute in (Json.names a b) in
        change (Json.names a b) with r
    end;
  cbv iota.

Ltac read_back :=
  cbn [Json.getStruct Json.getMembers app];
  repeat first
    [ progress eval_names
    | rewrite getString_string by assumption
    | rewrite getInt_int by assumption
    | rewrite getStrings_strings by assumption
    | progress cbn [mbind option_bind Json.getMembers Json.getBool
                      Name ID ERC8004ID Website GitHub
                      Address Networks DailyLimit AlertThreshold
                      FirewallEnabled HoneypotEnabled PromptGuardEnabled
                      SimulatorEnabled WhitelistedAddresses BlacklistedAddresses
                      Etherscan Basescan OpenAI Anthropic Discord
                      DashboardEnabled DashboardPort WebhookURL CheckInterval
                      zeroAgentInfo zeroWalletConfig zeroSecurityConfig
                      zeroAPIKeysConfig zeroMonitoringConfig
                      set_DailyLimit set_AlertThreshold set_Etherscan set_Basescan
                      set_OpenAI set_Anthropic set_Discord set_WebhookURL
                      set_CheckInterval] ].

Lemma AgentInfo_read_back a :
  valid_string (Name a) → valid_string (ID a) → valid_int (ERC8004ID a) →
  valid_string (Website a) → valid_string (GitHub a) →
  Json.getStruct Codec.decAgentInfo (Codec.encAgentInfo a) zeroAgentInfo = Some a.
Proof.
  intros. destruct a. unfold Codec.encAgentInfo, Codec.decAgentInfo.
  read_back. reflexivity.
Qed.

Lemma WalletConfig_read_back w :
  valid_string (Address w) → valid_strings (Networks w) →
  valid_float (DailyLimit w) → valid_float (AlertThreshold w) →
  ∃ v, Codec.encWalletConfig w = Some v
       ∧ Json.getStruct Codec.decWalletConfig v zeroWalletConfig = Some w.
Proof.
  intros Ha Hn Hd Ht. destruct w as [a n d t]. cbn in Ha, Hn, Hd, Ht.
  destruct (float_is_Some d Hd) as [vd Hvd], (float_is_Some t Ht) as [vt Hvt].
  unfold Codec.encWalletConfig. cbn [DailyLimit AlertThreshold Address Networks].
  rewrite Hvd, Hvt. cbn [mbind option_bind]. eexists. split; [reflexivity|].
  unfold Codec.decWalletConfig. read_back.
  rewrite (getFloat_float _ _ _ Hvd). read_back.
  rewrite (getFloat_float _ _ _ Hvt). read_back. reflexivity.
Qed.

Lemma SecurityConfig_read_back s :
  valid_strings (WhitelistedAddresses s) → valid_strings (BlacklistedAddresses s) →
  Json.getStruct Codec.decSecurityConfig (Codec.encSecurityConfig s)
    zeroSecurityConfig = Some s.
Proof.
  intros. destruct s. unfold Codec.encSecurityConfig, Codec.decSecurityConfig.
  read_back. reflexivity.
Qed.

Lemma APIKeysConfig_read_back k :
  valid_string (Etherscan k) → valid_string (Basescan k) →
  valid_string (OpenAI k) → valid_string (Anthropic k) →
  valid_string (Discord k) →
  Json.getStruct Codec.decAPIKeysConfig (Codec.encAPIKeysConfig k)
    zeroAPIKeysConfig = Some k.
Proof.
  intros He Hb Ho Ha Hd. destruct k as [e b o a d]. cbn in He, Hb, Ho, Ha, Hd.
  unfold Codec.encAPIKeysConfig, Codec.decAPIKeysConfig.
  cbn [Etherscan Basescan OpenAI Anthropic Discord].
  destruct e, b, o, a, d; cbn [Json.omitempty app]; read_back; reflexivity.
Qed.

Lemma MonitoringConfig_read_back m :
  valid_int (DashboardPort m) → valid_string (WebhookURL m) →
  valid_int (CheckInterval m) →
  Json.getStruct Codec.decMonitoringConfig (Codec.encMonitoringConfig m)
    zeroMonitoringConfig = Some m.
Proof.
  intros Hp Hw Hc. destruct m as [e p u c]. cbn in Hp, Hw, Hc.
  unfold Codec.encMonitoringConfig, Codec.decMonitoringConfig.
  cbn [DashboardEnabled DashboardPort WebhookURL CheckInterval].
  destruct u; cbn [Json.omitempty app]; read_back; reflexivity.
Qed.

(** A valid document has a text, and reading the text gives it back. *)
Lemma Marshal_Unmarshal c :
  valid_config c →
  ∃ v, Codec.Marshal c = Some v
       ∧ Codec.Unmarshal v zeroAgentConfig = Some c.
Proof.
  intros (Hv & (Hn & Hi & He & Hw & Hg) & (Ha & Hnet & Hd & Ht) & (Hwl & Hbl)
          & (Hke & Hkb & Hko & Hka & Hkd) & (Hp & Hu & Hc)).
  destruct (WalletConfig_read_back (Wallet c)) as (vw & Hvw & Hrw); try done.
  unfold Codec.Marshal. rewrite Hvw. cbn [mbind option_bind].
  eexists. split; [reflexivity|].
  unfold Codec.Unmarshal, Codec.decAgentConfig.
  cbn [Json.getStruct Json.getMembers]. eval_names.
  rewrite getString_string by done. cbn [mbind option_bind]. eval_names.
  cbn [Agent Wallet Security APIKeys Monitoring Version zeroAgentConfig
       set_Wallet set_APIKeys set_Monitoring].
  rewrite AgentInfo_read_back by done. cbn [mbind option_bind]. eval_names.
  cbn [Agent Wallet Security APIKeys Monitoring Version zeroAgentConfig
       set_Wallet set_APIKeys set_Monitoring].
  rewrite Hrw. cbn [mbind option_bind]. eval_names.
  cbn [Agent Wallet Security APIKeys Monitoring Version zeroAgentConfig
       set_Wallet set_APIKeys set_Monitoring].
  rewrite SecurityConfig_read_back by done. cbn [mbind option_bind]. eval_names.
  cbn [Agent Wallet Security APIKeys Monitoring Version zeroAgentConfig
       set_Wallet set_APIKeys set_Monitoring].
  rewrite APIKeysConfig_read_back by done. cbn [mbind option_bind]. eval_names.
  cbn [Agent Wallet Security APIKeys Monitoring Version zeroAgentConfig
       set_Wallet set_APIKeys set_Monitoring].
  rewrite MonitoringConfig_read_back by done. cbn [mbind option_bind].
  cbn [Agent Wallet Security APIKeys Monitoring Version zeroAgentConfig
       set_Wallet set_APIKeys set_Monitoring].
  by destruct c.
Qed.
(** ** What holds of every document that was read *)

Lemma getMembers_invariant {T} (P : T → Prop) field ms :
  (∀ k v t t', P t → field k v t = Some t' → P t') →
  ∀ t t', P t → Json.getMembers field ms t = Some t' → P t'.
Proof.
  intros Hstep. induction ms as [|[k v] ms IH]; intros t t' Ht H; cbn in H.
  - by injection H as <-.
  - destruct (field k v t) as [t1|] eqn:E; [|discriminate]. cbn in H. eauto.
Qed.

Lemma getStruct_invariant {T} (P : T → Prop) field v :
  (∀ k v t t', P t → field k v t = Some t' → P t') →
  ∀ t t', P t → Json.getStruct field v t = Some t' → P t'.
Proof.
  intros Hstep t t' Ht H. destruct v; try discriminate.
  - by injection H as <-.
  - by eapply getMembers_invariant.
Qed.

Lemma getFloat_finite v cur f :
  valid_float cur → Json.getFloat v cur = Some f → valid_float f.
Proof.
  unfold valid_float. intros Hc H. destruct v; try discriminate.
  - by injection H as <-.
  - cbn in H. destruct (Float64.finite (Json.asFloat n)) eqn:E; [|discriminate].
    by injection H as <-.
Qed.

Lemma decWalletConfig_finite k v w w' :
  finite_wallet w → Codec.decWalletConfig k v w = Some w' → finite_wallet w'.
Proof.
  unfold Codec.decWalletConfig, finite_wallet. intros [Hd Ht] H.
  repeat match type of H with
    | context [Json.names k ?s] => destruct (Json.names k s)
    end;
  match type of H with
  | (?m ≫= _) = _ => destruct m as [x|] eqn:E; [|discriminate]
  | _ => idtac
  end; cbn in H; injection H as <-; cbn; eauto using getFloat_finite.
Qed.

(** The floats of a document that was read are finite. *)
Lemma Unmarshal_finite v c :
  Codec.Unmarshal v zeroAgentConfig = Some c → finite_wallet (Wallet c).
Proof.
  apply (getStruct_invariant (λ c, finite_wallet (Wallet c))); [|by split].
  clear. intros k v c c' Hc H. unfold Codec.decAgentConfig in H.
  repeat match type of H with
    | context [Json.names k ?s] => destruct (Json.names k s)
    end;
  match type of H with
  | (?m ≫= _) = _ => destruct m as [x|] eqn:E; [|discriminate]
  | _ => idtac
  end; cbn in H; injection H as <-; cbn; try done.
  by eapply (getStruct_invariant finite_wallet), E; [apply decWalletConfig_finite|].
Qed.

Lemma Marshal_finite c :
  finite_wallet (Wallet c) → is_Some (Codec.Marshal c).
Proof.
  intros [Hd Ht]. unfold Codec.Marshal, Codec.encWalletConfig.
  destruct (float_is_Some _ Hd) as [? ->], (float_is_Some _ Ht) as [? ->].
  cbn. eauto.
Qed.
(** ** Save, then load *)

(** The optional strings are in the text exactly when they are not empty. *)
Lemma omitempty_members k m :
  member "etherscan" (Codec.encAPIKeysConfig k)
  = (if String.eqb (Etherscan k) "" then None else Some (Json.string (Etherscan k)))
  ∧ member "basescan" (Codec.encAPIKeysConfig k)
    = (if String.eqb (Basescan k) "" then None else Some (Json.string (Basescan k)))
  ∧ member "openai" (Codec.encAPIKeysConfig k)
    = (if String.eqb (OpenAI k) "" then None else Some (Json.string (OpenAI k)))
  ∧ member "anthropic" (Codec.encAPIKeysConfig k)
    = (if String.eqb (Anthropic k) "" then None else Some (Json.string (Anthropic k)))
  ∧ member "discord" (Codec.encAPIKeysConfig k)
    = (if String.eqb (Discord k) "" then None else Some (Json.string (Discord k)))
  ∧ member "webhook_url" (Codec.encMonitoringConfig m)
    = (if String.eqb (WebhookURL m) "" then None else Some (Json.string (WebhookURL m))).
Proof.
  destruct k as [e b o a d], m as [? ? u ?].
  unfold Codec.encAPIKeysConfig, Codec.encMonitoringConfig.
  cbn [Etherscan Basescan OpenAI Anthropic Discord WebhookURL].
  destruct e, b, o, a, d, u; repeat split; reflexivity.
Qed.

Lemma Marshal_members c v :
  Codec.Marshal c = Some v →
  member "api_keys" v = Some (Codec.encAPIKeysConfig (APIKeys c))
  ∧ member "monitoring" v = Some (Codec.encMonitoringConfig (Monitoring c)).
Proof.
  unfold Codec.Marshal. destruct (Codec.encWalletConfig (Wallet c)); [|discriminate].
  intros [= <-]. split; reflexivity.
Qed.

(** C5: save followed by load gives the document back.  For every valid
    document (strings well-formed UTF-8, integers in the int64 range, floats
    finite), when [saveConfig] returns, the file holds the text of the
    document and [loadConfig] returns a document equal to the original.  In
    the text, each of the five API keys and the webhook URL is a member of
    its object exactly when it is not the empty string; a member left out is
    read back as the empty string, as the equality says. *)
Theorem C5_save_load_round_trip :
  ∀ (w w' : world) (config : AgentConfig),
    valid_config config →
    saveConfig config w = Done () w' →
    loadConfig w' = Done config w'
    ∧ ∃ v perm,
        Codec.Marshal config = Some v
        ∧ files w' !! configPath w = Some (File perm (JSON v))
        ∧ Codec.Unmarshal v zeroAgentConfig = Some config
        ∧ member "api_keys" v = Some (Codec.encAPIKeysConfig (APIKeys config))
        ∧ member "monitoring" v = Some (Codec.encMonitoringConfig (Monitoring config))
        ∧ (member "etherscan" (Codec.encAPIKeysConfig (APIKeys config)) = None
           ↔ Etherscan (APIKeys config) = "")
        ∧ (member "basescan" (Codec.encAPIKeysConfig (APIKeys config)) = None
           ↔ Basescan (APIKeys config) = "")
        ∧ (member "openai" (Codec.encAPIKeysConfig (APIKeys config)) = None
           ↔ OpenAI (APIKeys config) = "")
        ∧ (member "anthropic" (Codec.encAPIKeysConfig (APIKeys config)) = None
           ↔ Anthropic (APIKeys config) = "")
        ∧ (member "discord" (Codec.encAPIKeysConfig (APIKeys config)) = None
           ↔ Discord (APIKeys config) = "")
        ∧ (member "webhook_url" (Codec.encMonitoringConfig (Monitoring config)) = None
           ↔ WebhookURL (Monitoring config) = "").
Proof.
  intros w w' config Hvalid Hsave.
  apply saveConfig_Done in Hsave as (v & fs & Hv & Hw & ->).
  destruct (Marshal_Unmarshal config Hvalid) as (v' & Hv' & Hread).
  assert (v' = v) as -> by congruence.
  assert (∃ perm, fs !! configPath w = Some (File perm (JSON v))) as [perm Hfile].
  { unfold OS.writeFile in Hw. rewrite lookup_configPath in Hw.
    destruct (files w !! configPath w) as [[|perm d]|]; try discriminate.
    - injection Hw as <-. exists perm. apply lookup_insert_eq.
    - destruct (OS.lookup (files w) (removelast (configPath w))) as [[|]|];
        try discriminate.
      injection Hw as <-. exists 384. apply lookup_insert_eq. }
  split.
  - apply loadConfig_Done. split; [done|]. exists perm, v.
    change (configPath (mkWorld (home w) _ _)) with (configPath w).
    cbn [files]. by rewrite lookup_configPath.
  - exists v, perm. cbn [files].
    destruct (Marshal_members _ _ Hv) as [Hk Hm].
    destruct (omitempty_members (APIKeys config) (Monitoring config))
      as (-> & -> & -> & -> & -> & ->).
    repeat (split; [done|]).
    repeat split;
      match goal with
      | |- context [String.eqb ?s ""] => destruct (String.eqb_spec s "")
      end; done.
Qed.

Lemma valid_defaultConfig : valid_config defaultConfig.
Proof. repeat split; try (vm_compute; reflexivity); repeat constructor. Qed.

Lemma saveConfig_initWorld :
  saveConfig defaultConfig initWorld
  = Done () (world_of (saveConfig defaultConfig initWorld)).
Proof. vm_compute. reflexivity. Qed.

Lemma C5_witness :
  loadConfig (world_of (saveConfig defaultConfig initWorld))
  = Done defaultConfig (world_of (saveConfig defaultConfig initWorld)).
Proof.
  exact (proj1 (C5_save_load_round_trip initWorld
                  (world_of (saveConfig defaultConfig initWorld)) defaultConfig
                  valid_defaultConfig saveConfig_initWorld)).
Defined.
(** Outside the valid documents the round trip can fail: a document with an
    infinite float has no text, and a string that is not well-formed UTF-8
    is read back with U+FFFD in place of the offending byte. *)
Lemma Marshal_infinity :
  Codec.Marshal (set_Wallet (set_DailyLimit (S754_infinity false)) defaultConfig)
  = None.
Proof. vm_compute. reflexivity. Qed.

Lemma Marshal_Unmarshal_ill_formed :
  let config := set_APIKeys (set_Etherscan (String (byte_of 255) "")) defaultConfig in
  ∃ v, Codec.Marshal config = Some v
       ∧ Codec.Unmarshal v zeroAgentConfig
         = Some (set_APIKeys (set_Etherscan Utf8.replacement) defaultConfig)
       ∧ set_APIKeys (set_Etherscan Utf8.replacement) defaultConfig ≠ config.
Proof.
  eexists. split; [vm_compute; reflexivity|]. split; [vm_compute; reflexivity|].
  discriminate.
Qed.

(** ** Scanning a number *)

(** A scan that returns an error has left the variable alone. *)
Lemma Sscanf1_error {A} (scanOne : Fmt.ss → option (A * Fmt.ss)) str arg :
  snd (Fmt.Sscanf1 scanOne str arg) = true →
  Fmt.Sscanf1 scanOne str arg = (arg, 0, true).
Proof.
  unfold Fmt.Sscanf1.
  destruct (s ← Fmt.SkipSpace (Fmt.mk_ss str ""); scanOne (Fmt.mk_ss (Fmt.rs s) ""))
    as [[v s]|]; [discriminate | reflexivity].
Qed.

Lemma setValue_loaded w config key value config' v perm d :
  loadConfig w = Done config w →
  files w !! configPath w = Some (File perm d) →
  setValue_switch config key value = Some config' →
  Codec.Marshal config' = Some v →
  setValue key value w
  = Done () (mkWorld (home w) (<[configPath w := File perm (JSON v)]> (files w))
               (stdout w ++ [Printf ("✅ Set %s" ++ nl) [AString key]])).
Proof.
  intros Hload Hfile Hsw Hv. unfold setValue, bind. rewrite Hload, Hsw.
  rewrite saveConfig_eq, Hv. unfold OS.writeFile.
  rewrite lookup_configPath, Hfile. reflexivity.
Qed.

(** C3: an unparsable number is stored as zero, and [set] succeeds.  For a
    loaded document, when [key] is [wallet.daily_limit] or
    [wallet.alert_threshold] and the scan of [value] with [%f] returns an
    error, or [key] is [monitoring.check_interval] and the scan with [%d]
    returns an error, [setValue] returns, having printed its success
    message and written the document in which the addressed field is zero
    and every other field is as it was. *)
Theorem C3_unparsable_number_stores_zero :
  ∀ (w w' : world) (config : AgentConfig) (key value : string),
    loadConfig w = Done config w' →
    ((key = "wallet.daily_limit" ∨ key = "wallet.alert_threshold")
     ∧ parses_as_float value = false)
    ∨ (key = "monitoring.check_interval" ∧ parses_as_int value = false) →
    ∃ (config' : AgentConfig) (fld : field) (v : Json.value) (perm : Z),
      field_of_key key = Some fld
      ∧ setValue_switch config key value = Some config'
      ∧ get_field fld config'
        = (if String.eqb key "monitoring.check_interval" then AInt 0
           else AFloat Float64.zero)
      ∧ (∀ f, f ≠ fld → get_field f config' = get_field f config)
      ∧ Codec.Marshal config' = Some v
      ∧ setValue key value w
        = Done () (mkWorld (home w)
                     (<[configPath w := File perm (JSON v)]> (files w))
                     (stdout w ++ [Printf ("✅ Set %s" ++ nl) [AString key]])).
Proof.
  intros w w' config key value Hload Hcase.
  pose proof (loadConfig_same _ _ _ Hload) as ->.
  pose proof Hload as (_ & perm & v0 & Hfile & Hread)%loadConfig_Done.
  rewrite lookup_configPath in Hfile.
  destruct (Unmarshal_finite _ _ Hread) as [Hd Ht].
  assert (∃ config',
    setValue_switch config key value = Some config'
    ∧ (∃ fld, field_of_key key = Some fld
        ∧ get_field fld config'
          = (if String.eqb key "monitoring.check_interval" then AInt 0
             else AFloat Float64.zero))
    ∧ finite_wallet (Wallet config')) as (config' & Hsw & (fld & Hfld & Hzero) & Hfin).
  { destruct Hcase as [[[-> | ->] Hp] | [-> Hp]];
      apply negb_false_iff, Sscanf1_error in Hp;
      unfold setValue_switch; cbn [String.eqb Ascii.eqb Bool.eqb];
      [unfold Fmt.Sscanf_f | unfold Fmt.Sscanf_f | unfold Fmt.Sscanf_d];
      rewrite Hp; eexists; (split; [reflexivity|]);
      (split; [eexists; split; reflexivity | by split]). }
  destruct (Marshal_finite _ Hfin) as [v Hv].
  destruct (setValue_switch_frame _ _ _ _ Hsw) as (fld' & Hfld' & Hframe).
  assert (fld' = fld) as -> by congruence.
  exists config', fld, v, perm. repeat (split; [done|]).
  by eapply setValue_loaded.
Qed.

Lemma C3_witness :
  ∃ (config' : AgentConfig) (fld : field) (v : Json.value) (perm : Z),
    field_of_key "wallet.daily_limit" = Some fld
    ∧ setValue_switch defaultConfig "wallet.daily_limit" "not-a-number" = Some config'
    ∧ get_field fld config' = AFloat Float64.zero
    ∧ (∀ f, f ≠ fld → get_field f config' = get_field f defaultConfig)
    ∧ Codec.Marshal config' = Some v
    ∧ setValue "wallet.daily_limit" "not-a-number" initWorld
      = Done () (mkWorld (home initWorld)
                   (<[configPath initWorld := File perm (JSON v)]> (files initWorld))
                   (stdout initWorld
                    ++ [Printf ("✅ Set %s" ++ nl) [AString "wallet.daily_limit"]])).
Proof.
  apply (C3_unparsable_number_stores_zero initWorld initWorld defaultConfig
           "wallet.daily_limit" "not-a-number" loadConfig_initWorld).
  left. split; [left; reflexivity | vm_compute; reflexivity].
Defined.
(** [set] of a settable key can still end in a failure, after the switch:
    the scan reads ["inf"] as the infinity, the encoder has no text for it,
    and [saveConfig] ends the run with status 1 and the file as it was. *)
Lemma setValue_infinity :
  setValue_switch defaultConfig "wallet.daily_limit" "inf"
  = Some (set_Wallet (set_DailyLimit (S754_infinity false)) defaultConfig)
  ∧ setValue "wallet.daily_limit" "inf" initWorld
    = Exit 1 (print (Printf ("❌ Failed to marshal config: %v" ++ nl) [AError])
                initWorld).
Proof. split; vm_compute; reflexivity. Qed.

(** ** Export *)

Lemma exportToolConfig_eq dir name m w :
  exportToolConfig dir name m w
  = Done () (mkWorld (home w) (export_write dir name m (files w)) (stdout w)).
Proof.
  unfold exportToolConfig, export_write, export_data, bind, OS.WriteFile.
  change (filepath.Join [dir; [name]]) with (dir ++ [name] ++ [])%list.
  cbn [app].
  destruct (OS.writeFile _ _ _ _); [reflexivity | by destruct w].
Qed.

Lemma exportConfig_loaded w w' config :
  loadConfig w = Done config w' →
  exportConfig w
  = Done () (mkWorld (home w) (export_files config (exportDir w) (files w))
               (stdout w ++ exported_report (exportDir w))).
Proof.
  intros Hload. pose proof (loadConfig_same _ _ _ Hload) as ->.
  unfold exportConfig, bind. rewrite Hload, getConfigPath_eq.
  change (filepath.Join [filepath.Dir (configPath w); ["exports"]])
    with (filepath.Dir (configPath w) ++ ["exports"] ++ [])%list.
  rewrite Dir_configPath, <- app_assoc. cbn [app].
  change (home w ++ [".config"; "agent"; "exports"])%list with (exportDir w).
  unfold OS.MkdirAll.
  assert (∀ fs,
    (_ <- exportToolConfig (exportDir w) "wallet-monitor.json" (walletConfig config);;
     _ <- exportToolConfig (exportDir w) "reputation-scanner.json" (scannerConfig config);;
     _ <- exportToolConfig (exportDir w) "security-dashboard.json" (dashboardConfig config);;
     _ <- fmt.Printf ("✅ Exported tool configs to %s/" ++ nl) [APath (exportDir w)];;
     _ <- fmt.Println [AString "   - wallet-monitor.json"];;
     _ <- fmt.Println [AString "   - reputation-scanner.json"];;
     fmt.Println [AString "   - security-dashboard.json"])
      (mkWorld (home w) fs (stdout w))
    = Done () (mkWorld (home w)
                 (export_write (exportDir w) "security-dashboard.json" (dashboardConfig config)
                    (export_write (exportDir w) "reputation-scanner.json" (scannerConfig config)
                       (export_write (exportDir w) "wallet-monitor.json" (walletConfig config) fs)))
                 (stdout w ++ exported_report (exportDir w)))) as Hrest.
  { intros fs. unfold bind.
    rewrite exportToolConfig_eq. cbv beta iota. cbn [home files stdout].
    rewrite exportToolConfig_eq. cbv beta iota. cbn [home files stdout].
    rewrite exportToolConfig_eq. cbv beta iota. cbn [home files stdout].
    io_simpl. by rewrite <- !app_assoc. }
  unfold bind in Hrest |- *. unfold export_files.
  destruct (OS.mkdirAll (rev (exportDir w)) (files w)) as [fs|]; cbn [default].
  - apply Hrest.
  - destruct w as [h fs out]. apply Hrest.
Qed.
Lemma export_write_same dir name m fs perm d :
  export_write dir name m fs !! (dir ++ [name])%list = Some (File perm d) →
  d = export_data m.
Proof.
  unfold export_write, OS.writeFile.
  assert (dir ++ [name] ≠ [])%list as Hne by (by destruct dir).
  rewrite !(lookup_nonempty _ _ Hne).
  destruct (fs !! (dir ++ [name])%list) as [[|p0 d0]|] eqn:E; cbn [default from_option id].
  - rewrite E. discriminate.
  - rewrite lookup_insert_eq. by intros [= _ <-].
  - destruct (OS.lookup fs (removelast (dir ++ [name]))) as [[|]|];
      cbn [default from_option id]; rewrite ?lookup_insert_eq, ?E; try discriminate.
    by intros [= _ <-].
Qed.

Lemma export_write_other dir name m fs (p : list string) :
  p ≠ (dir ++ [name])%list → export_write dir name m fs !! p = fs !! p.
Proof.
  intros Hne. unfold export_write.
  destruct (OS.writeFile _ _ _ _) as [fs'|] eqn:E; cbn [default from_option id]; [|done].
  unfold OS.writeFile in E.
  destruct (OS.lookup fs (dir ++ [name])) as [[|]|].
  - discriminate.
  - injection E as <-. by rewrite lookup_insert_ne.
  - destruct (OS.lookup fs (removelast (dir ++ [name]))) as [[|]|];
      try discriminate.
    injection E as <-. by rewrite lookup_insert_ne.
Qed.

Lemma mkdirAll_default_preserves rp fs (p : list string) x :
  fs !! p = Some x → default fs (OS.mkdirAll rp fs) !! p = Some x.
Proof.
  intros H. destruct (OS.mkdirAll rp fs) eqn:E; cbn [default from_option id]; [|done].
  by eapply mkdirAll_preserves.
Qed.

(** The texts of the three maps. *)
Lemma MarshalMap_walletConfig config vt :
  Json.float (AlertThreshold (Wallet config)) = Some vt →
  Codec.MarshalMap (walletConfig config)
  = Some (Json.Obj
            [("address", Json.string (Address (Wallet config)));
             ("alert_threshold", vt);
             ("basescan_key", Json.string (Basescan (APIKeys config)));
             ("check_interval", Json.int (CheckInterval (Monitoring config)));
             ("etherscan_key", Json.string (Etherscan (APIKeys config)));
             ("webhook_url", Json.string (WebhookURL (Monitoring config)))]).
Proof.
  intros H. unfold Codec.MarshalMap.
  assert (merge_sort Codec.key_le (map_to_list (walletConfig config))
          = [("address", AString (Address (Wallet config)));
             ("alert_threshold", AFloat (AlertThreshold (Wallet config)));
             ("basescan_key", AString (Basescan (APIKeys config)));
             ("check_interval", AInt (CheckInterval (Monitoring config)));
             ("etherscan_key", AString (Etherscan (APIKeys config)));
             ("webhook_url", AString (WebhookURL (Monitoring config)))]) as ->
    by (vm_compute; reflexivity).
  cbn [Codec.encMembers Codec.encAny mbind option_bind]. rewrite H. reflexivity.
Qed.

Lemma MarshalMap_scannerConfig config :
  Codec.MarshalMap (scannerConfig config)
  = Some (Json.Obj
            [("address", Json.string (Address (Wallet config)));
             ("basescan_key", Json.string (Basescan (APIKeys config)));
             ("etherscan_key", Json.string (Etherscan (APIKeys config)))]).
Proof.
  unfold Codec.MarshalMap.
  assert (merge_sort Codec.key_le (map_to_list (scannerConfig config))
          = [("address", AString (Address (Wallet config)));
             ("basescan_key", AString (Basescan (APIKeys config)));
             ("etherscan_key", AString (Etherscan (APIKeys config)))]) as ->
    by (vm_compute; reflexivity).
  reflexivity.
Qed.

Lemma MarshalMap_dashboardConfig config :
  Codec.MarshalMap (dashboardConfig config)
  = Some (Json.Obj [("port", Json.int (DashboardPort (Monitoring config)))]).
Proof.
  unfold Codec.MarshalMap.
  assert (merge_sort Codec.key_le (map_to_list (dashboardConfig config))
          = [("port", AInt (DashboardPort (Monitoring config)))]) as ->
    by (vm_compute; reflexivity).
  reflexivity.
Qed.

(** C2: export produces three subset documents.  For every loaded
    document, the map for wallet-monitor has exactly the keys address,
    etherscan_key, basescan_key, check_interval, alert_threshold and
    webhook_url, holding wallet.address, api_keys.etherscan,
    api_keys.basescan, monitoring.check_interval_minutes,
    wallet.alert_threshold and monitoring.webhook_url; the map for
    reputation-scanner has exactly address, etherscan_key and basescan_key
    from the same sources; the map for security-dashboard has exactly port,
    holding monitoring.dashboard_port.  The values are copied whatever they
    are, empty and zero ones included.  [exportConfig] returns, having made
    the export directory and written each map once as a JSON object with its
    keys sorted: a file found under one of the three names afterwards holds
    the text of its map, and every other file is as it was. *)
Theorem C2_export_three_subset_documents :
  ∀ (w w' : world) (config : AgentConfig),
    loadConfig w = Done config w' →
    (dom (walletConfig config)
     = ({[ "address"; "etherscan_key"; "basescan_key"; "check_interval";
           "alert_threshold"; "webhook_url" ]} : gset string)
     ∧ walletConfig config !! "address" = Some (AString (Address (Wallet config)))
     ∧ walletConfig config !! "etherscan_key" = Some (AString (Etherscan (APIKeys config)))
     ∧ walletConfig config !! "basescan_key" = Some (AString (Basescan (APIKeys config)))
     ∧ walletConfig config !! "check_interval" = Some (AInt (CheckInterval (Monitoring config)))
     ∧ walletConfig config !! "alert_threshold" = Some (AFloat (AlertThreshold (Wallet config)))
     ∧ walletConfig config !! "webhook_url" = Some (AString (WebhookURL (Monitoring config))))
    ∧ (dom (scannerConfig config)
       = ({[ "address"; "etherscan_key"; "basescan_key" ]} : gset string)
       ∧ scannerConfig config !! "address" = Some (AString (Address (Wallet config)))
       ∧ scannerConfig config !! "etherscan_key" = Some (AString (Etherscan (APIKeys config)))
       ∧ scannerConfig config !! "basescan_key" = Some (AString (Basescan (APIKeys config))))
    ∧ (dom (dashboardConfig config) = ({[ "port" ]} : gset string)
       ∧ dashboardConfig config !! "port" = Some (AInt (DashboardPort (Monitoring config))))
    ∧ (∃ vt, Json.float (AlertThreshold (Wallet config)) = Some vt
             ∧ export_data (walletConfig config)
               = JSON (Json.Obj
                   [("address", Json.string (Address (Wallet config)));
                    ("alert_threshold", vt);
                    ("basescan_key", Json.string (Basescan (APIKeys config)));
                    ("check_interval", Json.int (CheckInterval (Monitoring config)));
                    ("etherscan_key", Json.string (Etherscan (APIKeys config)));
                    ("webhook_url", Json.string (WebhookURL (Monitoring config)))]))
    ∧ export_data (scannerConfig config)
      = JSON (Json.Obj
          [("address", Json.string (Address (Wallet config)));
           ("basescan_key", Json.string (Basescan (APIKeys config)));
           ("etherscan_key", Json.string (Etherscan (APIKeys config)))])
    ∧ export_data (dashboardConfig config)
      = JSON (Json.Obj [("port", Json.int (DashboardPort (Monitoring config)))])
    ∧ ∃ w'',
        exportConfig w = Done () w''
        ∧ run ["acm"; "export"] w = (0, w'')
        ∧ files w'' = export_files config (exportDir w) (files w)
        ∧ stdout w'' = (stdout w ++ exported_report (exportDir w))%list
        ∧ (∀ perm d,
             files w'' !! (exportDir w ++ ["wallet-monitor.json"])%list
             = Some (File perm d) → d = export_data (walletConfig config))
        ∧ (∀ perm d,
             files w'' !! (exportDir w ++ ["reputation-scanner.json"])%list
             = Some (File perm d) → d = export_data (scannerConfig config))
        ∧ (∀ perm d,
             files w'' !! (exportDir w ++ ["security-dashboard.json"])%list
             = Some (File perm d) → d = export_data (dashboardConfig config))
        ∧ (∀ (p : list string) x,
             files w !! p = Some x →
             p ≠ (exportDir w ++ ["wallet-monitor.json"])%list →
             p ≠ (exportDir w ++ ["reputation-scanner.json"])%list →
             p ≠ (exportDir w ++ ["security-dashboard.json"])%list →
             files w'' !! p = Some x).
Proof.
  intros w w' config Hload.
  pose proof (loadConfig_same _ _ _ Hload) as ->.
  pose proof Hload as (_ & perm0 & v0 & _ & Hread)%loadConfig_Done.
  destruct (Unmarshal_finite _ _ Hread) as [_ Ht].
  destruct (float_is_Some _ Ht) as [vt Hvt].
  split; [repeat split; (reflexivity || (vm_compute; reflexivity))|].
  split; [repeat split; (reflexivity || (vm_compute; reflexivity))|].
  split; [repeat split; (reflexivity || (vm_compute; reflexivity))|].
  split; [exists vt; split; [done|];
          unfold export_data; by rewrite (MarshalMap_walletConfig _ _ Hvt)|].
  split; [unfold export_data; by rewrite MarshalMap_scannerConfig|].
  split; [unfold export_data; by rewrite MarshalMap_dashboardConfig|].
  pose proof (exportConfig_loaded _ _ _ Hload) as Hrun.
  eexists. split; [exact Hrun|]. split; [unfold run; cbn; by rewrite Hrun|].
  cbn [files stdout]. split; [done|]. split; [done|].
  unfold export_files.
  assert (∀ a b : string, a ≠ b →
            (exportDir w ++ [a])%list ≠ (exportDir w ++ [b])%list) as Hdiff.
  { intros a b Hab Heq. apply app_inv_head in Heq. congruence. }
  repeat split.
  - intros perm d. rewrite !export_write_other by (by apply Hdiff).
    apply export_write_same.
  - intros perm d. rewrite export_write_other by (by apply Hdiff).
    apply export_write_same.
  - intros perm d. apply export_write_same.
  - intros p x Hp H1 H2 H3. rewrite !export_write_other by done.
    by apply mkdirAll_default_preserves.
Qed.

Lemma C2_witness :
  ∃ w'',
    exportConfig initWorld = Done () w''
    ∧ run ["acm"; "export"] initWorld = (0, w'')
    ∧ files w'' = export_files defaultConfig (exportDir initWorld) (files initWorld)
    ∧ files w'' !! (exportDir initWorld ++ ["security-dashboard.json"])%list
      = Some (File 384 (JSON (Json.Obj [("port", Json.int 8080)]))).
Proof.
  destruct (C2_export_three_subset_documents initWorld initWorld defaultConfig
              loadConfig_initWorld)
    as (_ & _ & _ & _ & _ & _ & w'' & Hrun & Hexit & Hfiles & _).
  exists w''. split; [exact Hrun|]. split; [exact Hexit|]. split; [exact Hfiles|].
  rewrite Hfiles. vm_compute. reflexivity.
Defined.
(** ** The scanner on a number followed by other text *)

(** Splits a membership [indexRune ok c = true] into the characters of
    [ok], and closes the goal at each. *)
Ltac by_chars H tac :=
  unfold isDigit, decimalDigits, sign, period, exponent in H;
  cbn [indexRune] in H;
  repeat (apply orb_true_iff in H as [H|H];
          [apply Ascii.eqb_eq in H; subst; tac|]);
  discriminate H.

(** Uses a non-membership [indexRune ok c = false] to decide the
    comparisons of the goal. *)
Ltac by_absent H :=
  unfold stops_float, stops_int, starts_in, isDigit, decimalDigits in H;
  cbn [indexRune] in H;
  repeat (apply orb_false_iff in H as [? H]);
  change (decimalDigits ++ "_") with "0123456789_";
  unfold isDigit, decimalDigits, sign, period, exponent, hexadecimalDigits;
  cbn [indexRune];
  repeat match goal with
    | E : Ascii.eqb ?a ?c = false |- context [Ascii.eqb ?a ?c] => rewrite E
    end;
  try reflexivity.

Lemma accept_hit ok c r b :
  indexRune ok c = true →
  Fmt.accept ok (Fmt.mk_ss (String c r) b)
  = (true, Fmt.mk_ss r (b ++ String c "")).
Proof. intros H. unfold Fmt.accept. cbn. by rewrite H. Qed.

Lemma accept_miss ok s b :
  starts_in ok s = false →
  Fmt.accept ok (Fmt.mk_ss s b) = (false, Fmt.mk_ss s b).
Proof. intros H. unfold Fmt.accept. destruct s; cbn in *; [done | by rewrite H]. Qed.

Lemma append_cons x (a b : string) : String x a ++ b = String x (a ++ b).
Proof. reflexivity. Qed.

Lemma append_nil_l (b : string) : "" ++ b = b.
Proof. reflexivity. Qed.

Lemma append_assoc (a b c : string) : (a ++ b) ++ c = a ++ (b ++ c).
Proof.
  induction a as [|x a IH]; [reflexivity|]. rewrite !append_cons. by rewrite IH.
Qed.

Lemma append_nil_r (a : string) : a ++ "" = a.
Proof.
  induction a as [|x a IH]; [reflexivity|]. rewrite append_cons. by rewrite IH.
Qed.

Lemma digits_underscore : decimalDigits ++ "_" = "0123456789_".
Proof. reflexivity. Qed.

Lemma acceptAll_run ok ds : ∀ rest b,
  all_in ok ds = true → starts_in ok rest = false →
  Fmt.acceptAll ok (Fmt.mk_ss (ds ++ rest) b) = Fmt.mk_ss rest (b ++ ds).
Proof.
  unfold Fmt.acceptAll. cbn [Fmt.rs Fmt.buf].
  induction ds as [|c ds IH]; intros rest b Hds Hrest.
  - rewrite append_nil_l, append_nil_r.
    destruct rest as [|c r]; cbn in *; [done | by rewrite Hrest].
  - cbn in Hds. apply andb_true_iff in Hds as [Hc Hds].
    rewrite append_cons. cbn [Fmt.acceptAll_from]. rewrite Hc, IH by done.
    by rewrite append_assoc.
Qed.

Lemma starts_in_append ok a b :
  starts_in ok (a ++ b) = if String.eqb a "" then starts_in ok b else starts_in ok a.
Proof. by destruct a. Qed.

(** Characters of one class are not of another. *)
Lemma starts_in_cons ok c s : starts_in ok (String c s) = indexRune ok c.
Proof. reflexivity. Qed.

Lemma digit_classes c :
  isDigit c = true →
  indexRune "nN" c = false ∧ indexRune sign c = false
  ∧ indexRune "iI" c = false ∧ indexRune "xX" c = false
  ∧ indexRune "0123456789_" c = true
  ∧ Ascii.eqb c "p" = false
  ∧ Fmt.isSpace (byte_code c) = false ∧ (byte_code c <? 128) = true
  ∧ (byte_code c =? 10) = false.
Proof. intros H. by_chars H ltac:(repeat split; reflexivity). Qed.

Lemma exp_classes c :
  indexRune "eE" c = true →
  indexRune "0123456789_" c = false ∧ indexRune period c = false
  ∧ indexRune exponent c = true ∧ indexRune "xX" c = false
  ∧ Ascii.eqb c "p" = false.
Proof. intros H. by_chars H ltac:(repeat split; reflexivity). Qed.

Lemma stop_classes t :
  stops_float t = true →
  starts_in "0123456789_" t = false ∧ starts_in period t = false
  ∧ starts_in exponent t = false ∧ starts_in "xX" t = false.
Proof.
  unfold stops_float. intros H%negb_true_iff. destruct t as [|c t]; [done|].
  cbn [starts_in] in *. repeat split; by_absent H.
Qed.
Lemma acceptAll_none ok s b :
  starts_in ok s = false → Fmt.acceptAll ok (Fmt.mk_ss s b) = Fmt.mk_ss s b.
Proof.
  intros H. unfold Fmt.acceptAll. cbn [Fmt.rs Fmt.buf].
  destruct s as [|c s]; cbn in *; [done | by rewrite H].
Qed.

Lemma all_in_digits_underscore ds :
  all_in decimalDigits ds = true → all_in "0123456789_" ds = true.
Proof.
  induction ds as [|c ds IH]; [done|]. cbn [all_in].
  intros [Hc Hds]%andb_true_iff.
  destruct (digit_classes c Hc) as (_ & _ & _ & _ & -> & _). by apply IH.
Qed.

Lemma is_sign_cases sg :
  is_sign sg = true → sg = "" ∨ sg = "+" ∨ sg = "-".
Proof.
  unfold is_sign. intros H.
  destruct (String.eqb_spec sg ""), (String.eqb_spec sg "+"),
    (String.eqb_spec sg "-"); auto; discriminate.
Qed.

Lemma acceptAll_run_cons ok c ds rest b :
  indexRune ok c = true → all_in ok ds = true → starts_in ok rest = false →
  Fmt.acceptAll ok (Fmt.mk_ss (String c (ds ++ rest)) b)
  = Fmt.mk_ss rest (b ++ String c ds).
Proof.
  intros Hc Hds Hrest. rewrite <- append_cons. apply acceptAll_run; [|done].
  cbn [all_in]. by rewrite Hc.
Qed.

Lemma starts_in_app_false ok a b :
  starts_in ok a = false → starts_in ok b = false → starts_in ok (a ++ b) = false.
Proof. by destruct a. Qed.

Lemma digits_never_x s : all_in decimalDigits s = true → starts_in "xX" s = false.
Proof.
  destruct s as [|c s]; [done|]. cbn [all_in starts_in].
  intros [Hc _]%andb_true_iff. by destruct (digit_classes c Hc) as (_ & _ & _ & -> & _).
Qed.

(** One step of the scanner on a state whose input starts as known. *)
Ltac solve_class :=
  first
    [ reflexivity
    | assumption
    | rewrite starts_in_cons; first [reflexivity | assumption]
    | apply all_in_digits_underscore; assumption
    | apply starts_in_app_false; [apply digits_never_x; assumption | solve_class] ].

Ltac scan :=
  repeat first
    [ progress change (decimalDigits ++ "_") with "0123456789_"
    | rewrite accept_hit by solve_class
    | rewrite accept_miss by solve_class
    | rewrite acceptAll_run_cons by solve_class
    | rewrite acceptAll_run by solve_class
    | rewrite acceptAll_none by solve_class
    | progress cbv beta iota zeta delta [Fmt.andAccept Fmt.rs Fmt.buf fst snd] ].

Ltac normalize_append :=
  repeat first [ rewrite append_assoc | rewrite append_cons
               | rewrite append_nil_l | rewrite append_nil_r ].

(** The token of a decimal number followed by text at which the scan
    stops is the number. *)
Lemma floatToken_decimal d t b :
  decimal_wf d = true → stops_float t = true →
  Fmt.floatToken (Fmt.mk_ss (decimal_text d ++ t) b)
  = (decimal_text d, Fmt.mk_ss t (decimal_text d)).
Proof.
  destruct d as [sg ip fp ex]. unfold decimal_wf, decimal_text.
  cbn [d_sign d_int d_frac d_exp]. intros Hwf Ht.
  apply andb_true_iff in Hwf as [Hwf Hex].
  apply andb_true_iff in Hwf as [Hwf Hfp].
  apply andb_true_iff in Hwf as [Hsg Hip].
  destruct (stop_classes t Ht) as (Ht1 & Ht2 & Ht3 & Ht4).
  (* the digits before the point: none, a zero first, or another digit first *)
  assert (ip = ""
          ∨ ∃ i ip', ip = String i ip' ∧ all_in decimalDigits ip' = true
                     ∧ indexRune "nN" i = false ∧ indexRune sign i = false
                     ∧ indexRune "iI" i = false
                     ∧ indexRune "0123456789_" i = true
                     ∧ (i = "0"%char ∨ indexRune "0" i = false)) as Hip'.
  { destruct ip as [|i ip']; [by left|right]. exists i, ip'.
    cbn [all_in] in Hip. apply andb_true_iff in Hip as [Hi Hip].
    destruct (digit_classes i Hi) as (? & ? & ? & ? & ? & _).
    repeat (split; [done|]).
    destruct (Ascii.eqb_spec "0" i) as [<-|Hne]; [by left|right].
    cbn [indexRune]. by destruct (Ascii.eqb_spec "0" i). }
  (* the exponent: none, or its letter, a sign or none, and a first digit *)
  destruct ex as [[[e es] ed]|].
  - apply andb_true_iff in Hex as [Hex Hne].
    apply andb_true_iff in Hex as [Hex Hed].
    apply andb_true_iff in Hex as [He Hes].
    destruct ed as [|c ed]; [discriminate|].
    cbn [all_in] in Hed. apply andb_true_iff in Hed as [Hc Hed].
    destruct (exp_classes e He) as (He1 & He2 & He3 & He4 & He5).
    destruct (digit_classes c Hc) as (Hc1 & Hc2 & Hc3 & Hc4 & Hc5 & _).
    destruct (is_sign_cases es Hes) as [-> | [-> | ->]];
    destruct (is_sign_cases sg Hsg) as [-> | [-> | ->]];
    destruct fp as [fd|];
    destruct Hip' as [-> | (i & ip' & -> & Hip' & Hi1 & Hi2 & Hi3 & Hi4 & [-> | Hi5])];
    try discriminate;
    unfold exp_text, frac_text; normalize_append;
    unfold Fmt.floatToken; scan; normalize_append; reflexivity.
  - destruct (is_sign_cases sg Hsg) as [-> | [-> | ->]];
    destruct fp as [fd|];
    destruct Hip' as [-> | (i & ip' & -> & Hip' & Hi1 & Hi2 & Hi3 & Hi4 & [-> | Hi5])];
    try discriminate;
    unfold exp_text, frac_text; normalize_append;
    unfold Fmt.floatToken; scan; normalize_append; reflexivity.
Qed.
Lemma skipSpace_ascii c r :
  (byte_code c <? 128) = true → (byte_code c =? 10) = false →
  Fmt.isSpace (byte_code c) = false →
  Fmt.skipSpace_from 0 (String c r) = Some (String c r).
Proof.
  intros H1 H2 H3. cbn [Fmt.skipSpace_from]. unfold Utf8.DecodeRune.
  by rewrite H1, H2, H3.
Qed.

(** Text that starts with a sign, a digit or a point is not skipped over. *)
Lemma SkipSpace_number c r b :
  indexRune "+-.0123456789" c = true →
  Fmt.SkipSpace (Fmt.mk_ss (String c r) b) = Some (Fmt.mk_ss (String c r) b).
Proof.
  intros H. unfold Fmt.SkipSpace. cbn [Fmt.rs Fmt.buf].
  rewrite skipSpace_ascii; [reflexivity|..];
    by_chars H ltac:(reflexivity).
Qed.

Lemma decimal_head d t :
  decimal_wf d = true →
  ∃ c r, decimal_text d ++ t = String c r ∧ indexRune "+-.0123456789" c = true.
Proof.
  destruct d as [sg ip fp ex]. unfold decimal_wf, decimal_text.
  cbn [d_sign d_int d_frac d_exp]. intros Hwf.
  apply andb_true_iff in Hwf as [Hwf Hex].
  apply andb_true_iff in Hwf as [Hwf Hfp].
  apply andb_true_iff in Hwf as [Hsg Hip].
  destruct (is_sign_cases sg Hsg) as [-> | [-> | ->]];
    try (normalize_append; eexists _, _; split; reflexivity).
  destruct ip as [|i ip].
  - destruct fp as [fd|]; [|discriminate].
    unfold frac_text. normalize_append. eexists _, _; split; reflexivity.
  - normalize_append. eexists _, _; split; [reflexivity|].
    cbn [all_in] in Hip. apply andb_true_iff in Hip as [Hi _].
    by_chars Hi ltac:(reflexivity).
Qed.

Lemma index_of_append c a b :
  Fmt.index_of c a = None → Fmt.index_of c b = None →
  Fmt.index_of c (a ++ b) = None.
Proof.
  induction a as [|x a IH]; [done|]. rewrite append_cons. cbn [Fmt.index_of].
  destruct (Ascii.eqb x c); [discriminate|].
  intros Ha Hb. destruct (Fmt.index_of c a); [discriminate|].
  by rewrite IH.
Qed.

Lemma index_of_digits s :
  all_in decimalDigits s = true → Fmt.index_of "p" s = None.
Proof.
  induction s as [|c s IH]; [done|]. cbn [all_in Fmt.index_of].
  intros [Hc Hs]%andb_true_iff.
  destruct (digit_classes c Hc) as (_ & _ & _ & _ & _ & -> & _).
  by rewrite IH.
Qed.

Lemma index_of_sign sg : is_sign sg = true → Fmt.index_of "p" sg = None.
Proof. intros H. by destruct (is_sign_cases sg H) as [-> | [-> | ->]]. Qed.

(** No letter p in a decimal number. *)
Lemma index_of_decimal d :
  decimal_wf d = true → Fmt.index_of "p" (decimal_text d) = None.
Proof.
  destruct d as [sg ip fp ex]. unfold decimal_wf, decimal_text.
  cbn [d_sign d_int d_frac d_exp]. intros Hwf.
  apply andb_true_iff in Hwf as [Hwf Hex].
  apply andb_true_iff in Hwf as [Hwf Hfp].
  apply andb_true_iff in Hwf as [Hsg Hip].
  repeat apply index_of_append.
  - by apply index_of_sign.
  - by apply index_of_digits.
  - destruct fp as [fd|]; [|done]. unfold frac_text.
    apply index_of_append; [done | by apply index_of_digits].
  - destruct ex as [[[e es] ed]|]; [|done]. unfold exp_text.
    apply andb_true_iff in Hex as [Hex Hne].
    apply andb_true_iff in Hex as [Hex Hed].
    apply andb_true_iff in Hex as [He Hes].
    destruct (exp_classes e He) as (_ & _ & _ & _ & He5).
    cbn [Fmt.index_of]. rewrite He5.
    rewrite index_of_append; [done | by apply index_of_sign | by apply index_of_digits].
Qed.

(** The scan of a decimal number followed by text at which it stops gives
    what [ParseFloat] makes of the number. *)
Lemma Sscanf_f_decimal d t f arg :
  decimal_wf d = true → stops_float t = true →
  Strconv.ParseFloat (decimal_text d) = Some f →
  Fmt.Sscanf_f (decimal_text d ++ t) arg = (f, 1, false).
Proof.
  intros Hwf Ht Hf. unfold Fmt.Sscanf_f, Fmt.Sscanf1, Fmt.scanFloat.
  destruct (decimal_head d t Hwf) as (c & r & Hs & Hc).
  rewrite Hs, SkipSpace_number by done. cbn [mbind option_bind Fmt.rs].
  rewrite SkipSpace_number by done. cbn [mbind option_bind Fmt.notEOF Fmt.rs].
  rewrite <- Hs, floatToken_decimal by done.
  unfold Fmt.convertFloat. rewrite index_of_decimal, Hf by done. reflexivity.
Qed.

(** The same for an integer: a sign or none and digits, followed by text
    that does not start with a digit. *)
Lemma Sscanf_d_decimal sg ds t n arg :
  is_sign sg = true → all_in decimalDigits ds = true → ds ≠ "" →
  stops_int t = true →
  Strconv.ParseInt (sg ++ ds) = Some n →
  Fmt.Sscanf_d (sg ++ ds ++ t) arg = (n, 1, false).
Proof.
  intros Hsg Hds Hne Ht Hn. unfold Fmt.Sscanf_d, Fmt.Sscanf1, Fmt.scanInt.
  destruct ds as [|c ds]; [done|].
  cbn [all_in] in Hds. apply andb_true_iff in Hds as [Hc Hds].
  destruct (digit_classes c Hc) as (_ & Hc2 & _).
  apply negb_true_iff in Ht. fold (starts_in decimalDigits t) in Ht.
  revert Hn.
  destruct (is_sign_cases sg Hsg) as [-> | [-> | ->]]; intros Hn;
    normalize_append;
    (rewrite SkipSpace_number by first [reflexivity | by_chars Hc ltac:(reflexivity)]);
    cbn [mbind option_bind Fmt.rs];
    (rewrite SkipSpace_number by first [reflexivity | by_chars Hc ltac:(reflexivity)]);
    cbn [mbind option_bind Fmt.notEOF Fmt.rs];
    unfold Fmt.scanNumber; scan; cbn [mbind option_bind Fmt.notEOF Fmt.rs negb];
    scan; normalize_append; cbn [negb mbind option_bind];
    revert Hn; normalize_append; intros ->; reflexivity.
Qed.
Lemma Sscanf1_ok {A} (scanOne : Fmt.ss → option (A * Fmt.ss)) str arg :
  snd (Fmt.Sscanf1 scanOne str arg) = false →
  ∃ v, Fmt.Sscanf1 scanOne str arg = (v, 1, false).
Proof.
  unfold Fmt.Sscanf1.
  destruct (s ← Fmt.SkipSpace (Fmt.mk_ss str ""); scanOne (Fmt.mk_ss (Fmt.rs s) ""))
    as [[v s]|]; [eauto | discriminate].
Qed.

(** C10, as amended: a number followed by text at which the scan stops is
    stored as the number.  For [wallet.daily_limit] and
    [wallet.alert_threshold], when the input is a decimal number that
    [ParseFloat] reads as [f], followed by text that is empty or starts with
    none of the characters 0-9, _, ., e, E, p, P, x, X, then [f] is stored;
    for [monitoring.check_interval], when the input is a sign or none and
    digits that [ParseInt] reads as [n], followed by text that does not start
    with a digit, then [n] is stored.  Zero is stored whenever the scan
    returns an error, and only then does the variable keep its initial zero:
    a scan without error stores what it scanned. *)
Theorem C10_numeric_prefix_stored :
  ∀ (config : AgentConfig) (d : decimal) (sg ds t : string) (f : float64) (n : Z),
    (decimal_wf d = true → stops_float t = true →
     Strconv.ParseFloat (decimal_text d) = Some f →
     setValue_switch config "wallet.daily_limit" (decimal_text d ++ t)
     = Some (set_Wallet (set_DailyLimit f) config)
     ∧ setValue_switch config "wallet.alert_threshold" (decimal_text d ++ t)
       = Some (set_Wallet (set_AlertThreshold f) config))
    ∧ (is_sign sg = true → all_in decimalDigits ds = true → ds ≠ "" →
       stops_int t = true → Strconv.ParseInt (sg ++ ds) = Some n →
       setValue_switch config "monitoring.check_interval" (sg ++ ds ++ t)
       = Some (set_Monitoring (set_CheckInterval n) config))
    ∧ (∀ value,
         (parses_as_float value = false →
          setValue_switch config "wallet.daily_limit" value
          = Some (set_Wallet (set_DailyLimit Float64.zero) config)
          ∧ setValue_switch config "wallet.alert_threshold" value
            = Some (set_Wallet (set_AlertThreshold Float64.zero) config))
         ∧ (parses_as_float value = true →
            ∃ x, Fmt.Sscanf_f value Float64.zero = (x, 1, false)
                 ∧ setValue_switch config "wallet.daily_limit" value
                   = Some (set_Wallet (set_DailyLimit x) config)
                 ∧ setValue_switch config "wallet.alert_threshold" value
                   = Some (set_Wallet (set_AlertThreshold x) config))
         ∧ (parses_as_int value = false →
            setValue_switch config "monitoring.check_interval" value
            = Some (set_Monitoring (set_CheckInterval 0) config))
         ∧ (parses_as_int value = true →
            ∃ x, Fmt.Sscanf_d value 0 = (x, 1, false)
                 ∧ setValue_switch config "monitoring.check_interval" value
                   = Some (set_Monitoring (set_CheckInterval x) config))).
Proof.
  intros config d sg ds t f n. split; [|split].
  - intros Hwf Ht Hf. unfold setValue_switch. cbn [String.eqb Ascii.eqb Bool.eqb].
    by rewrite (Sscanf_f_decimal d t f Float64.zero Hwf Ht Hf).
  - intros Hsg Hds Hne Ht Hn. unfold setValue_switch.
    cbn [String.eqb Ascii.eqb Bool.eqb].
    by rewrite (Sscanf_d_decimal sg ds t n 0 Hsg Hds Hne Ht Hn).
  - intros value. unfold parses_as_float, parses_as_int, Fmt.Sscanf_f, Fmt.Sscanf_d.
    unfold setValue_switch. cbn [String.eqb Ascii.eqb Bool.eqb].
    unfold Fmt.Sscanf_f, Fmt.Sscanf_d.
    split; [|split; [|split]].
    + intros H. apply negb_false_iff, Sscanf1_error in H. by rewrite H.
    + intros H. apply negb_true_iff, Sscanf1_ok in H as [x Hx].
      exists x. by rewrite Hx.
    + intros H. apply negb_false_iff, Sscanf1_error in H. by rewrite H.
    + intros H. apply negb_true_iff, Sscanf1_ok in H as [x Hx].
      exists x. by rewrite Hx.
Qed.

Lemma C10_witness :
  setValue_switch defaultConfig "wallet.daily_limit" "1.5abc"
  = Some (set_Wallet (set_DailyLimit (Float64.of_decimal false 15 (-1))) defaultConfig)
  ∧ setValue_switch defaultConfig "monitoring.check_interval" "7x"
    = Some (set_Monitoring (set_CheckInterval 7) defaultConfig).
Proof.
  pose proof (C10_numeric_prefix_stored defaultConfig
                (Decimal "" "1" (Some "5") None) "" "7" "abc"
                (Float64.of_decimal false 15 (-1)) 7) as (Hf & _).
  pose proof (C10_numeric_prefix_stored defaultConfig
                (Decimal "" "1" (Some "5") None) "" "7" "x"
                (Float64.of_decimal false 15 (-1)) 7) as (_ & Hd & _).
  split.
  - apply Hf; vm_compute; reflexivity.
  - apply Hd; try (vm_compute; reflexivity). discriminate.
Defined.

(** The claim as it was stated fails at ["0.5ETH"]: the prefix ["0.5"] is
    a number, 0.5 and not zero, the text ["ETH"] after it has no digit, and
    yet the scanner takes the E for the start of an exponent, [ParseFloat]
    refuses ["0.5E"], and zero is stored. *)
Lemma C10_counterexample :
  Strconv.ParseFloat "0.5" = Some (Float64.of_decimal false 5 (-1))
  ∧ Float64.of_decimal false 5 (-1) ≠ Float64.zero
  ∧ non_numeric "ETH" = true
  ∧ fst (Fmt.floatToken (Fmt.mk_ss "0.5ETH" "")) = "0.5E"
  ∧ Strconv.ParseFloat "0.5E" = None
  ∧ setValue_switch defaultConfig "wallet.daily_limit" "0.5ETH"
    = Some (set_Wallet (set_DailyLimit Float64.zero) defaultConfig)
  ∧ (∃ w, setValue "wallet.daily_limit" "0.5ETH" initWorld = Done () w
          ∧ loadConfig w
            = Done (set_Wallet (set_DailyLimit Float64.zero) defaultConfig) w)
  ∧ ¬ (∀ (config : AgentConfig) (p t : string) (f : float64),
         Strconv.ParseFloat p = Some f → non_numeric t = true →
         setValue_switch config "wallet.daily_limit" (p ++ t)
         = Some (set_Wallet (set_DailyLimit f) config)).
Proof.
  split; [vm_compute; reflexivity|].
  split; [discriminate|].
  split; [vm_compute; reflexivity|].
  split; [vm_compute; reflexivity|].
  split; [vm_compute; reflexivity|].
  assert (setValue_switch defaultConfig "wallet.daily_limit" "0.5ETH"
          = Some (set_Wallet (set_DailyLimit Float64.zero) defaultConfig)) as Hzero
    by (vm_compute; reflexivity).
  split; [exact Hzero|]. split.
  - exists (world_of (setValue "wallet.daily_limit" "0.5ETH" initWorld)).
    split; vm_compute; reflexivity.
  - intros H.
    assert (Strconv.ParseFloat "0.5" = Some (Float64.of_decimal false 5 (-1))) as Hp
      by (vm_compute; reflexivity).
    specialize (H defaultConfig "0.5" "ETH" _ Hp eq_refl).
    change ("0.5" ++ "ETH") with "0.5ETH" in H. rewrite Hzero in H.
    discriminate H.
Qed.
(** * Further properties of the program *)

(** ** Loading *)

Lemma loadConfig_eq w :
  loadConfig w =
  match stored w with
  | None => NotFound w
  | Some d =>
      match decode d with
      | None => Malformed w
      | Some config => Done config w
      end
  end.
Proof.
  unfold loadConfig, bind, stored, decode. rewrite getConfigPath_eq.
  unfold OS.ReadFile.
  destruct (OS.lookup (files w) (configPath w)) as [[|perm [v|raw]]|];
    try reflexivity.
  cbn. destruct (Codec.Unmarshal v zeroAgentConfig); reflexivity.
Qed.

Lemma stored_None w :
  stored w = None ↔ ∀ perm d, files w !! configPath w ≠ Some (File perm d).
Proof.
  unfold stored. rewrite lookup_configPath.
  destruct (files w !! configPath w) as [[|perm d]|]; split; try done.
  intros H. by destruct (H perm d).
Qed.

(** A command that starts with [loadConfig] ends where [loadConfig] ends
    when that one leaves through [os.Exit]. *)
Lemma bind_loadConfig_Exit {B} (k : AgentConfig → IO B) w code w' :
  loadConfig w = Exit code w' → bind loadConfig k w = Exit code w'.
Proof. intros H. unfold bind. by rewrite H. Qed.

Lemma loadConfig_Exit w code w' :
  loadConfig w = Exit code w' → code = 1 ∧ files w' = files w.
Proof.
  rewrite loadConfig_eq. destruct (stored w) as [d|].
  - destruct (decode d); [discriminate|]. by intros [= <- <-].
  - by intros [= <- <-].
Qed.

(** Runs the prints of a command. *)
Ltac io_steps :=
  cbv beta iota zeta
    delta [bind ret fmt.Println fmt.Printf OS.Exit home files stdout print].

Lemma showConfig_loaded w config :
  loadConfig w = Done config w →
  ∃ out, showConfig w = Done () (mkWorld (home w) (files w) (stdout w ++ out)).
Proof.
  intros H. unfold showConfig. unfold bind at 1. rewrite H.
  io_steps. rewrite <- !app_assoc. eexists. reflexivity.
Qed.

Lemma printUsage_Done w :
  ∃ out, printUsage w = Done () (mkWorld (home w) (files w) (stdout w ++ out)).
Proof.
  unfold printUsage. io_steps. rewrite <- !app_assoc. eexists. reflexivity.
Qed.

(** ** init, case by case *)

Lemma initConfig_cases w :
  let mk := OS.mkdirAll (rev (filepath.Dir (configPath w))) (files w) in
  let fs := default (files w) mk in
  (is_Some (files w !! configPath w)
   ∧ initConfig w
     = Done () (mkWorld (home w) fs
                  (stdout w ++ already_exists_report (configPath w))))
  ∨ (files w !! configPath w = None ∧ is_Some mk
     ∧ ∃ v, Codec.Marshal defaultConfig = Some v
            ∧ initConfig w
              = Done () (mkWorld (home w)
                           (<[configPath w := File 384 (JSON v)]> fs)
                           (stdout w ++ created_report (configPath w))))
  ∨ (files w !! configPath w = None ∧ mk = None ∧ initConfig w = WriteError w).
Proof.
  intros mk fs.
  destruct (files w !! configPath w) as [x|] eqn:Hx.
  - left. split; [done|].
    destruct (initConfig_existing w) as (fs' & -> & _ & [E | [E ->]]);
      [by rewrite Hx | |]; subst fs mk; by rewrite E.
  - right. subst fs. unfold initConfig, bind. rewrite getConfigPath_eq.
    unfold OS.MkdirAll, OS.Stat.
    destruct Marshal_defaultConfig as [v Hv].
    destruct mk as [fs|] eqn:E; subst mk; rewrite E; cbn [default from_option id].
    + left. split; [done|]. split; [done|]. exists v. split; [done|].
      assert (fs !! configPath w = None) as Habs'.
      { rewrite (mkdirAll_longer _ _ _ _ E); [done|].
        rewrite length_rev, length_configPath. lia. }
      cbn [files]. rewrite lookup_configPath, Habs'.
      rewrite bool_decide_eq_true_2 by done. cbn [negb].
      rewrite saveConfig_eq, Hv. unfold OS.writeFile. cbn [files home stdout].
      change (configPath {| home := home w; files := fs; stdout := stdout w |})
        with (configPath w).
      rewrite lookup_configPath, Habs'.
      apply mkdirAll_Dir in E as Hdir. rewrite rev_involutive in Hdir.
      unfold filepath.Dir in Hdir. rewrite Hdir. io_steps.
      by rewrite <- !app_assoc.
    + right. split; [done|]. split; [done|].
      rewrite lookup_configPath, Hx.
      rewrite bool_decide_eq_true_2 by done. cbn [negb].
      rewrite saveConfig_eq, Hv. unfold OS.writeFile.
      rewrite lookup_configPath, Hx.
      destruct (OS.lookup (files w) (removelast (configPath w))) as [[|]|] eqn:Ep;
        try reflexivity.
      rewrite <- (rev_involutive (removelast _)) in Ep.
      apply mkdirAll_there in Ep. unfold filepath.Dir in E. congruence.
Qed.
(** ** How each command leaves *)

Lemma stored_Some w d :
  stored w = Some d → ∃ perm, files w !! configPath w = Some (File perm d).
Proof.
  unfold stored. rewrite lookup_configPath.
  destruct (files w !! configPath w) as [[|perm d']|]; try discriminate.
  intros [= ->]. eauto.
Qed.

Lemma outcome_loadConfig {B} (k : AgentConfig → IO B) Q w :
  (∀ config, loadConfig w = Done config w → outcome Q w (k config w)) →
  outcome Q w (bind loadConfig k w).
Proof.
  intros H. unfold bind. destruct (loadConfig w) as [c w1|code w1] eqn:E.
  - pose proof (loadConfig_same _ _ _ E) as ->. by apply H.
  - by apply loadConfig_Exit in E.
Qed.

Lemma outcome_showConfig Q w : Q (files w) → outcome Q w (showConfig w).
Proof.
  intros HQ. destruct (loadConfig w) as [c w1|code w1] eqn:E.
  - pose proof (loadConfig_same _ _ _ E) as ->.
    destruct (showConfig_loaded _ _ E) as [out ->]. exact HQ.
  - unfold showConfig. rewrite (bind_loadConfig_Exit _ _ _ _ E).
    by apply loadConfig_Exit in E.
Qed.

Lemma outcome_getValue Q key w : Q (files w) → outcome Q w (getValue key w).
Proof.
  intros HQ. apply outcome_loadConfig. intros config _.
  destruct (getValue_switch config key); [exact HQ | by split].
Qed.

Lemma outcome_validateConfig Q w : Q (files w) → outcome Q w (validateConfig w).
Proof.
  intros HQ. destruct (loadConfig w) as [c w1|code w1] eqn:E.
  - rewrite (validateConfig_loaded _ _ _ E). exact HQ.
  - unfold validateConfig. rewrite (bind_loadConfig_Exit _ _ _ _ E).
    by apply loadConfig_Exit in E.
Qed.

Lemma outcome_setValue Q key value w :
  (∀ perm d v, files w !! configPath w = Some (File perm d) →
               Q (<[configPath w := File perm (JSON v)]> (files w))) →
  outcome Q w (setValue key value w).
Proof.
  intros HQ. apply outcome_loadConfig. intros config Hload.
  apply loadConfig_Done in Hload as (_ & perm & v0 & Hfile & _).
  rewrite lookup_configPath in Hfile.
  destruct (setValue_switch config key value) as [config'|]; [|by split].
  unfold bind. rewrite saveConfig_eq.
  destruct (Codec.Marshal config') as [v|]; [|by split].
  unfold OS.writeFile. rewrite lookup_configPath, Hfile.
  by eapply HQ.
Qed.

Lemma outcome_initConfig Q w :
  (∀ fs, OS.mkdirAll (rev (filepath.Dir (configPath w))) (files w) = Some fs →
         Q fs
         ∧ ∀ v, files w !! configPath w = None →
                Q (<[configPath w := File 384 (JSON v)]> fs)) →
  Q (files w) →
  outcome Q w (initConfig w).
Proof.
  intros HQ H0.
  destruct (initConfig_cases w)
    as [[_ ->] | [(Hn & [fs E] & v & _ & ->) | (_ & _ & ->)]].
  - cbn [outcome files].
    destruct (OS.mkdirAll _ _) as [fs|] eqn:E; cbn [default from_option id];
      [by apply HQ | done].
  - cbn [outcome files]. rewrite E. cbn [default from_option id].
    by apply HQ.
  - by split.
Qed.

Lemma outcome_exportConfig Q w :
  (∀ config, Q (export_files config (exportDir w) (files w))) →
  outcome Q w (exportConfig w).
Proof.
  intros HQ. destruct (loadConfig w) as [c w1|code w1] eqn:E.
  - rewrite (exportConfig_loaded _ _ _ E). apply HQ.
  - unfold exportConfig. rewrite (bind_loadConfig_Exit _ _ _ _ E).
    by apply loadConfig_Exit in E.
Qed.
(** ** main *)

Lemma run_eq args w : run args w = (exit_code (main args w), world_of (main args w)).
Proof. unfold run. by destruct (main args w). Qed.

Lemma outcome_printUsage Q w : Q (files w) → outcome Q w (printUsage w).
Proof. intros HQ. by destruct (printUsage_Done w) as [out ->]. Qed.

Lemma printUsage_Exit w :
  (printUsage;; OS.Exit (A:=unit) 1) w = Exit 1 (world_of (printUsage w)).
Proof. unfold bind. by destruct (printUsage_Done w) as [out ->]. Qed.

Lemma printUsage_files w : files (world_of (printUsage w)) = files w.
Proof. by destruct (printUsage_Done w) as [out ->]. Qed.

Lemma outcome_main Q args w :
  Q (files w) →
  (∀ perm d v, files w !! configPath w = Some (File perm d) →
               Q (<[configPath w := File perm (JSON v)]> (files w))) →
  (∀ fs, OS.mkdirAll (rev (filepath.Dir (configPath w))) (files w) = Some fs →
         Q fs
         ∧ ∀ v, files w !! configPath w = None →
                Q (<[configPath w := File 384 (JSON v)]> fs)) →
  (∀ config, Q (export_files config (exportDir w) (files w))) →
  outcome Q w (main args w).
Proof.
  intros H0 Hset Hinit Hexport. unfold main.
  destruct (length args <? 2)%nat.
  { rewrite printUsage_Exit. split; [done | apply printUsage_files]. }
  destruct (String.eqb _ "init"); [by apply outcome_initConfig|].
  destruct (String.eqb _ "show"); [by apply outcome_showConfig|].
  destruct (String.eqb _ "get").
  { destruct (length args <? 3)%nat; [by split | by apply outcome_getValue]. }
  destruct (String.eqb _ "set").
  { destruct (length args <? 4)%nat; [by split | by apply outcome_setValue]. }
  destruct (String.eqb _ "validate"); [by apply outcome_validateConfig|].
  destruct (String.eqb _ "export"); [by apply outcome_exportConfig|].
  destruct (String.eqb _ "version"); [exact H0|].
  by apply outcome_printUsage.
Qed.
(** ** What a run does to the other files *)

Lemma mkdirAll_frame rp : ∀ fs fs' (p : list string),
  OS.mkdirAll rp fs = Some fs' → ¬ p `prefix_of` rev rp → fs' !! p = fs !! p.
Proof.
  induction rp as [|c rp IH]; intros fs fs' p; rewrite mkdirAll_unfold.
  - destruct (OS.lookup fs (rev [])) as [[|]|]; by intros [= <-].
  - destruct (OS.lookup fs (rev (c :: rp))) as [[|]|]; try by intros [= <-].
    destruct (OS.mkdirAll rp fs) as [fs1|] eqn:E; [|discriminate].
    cbn [mbind option_bind].
    destruct (OS.lookup fs1 (rev rp)) as [[|]|]; try discriminate.
    intros [= <-] Hp. rewrite lookup_insert_ne.
    + apply (IH _ _ _ E). intros Hpre. apply Hp. cbn [rev].
      by apply prefix_app_r.
    + intros <-. by apply Hp.
Qed.

Lemma mkdirAll_default_frame rp fs (p : list string) :
  ¬ p `prefix_of` rev rp → default fs (OS.mkdirAll rp fs) !! p = fs !! p.
Proof.
  intros H. destruct (OS.mkdirAll rp fs) eqn:E; cbn [default from_option id]; [|done].
  by eapply mkdirAll_frame.
Qed.

Lemma Dir_configPath_prefix w : filepath.Dir (configPath w) `prefix_of` exportDir w.
Proof.
  rewrite Dir_configPath. unfold exportDir.
  exists ["exports"]. by rewrite <- app_assoc.
Qed.

Lemma export_files_frame config w (p : list string) :
  p ∉ exportPaths w → ¬ p `prefix_of` exportDir w →
  export_files config (exportDir w) (files w) !! p = files w !! p.
Proof.
  unfold exportPaths. rewrite !not_elem_of_cons. intros (H1 & H2 & H3 & _) Hp.
  unfold export_files. rewrite !export_write_other by done.
  apply mkdirAll_default_frame. by rewrite rev_involutive.
Qed.

Lemma export_write_extends dir name m fs (p : list string) x :
  fs !! p = Some x →
  ∃ y, export_write dir name m fs !! p = Some y ∧ same_kind x y.
Proof.
  intros Hx.
  assert (same_kind x x) as Hrefl by (by destruct x).
  destruct (decide (p = (dir ++ [name])%list)) as [->|Hne];
    [|rewrite export_write_other by done; eauto].
  unfold export_write, OS.writeFile.
  assert (dir ++ [name] ≠ [])%list as Hne by (by destruct dir).
  rewrite !(lookup_nonempty _ _ Hne), Hx.
  destruct x as [|perm d]; cbn [default from_option id].
  - eauto.
  - rewrite lookup_insert_eq. by eexists.
Qed.
(** X1: a run ends with exit status 0 or 1, and a run that ends with
    status 1 has changed no file, whatever the arguments and the files.  The
    exits for missing arguments, for a document that does not load and for
    an unknown key come before any write; [saveConfig] exits only where
    nothing was written; and in [init] it does so only after a [MkdirAll]
    that has failed as well, and so has made no directory. *)
Theorem X1_run_exit_status :
  ∀ (args : list string) (w : world),
    fst (run args w) = 0
    ∨ fst (run args w) = 1 ∧ files (snd (run args w)) = files w.
Proof.
  intros args w. rewrite run_eq. cbn [fst snd].
  pose proof (outcome_main (λ _, True) args w) as H.
  destruct (main args w) as [[] w'|code w']; [by left|].
  right. apply H; done.
Qed.

(** X2: a run changes nothing outside its own files.  An entry of the file
    system at a path that is not the configuration file, not one of the
    three export files and not the export directory or one of its ancestors
    is after the run what it was before, whatever the command: nothing is
    made there and nothing that is there is changed. *)
Theorem X2_run_leaves_other_paths :
  ∀ (args : list string) (w : world) (p : list string),
    p ∉ configPath w :: exportPaths w →
    ¬ p `prefix_of` exportDir w →
    files (snd (run args w)) !! p = files w !! p.
Proof.
  intros args w p Hp Hpre. rewrite run_eq. cbn [snd].
  apply not_elem_of_cons in Hp as [Hcp Hex].
  assert (¬ p `prefix_of` filepath.Dir (configPath w)) as Hpre'.
  { intros H. apply Hpre. etrans; [exact H | apply Dir_configPath_prefix]. }
  pose proof (outcome_main (λ fs, fs !! p = files w !! p) args w) as H.
  destruct (main args w) as [[] w'|code w']; cbn [outcome world_of] in *.
  - apply H; clear H.
    + done.
    + intros perm d v _. by rewrite lookup_insert_ne.
    + intros fs E. split.
      * apply (mkdirAll_frame _ _ _ _ E). by rewrite rev_involutive.
      * intros v _. rewrite lookup_insert_ne by done.
        apply (mkdirAll_frame _ _ _ _ E). by rewrite rev_involutive.
    + intros config. by apply export_files_frame.
  - assert (code = 1 ∧ files w' = files w) as [_ ->]; [|done].
    apply H; clear H.
    + done.
    + intros perm d v _. by rewrite lookup_insert_ne.
    + intros fs E. split.
      * apply (mkdirAll_frame _ _ _ _ E). by rewrite rev_involutive.
      * intros v _. rewrite lookup_insert_ne by done.
        apply (mkdirAll_frame _ _ _ _ E). by rewrite rev_involutive.
    + intros config. by apply export_files_frame.
Qed.

Lemma X2_witness :
  files (snd (run ["acm"; "export"] initWorld)) !! ["home"; "agent"; "notes.txt"]
  = files initWorld !! ["home"; "agent"; "notes.txt"].
Proof.
  apply (X2_run_leaves_other_paths ["acm"; "export"] initWorld
           ["home"; "agent"; "notes.txt"]).
  - unfold exportPaths, exportDir, configPath, initWorld. cbn [home app].
    rewrite !elem_of_cons, elem_of_nil. intuition discriminate.
  - unfold exportDir, initWorld. cbn [home app]. intros [k Hk]. discriminate Hk.
Defined.

(** X3: no run removes an entry of the file system or changes its kind.
    What is a directory before a run is a directory after it, and what is a
    file is a file of the same mode, though its content may have been
    overwritten. *)
Theorem X3_run_keeps_entries :
  ∀ (args : list string) (w : world) (p : list string) (x : node),
    files w !! p = Some x →
    ∃ y, files (snd (run args w)) !! p = Some y ∧ same_kind x y.
Proof.
  intros args w p x Hx. rewrite run_eq. cbn [snd].
  assert (same_kind x x) as Hrefl by (by destruct x).
  pose proof (outcome_main
                (λ fs, ∃ y, fs !! p = Some y ∧ same_kind x y) args w) as H.
  assert (outcome (λ fs, ∃ y, fs !! p = Some y ∧ same_kind x y) w (main args w))
    as Hout.
  { apply H; clear H.
    - eauto.
    - intros perm d v Hfile.
      destruct (decide (p = configPath w)) as [->|Hne].
      + rewrite lookup_insert_eq. eexists. split; [done|].
        rewrite Hfile in Hx. by injection Hx as <-.
      + rewrite lookup_insert_ne by done. eauto.
    - intros fs E. pose proof (mkdirAll_preserves _ _ _ _ _ E Hx) as Hx'.
      split; [eauto|]. intros v Hn.
      rewrite lookup_insert_ne by congruence. eauto.
    - intros config. unfold export_files.
      pose proof (mkdirAll_default_preserves (rev (exportDir w)) _ _ _ Hx) as H0.
      destruct (export_write_extends (exportDir w) "wallet-monitor.json"
                  (walletConfig config) _ _ _ H0) as (y1 & H1 & K1).
      destruct (export_write_extends (exportDir w) "reputation-scanner.json"
                  (scannerConfig config) _ _ _ H1) as (y2 & H2 & K2).
      destruct (export_write_extends (exportDir w) "security-dashboard.json"
                  (dashboardConfig config) _ _ _ H2) as (y3 & H3 & K3).
      exists y3. split; [done|].
      destruct x, y1, y2, y3; cbn in *; try done; congruence. }
  destruct (main args w) as [[] w'|code w']; cbn [outcome world_of] in *.
  - exact Hout.
  - destruct Hout as [_ ->]. eauto.
Qed.

Lemma X3_witness :
  ∃ y, files (snd (run ["acm"; "set"; "api_keys.etherscan"; "E1"] initWorld))
       !! configPath initWorld = Some y
       ∧ same_kind (File 384 (JSON (default Json.Null (Codec.Marshal defaultConfig)))) y.
Proof.
  apply (X3_run_keeps_entries ["acm"; "set"; "api_keys.etherscan"; "E1"] initWorld
           (configPath initWorld)).
  vm_compute. reflexivity.
Defined.

(** X4: only [init], [set] and [export] write.  A run with any other
    first argument, or with none, leaves every file as it was: the commands
    [show], [get], [validate] and [version], an unknown command and a
    missing one write nothing, whether they succeed or fail. *)
Theorem X4_run_read_only :
  ∀ (args : list string) (w : world),
    nth 1 args "" ∉ ["init"; "set"; "export"] →
    files (snd (run args w)) = files w.
Proof.
  intros args w Hcmd. rewrite run_eq. cbn [snd].
  rewrite !not_elem_of_cons in Hcmd. destruct Hcmd as (Hi & Hs & He & _).
  assert (outcome (λ fs, fs = files w) w (main args w)) as Hout.
  { unfold main.
    destruct (length args <? 2)%nat.
    { rewrite printUsage_Exit. split; [done | apply printUsage_files]. }
    destruct (String.eqb_spec (nth 1 args "") "init"); [done|].
    destruct (String.eqb _ "show"); [by apply outcome_showConfig|].
    destruct (String.eqb _ "get").
    { destruct (length args <? 3)%nat; [by split | by apply outcome_getValue]. }
    destruct (String.eqb_spec (nth 1 args "") "set"); [done|].
    destruct (String.eqb _ "validate"); [by apply outcome_validateConfig|].
    destruct (String.eqb_spec (nth 1 args "") "export"); [done|].
    destruct (String.eqb _ "version"); [done|].
    by apply outcome_printUsage. }
  destruct (main args w) as [[] w'|code w']; cbn [outcome world_of] in *.
  - exact Hout.
  - by destruct Hout.
Qed.

Lemma X4_witness :
  files (snd (run ["acm"; "show"] initWorld)) = files initWorld.
Proof.
  apply (X4_run_read_only ["acm"; "show"] initWorld).
  cbn [nth]. rewrite !elem_of_cons, elem_of_nil. intuition discriminate.
Defined.
(** ** The command line *)

(** X5: the command line, when it names no command the program knows.
    Without a subcommand the usage text is printed and the exit status is
    1; [get] without a key and [set] without a key or without a value print
    their usage line and exit with status 1.  With a first argument that is
    none of [init], [show], [get], [set], [validate], [export] and
    [version] (the comparison is exact, so [Init] is unknown), the same
    usage text is printed but [main] returns: the exit status is 0, and the
    arguments after it are ignored.  In none of these cases is a file read
    or changed. *)
Theorem X5_main_usage :
  ∀ (prog cmd key : string) (rest : list string) (w : world),
    cmd ∉ commands →
    run (prog :: cmd :: rest) w = (0, world_of (printUsage w))
    ∧ run [] w = (1, world_of (printUsage w))
    ∧ run [prog] w = (1, world_of (printUsage w))
    ∧ run [prog; "get"] w = (1, print (Println [AString "Usage: acm get <key>"]) w)
    ∧ run [prog; "set"] w
      = (1, print (Println [AString "Usage: acm set <key> <value>"]) w)
    ∧ run [prog; "set"; key] w
      = (1, print (Println [AString "Usage: acm set <key> <value>"]) w)
    ∧ files (world_of (printUsage w)) = files w
    ∧ ∃ out, stdout (world_of (printUsage w)) = (stdout w ++ out)%list
             ∧ length out = 12%nat.
Proof.
  intros prog cmd key rest w Hcmd. unfold commands in Hcmd.
  rewrite !not_elem_of_cons in Hcmd.
  destruct Hcmd as (H1 & H2 & H3 & H4 & H5 & H6 & H7 & _).
  split; [|split; [|split; [|split; [|split; [|split; [|split]]]]]].
  - rewrite run_eq. unfold main. cbn [length Nat.ltb Nat.leb nth].
    case_key cmd; done.
  - rewrite run_eq. unfold main. cbn [length Nat.ltb Nat.leb].
    by rewrite printUsage_Exit.
  - rewrite run_eq. unfold main. cbn [length Nat.ltb Nat.leb].
    by rewrite printUsage_Exit.
  - reflexivity.
  - reflexivity.
  - reflexivity.
  - apply printUsage_files.
  - unfold printUsage. io_steps. rewrite <- !app_assoc.
    eexists. split; reflexivity.
Qed.

Lemma X5_witness :
  run ["acm"; "Init"; "now"] emptyWorld = (0, world_of (printUsage emptyWorld))
  ∧ run ["acm"] emptyWorld = (1, world_of (printUsage emptyWorld))
  ∧ run ["acm"; "set"; "wallet.daily_limit"] emptyWorld
    = (1, print (Println [AString "Usage: acm set <key> <value>"]) emptyWorld).
Proof.
  destruct (X5_main_usage "acm" "Init" "wallet.daily_limit" ["now"] emptyWorld)
    as (H1 & _ & H2 & _ & _ & H3 & _).
  - unfold commands. rewrite !elem_of_cons, elem_of_nil. intuition discriminate.
  - split; [exact H1 | split; [exact H2 | exact H3]].
Defined.

(** ** Failures of loading and saving *)

(** X6: a document that cannot be loaded ends every command that needs
    it, before anything else is done.  When [loadConfig] leaves through
    [os.Exit], so do [show], [get], [set], [validate] and [export], with the
    same status 1, the same output and no file changed; for [get] and [set]
    this is so whatever the key, known or not, and whatever the value.  The
    output is the not-found message (with the hint to run [acm init]) when
    no file is at the configuration path, and the invalid-config message
    when a file is there that does not decode. *)
Theorem X6_load_failure_ends_every_command :
  ∀ (w w' : world) (code : Z) (key value : string),
    loadConfig w = Exit code w' →
    code = 1
    ∧ files w' = files w
    ∧ showConfig w = Exit code w'
    ∧ getValue key w = Exit code w'
    ∧ setValue key value w = Exit code w'
    ∧ validateConfig w = Exit code w'
    ∧ exportConfig w = Exit code w'
    ∧ (stored w = None ∧ loadConfig w = NotFound w
       ∨ (∃ d, stored w = Some d ∧ decode d = None)
         ∧ loadConfig w = Malformed w).
Proof.
  intros w w' code key value H.
  destruct (loadConfig_Exit _ _ _ H) as [-> Hf].
  repeat (split; [done || by apply bind_loadConfig_Exit|]).
  rewrite loadConfig_eq in H |- *.
  destruct (stored w) as [d|]; [|by left].
  destruct (decode d) eqn:E; [discriminate|]. right. eauto.
Qed.

Lemma X6_witness :
  showConfig emptyWorld = NotFound emptyWorld
  ∧ getValue "no.such.key" emptyWorld = NotFound emptyWorld
  ∧ setValue "no.such.key" "x" emptyWorld = NotFound emptyWorld.
Proof.
  destruct (X6_load_failure_ends_every_command emptyWorld
              (print (Println [AString "   Run 'acm init' to create"])
                 (print (Printf ("❌ Config not found at %s" ++ nl)
                           [APath (configPath emptyWorld)]) emptyWorld))
              1 "no.such.key" "x") as (_ & _ & Hshow & Hget & Hset & _).
  - vm_compute. reflexivity.
  - split; [exact Hshow | split; [exact Hget | exact Hset]].
Defined.

(** X7: what [loadConfig] makes of what it finds at the configuration
    path.  Nothing there, or a directory, is the not-found failure; a file
    that is not a JSON text, or whose text is an array, a string, a number
    or a boolean, is the invalid-config failure; a file that holds [null] or
    the empty object is accepted and gives the document with every field
    zero.  A directory at the path is thus not found by [loadConfig], while
    [initConfig] takes it for an existing configuration and writes
    nothing. *)
Theorem X7_loadConfig_edge_cases :
  ∀ (w : world),
    (files w !! configPath w = None → loadConfig w = NotFound w)
    ∧ (files w !! configPath w = Some Dir →
       loadConfig w = NotFound w
       ∧ ∃ fs, initConfig w
               = Done () (mkWorld (home w) fs
                            (stdout w ++ already_exists_report (configPath w)))
               ∧ fs !! configPath w = Some Dir)
    ∧ (∀ perm bytes,
         files w !! configPath w = Some (File perm (Raw bytes)) →
         loadConfig w = Malformed w)
    ∧ (∀ perm v,
         files w !! configPath w = Some (File perm (JSON v)) →
         v = Json.Null ∨ v = Json.Obj [] →
         loadConfig w = Done zeroAgentConfig w)
    ∧ (∀ perm v,
         files w !! configPath w = Some (File perm (JSON v)) →
         v ≠ Json.Null → (∀ members, v ≠ Json.Obj members) →
         loadConfig w = Malformed w).
Proof.
  intros w. rewrite loadConfig_eq. unfold stored. rewrite lookup_configPath.
  split; [|split; [|split; [|split]]].
  - by intros ->.
  - intros H. rewrite H. split; [done|].
    destruct (initConfig_existing w) as (fs & Hinit & Hfs & _); [by rewrite H|].
    exists fs. split; [done|]. by rewrite Hfs.
  - by intros perm bytes ->.
  - by intros perm v -> [-> | ->].
  - intros perm v -> Hnull Hobj. destruct v; try done. by destruct (Hobj members).
Qed.
Lemma Marshal_Some_finite c v :
  Codec.Marshal c = Some v → finite_wallet (Wallet c).
Proof.
  unfold Codec.Marshal, Codec.encWalletConfig, Json.float, finite_wallet, valid_float.
  destruct (Float64.finite (DailyLimit (Wallet c))); [|discriminate].
  destruct (Float64.finite (AlertThreshold (Wallet c))); [|discriminate].
  done.
Qed.

(** X8: the outcomes of [saveConfig].  It fails with the marshal message
    exactly when the daily limit or the alert threshold is NaN or an
    infinity.  Otherwise it overwrites a file that is at the configuration
    path, which keeps the mode it has; or it makes the file, with mode 0600,
    when nothing is at the path and the directory is there; or it fails with
    the write message, when a directory is at the path or the directory of
    the file is missing: [saveConfig] makes no directory.  Each failure
    ends the run with status 1 and no file changed. *)
Theorem X8_saveConfig_outcomes :
  ∀ (config : AgentConfig) (w : world),
    (¬ finite_wallet (Wallet config) ∧ Codec.Marshal config = None
     ∧ saveConfig config w = MarshalError w)
    ∨ (finite_wallet (Wallet config)
       ∧ ∃ v, Codec.Marshal config = Some v
         ∧ ((∃ perm d,
               files w !! configPath w = Some (File perm d)
               ∧ saveConfig config w
                 = Done () (mkWorld (home w)
                              (<[configPath w := File perm (JSON v)]> (files w))
                              (stdout w)))
            ∨ (files w !! configPath w = None
               ∧ files w !! filepath.Dir (configPath w) = Some Dir
               ∧ saveConfig config w
                 = Done () (mkWorld (home w)
                              (<[configPath w := File 384 (JSON v)]> (files w))
                              (stdout w)))
            ∨ ((files w !! configPath w = Some Dir
                ∨ files w !! configPath w = None
                  ∧ files w !! filepath.Dir (configPath w) ≠ Some Dir)
               ∧ saveConfig config w = WriteError w))).
Proof.
  intros config w. rewrite saveConfig_eq.
  destruct (Codec.Marshal config) as [v|] eqn:Hv.
  - right. split; [by eapply Marshal_Some_finite|]. exists v. split; [done|].
    unfold OS.writeFile, filepath.Dir.
    rewrite lookup_configPath, (lookup_nonempty _ (removelast _))
      by apply Dir_configPath_nonempty.
    destruct (files w !! configPath w) as [[|perm d]|].
    + right; right. split; [by left | done].
    + left. by exists perm, d.
    + destruct (files w !! removelast (configPath w)) as [[|]|] eqn:Ep.
      * right; left. done.
      * right; right. split; [right; split; done | done].
      * right; right. split; [right; split; done | done].
  - left. split; [|done]. intros Hfin.
    destruct (Marshal_finite _ Hfin) as [v' Hv']. congruence.
Qed.

(** ** One set after another *)

Lemma digits_value_ge s : ∀ acc n,
  0 ≤ acc → Strconv.digits_value acc s = Some n → 0 ≤ n.
Proof.
  induction s as [|c s IH]; intros acc n Hacc; cbn [Strconv.digits_value].
  - by intros [= <-].
  - destruct (isDigit c) eqn:Hc; [|discriminate].
    apply IH. unfold isDigit, decimalDigits in Hc. cbn [indexRune] in Hc.
    assert (0 ≤ digitVal c); [|lia].
    repeat (apply orb_true_iff in Hc as [Hc|Hc];
            [apply Ascii.eqb_eq in Hc; subst c; vm_compute; discriminate|]).
    discriminate Hc.
Qed.

Lemma ParseInt_valid s n : Strconv.ParseInt s = Some n → valid_int n.
Proof.
  unfold Strconv.ParseInt, valid_int, Json.inInt64.
  destruct s as [|c s]; [discriminate|].
  destruct (if Ascii.eqb c "+" then (false, s)
            else if Ascii.eqb c "-" then (true, s) else (false, String c s))
    as [neg body].
  destruct (Strconv.ParseUint body) as [un|] eqn:E; [|discriminate].
  assert (0 ≤ un) as Hun.
  { unfold Strconv.ParseUint in E. destruct body; [discriminate|].
    by eapply (digits_value_ge _ 0). }
  destruct neg; cbn [negb andb].
  - destruct (2 ^ 63 <? un) eqn:Hc; [discriminate|]. intros [= <-]. lia.
  - destruct (2 ^ 63 <=? un) eqn:Hc; [discriminate|]. intros [= <-]. lia.
Qed.

Lemma Sscanf_d_valid value x n e :
  Fmt.Sscanf_d value 0 = (x, n, e) → valid_int x.
Proof.
  unfold Fmt.Sscanf_d, Fmt.Sscanf1.
  destruct (Fmt.SkipSpace (Fmt.mk_ss value "")) as [s|];
    cbn [mbind option_bind]; [|by intros [= <- _ _]].
  unfold Fmt.scanInt.
  destruct (Fmt.SkipSpace _) as [s1|]; cbn [mbind option_bind];
    [|by intros [= <- _ _]].
  destruct (Fmt.notEOF s1) as [s2|]; cbn [mbind option_bind];
    [|by intros [= <- _ _]].
  destruct (Fmt.accept sign s2) as [a s3].
  destruct (Fmt.scanNumber decimalDigits s3) as [[tok s4]|];
    cbn [mbind option_bind]; [|by intros [= <- _ _]].
  destruct (Strconv.ParseInt tok) as [i|] eqn:Hi; cbn [mbind option_bind];
    [|by intros [= <- _ _]].
  intros [= <- _ _]. by eapply ParseInt_valid.
Qed.

Lemma setValue_switch_valid config key value config' :
  valid_config config → (key ∈ string_keys → valid_string value) →
  setValue_switch config key value = Some config' →
  finite_wallet (Wallet config') → valid_config config'.
Proof.
  intros Hc Hv Hsw [Hd Ht]. unfold valid_config in *.
  destruct Hc as (H1 & (A1 & A2 & A3 & A4 & A5) & (H3 & H4 & _ & _) & (S1 & S2) & (K1 & K2 & K3 & K4 & K5) & (M1 & M2 & M3)).
  revert Hsw Hd Ht. unfold setValue_switch.
  case_key key;
    try destruct (Fmt.Sscanf_f _ _) as [[? ?] ?];
    try (destruct (Fmt.Sscanf_d _ _) as [[? ?] ?] eqn:Ed;
         apply Sscanf_d_valid in Ed);
    intros [= <-]; cbn; intros Hd Ht; repeat split; try done;
    apply Hv; unfold string_keys; rewrite !elem_of_cons; tauto.
Qed.
Lemma setValue_Done w w' key value :
  setValue key value w = Done () w' →
  ∃ config config' v perm d,
    loadConfig w = Done config w
    ∧ setValue_switch config key value = Some config'
    ∧ Codec.Marshal config' = Some v
    ∧ files w !! configPath w = Some (File perm d)
    ∧ w' = after_set key perm v w.
Proof.
  intros H.
  destruct (loadConfig w) as [config w1|] eqn:Hload;
    [|unfold setValue, bind in H; by rewrite Hload in H].
  pose proof (loadConfig_same _ _ _ Hload) as ->.
  pose proof Hload as (_ & perm & v0 & Hfile & _)%loadConfig_Done.
  rewrite lookup_configPath in Hfile.
  destruct (setValue_switch config key value) as [config'|] eqn:Hsw;
    [|unfold setValue, bind in H; by rewrite Hload, Hsw in H].
  destruct (Codec.Marshal config') as [v|] eqn:Hv.
  - rewrite (setValue_loaded w config key value config' v perm _ Hload Hfile Hsw Hv)
      in H.
    injection H as <-. by exists config, config', v, perm, (JSON v0).
  - unfold setValue, bind in H. rewrite Hload, Hsw, saveConfig_eq, Hv in H.
    discriminate.
Qed.

Lemma loadConfig_after_set w key perm v config' :
  Codec.Unmarshal v zeroAgentConfig = Some config' →
  loadConfig (after_set key perm v w) = Done config' (after_set key perm v w).
Proof.
  intros Hv. apply loadConfig_Done. split; [done|]. exists perm, v.
  split; [|done]. unfold after_set.
  change (configPath (mkWorld (home w) _ _)) with (configPath w).
  cbn [files]. by rewrite lookup_configPath, lookup_insert_eq.
Qed.

(** A loaded document that is valid, a [set] that returned: the document
    set, which is valid too and is what is loaded afterwards. *)
Lemma setValue_round_trip w w' config key value :
  loadConfig w = Done config w → valid_config config →
  (key ∈ string_keys → valid_string value) →
  setValue key value w = Done () w' →
  ∃ config' v perm,
    setValue_switch config key value = Some config'
    ∧ valid_config config'
    ∧ Codec.Marshal config' = Some v
    ∧ (∃ d, files w !! configPath w = Some (File perm d))
    ∧ w' = after_set key perm v w
    ∧ loadConfig w' = Done config' w'.
Proof.
  intros Hload Hvalid Hvalue Hset.
  destruct (setValue_Done _ _ _ _ Hset)
    as (c & config' & v & perm & d & Hload' & Hsw & Hv & Hfile & ->).
  assert (c = config) as -> by congruence.
  assert (valid_config config') as Hvalid'.
  { pose proof (Marshal_Some_finite _ _ Hv) as Hfin.
    by apply (setValue_switch_valid config key value). }
  exists config', v, perm. repeat (split; [by eauto|]).
  apply loadConfig_after_set.
  destruct (Marshal_Unmarshal _ Hvalid') as (v' & Hv' & Hread). congruence.
Qed.
Lemma setValue_switch_overwrite config key v1 v2 config1 :
  setValue_switch config key v1 = Some config1 →
  setValue_switch config1 key v2 = setValue_switch config key v2.
Proof.
  unfold setValue_switch.
  case_key key;
    try destruct (Fmt.Sscanf_f v1 _) as [[? ?] ?];
    try destruct (Fmt.Sscanf_d v1 _) as [[? ?] ?];
    intros [= <-];
    try destruct (Fmt.Sscanf_f v2 _) as [[? ?] ?];
    try destruct (Fmt.Sscanf_d v2 _) as [[? ?] ?];
    reflexivity.
Qed.

Lemma setValue_switch_commute config k1 k2 v1 v2 config1 config12 :
  k1 ≠ k2 →
  setValue_switch config k1 v1 = Some config1 →
  setValue_switch config1 k2 v2 = Some config12 →
  ∃ config2, setValue_switch config k2 v2 = Some config2
             ∧ setValue_switch config2 k1 v1 = Some config12
             ∧ (finite_wallet (Wallet config) →
                finite_wallet (Wallet config12) →
                finite_wallet (Wallet config2)).
Proof.
  unfold setValue_switch. intros Hne.
  destruct (Fmt.Sscanf_f v1 _) as [[? ?] ?];
  destruct (Fmt.Sscanf_d v1 _) as [[? ?] ?];
  destruct (Fmt.Sscanf_f v2 _) as [[? ?] ?];
  destruct (Fmt.Sscanf_d v2 _) as [[? ?] ?].
  case_key k1; intros [= <-]; case_key k2; intros [= <-]; try done;
    eexists; (split; [reflexivity|]); (split; [reflexivity|]);
    intros [? ?] [? ?]; split; assumption.
Qed.


(** X11: the last [set] of a key wins.  For a valid loaded document, when
    [set key v1] and then [set key v2] have returned, [set key v2] alone
    returns too and leaves the same files: nothing of [v1] is left.  So a
    [set] run twice with the same value leaves the files of the first
    run. *)
Theorem X11_set_last_write_wins :
  ∀ (w w1 w2 : world) (config : AgentConfig) (key v1 v2 : string),
    loadConfig w = Done config w →
    valid_config config →
    (key ∈ string_keys → valid_string v1) →
    setValue key v1 w = Done () w1 →
    setValue key v2 w1 = Done () w2 →
    (∃ w2', setValue key v2 w = Done () w2' ∧ files w2' = files w2)
    ∧ (v1 = v2 → files w2 = files w1).
Proof.
  intros w w1 w2 config key v1 v2 Hload Hvalid Hv1 Hset1 Hset2.
  destruct (setValue_round_trip _ _ _ _ _ Hload Hvalid Hv1 Hset1)
    as (config1 & j1 & perm & Hsw1 & Hvalid1 & Hj1 & [d Hfile] & -> & Hload1).
  destruct (setValue_Done _ _ _ _ Hset2)
    as (c & config2 & j2 & perm' & d' & Hload1' & Hsw2 & Hj2 & Hfile' & ->).
  assert (c = config1) as -> by congruence.
  unfold after_set in Hfile'. cbn [files] in Hfile'.
  change (configPath (mkWorld (home w) _ _)) with (configPath w) in Hfile'.
  rewrite lookup_insert_eq in Hfile'. injection Hfile' as <- <-.
  rewrite (setValue_switch_overwrite _ _ _ _ _ Hsw1) in Hsw2.
  assert (files (after_set key perm j2 (after_set key perm j1 w))
          = <[configPath w := File perm (JSON j2)]> (files w)) as Hfiles.
  { unfold after_set. cbn [files].
    change (configPath (mkWorld (home w) _ _)) with (configPath w).
    apply insert_insert_eq. }
  split.
  - eexists. split.
    + by apply (setValue_loaded w config key v2 config2 j2 perm d).
    + by rewrite Hfiles.
  - intros <-. rewrite Hfiles.
    assert (config2 = config1) as -> by congruence.
    assert (j2 = j1) as -> by congruence. reflexivity.
Qed.

Lemma X11_witness :
  ∃ w2', setValue "api_keys.etherscan" "E2" initWorld = Done () w2'
         ∧ files w2'
           = files (world_of (setValue "api_keys.etherscan" "E2"
                                (world_of (setValue "api_keys.etherscan" "E1"
                                             initWorld)))).
Proof.
  refine (proj1 (X11_set_last_write_wins initWorld
                   (world_of (setValue "api_keys.etherscan" "E1" initWorld))
                   (world_of (setValue "api_keys.etherscan" "E2"
                                (world_of (setValue "api_keys.etherscan" "E1"
                                             initWorld))))
                   defaultConfig "api_keys.etherscan" "E1" "E2"
                   loadConfig_initWorld valid_defaultConfig _ _ _)).
  - intros _. vm_compute. reflexivity.
  - vm_compute. reflexivity.
  - vm_compute. reflexivity.
Defined.

(** X12: [set]s of different keys commute.  For a valid loaded document
    and two different keys, when [set k1 v1] and then [set k2 v2] have
    returned, the two in the other order return too and leave the same
    files. *)
Theorem X12_set_commutes :
  ∀ (w w1 w12 : world) (config : AgentConfig) (k1 k2 v1 v2 : string),
    loadConfig w = Done config w →
    valid_config config →
    (k1 ∈ string_keys → valid_string v1) →
    (k2 ∈ string_keys → valid_string v2) →
    k1 ≠ k2 →
    setValue k1 v1 w = Done () w1 →
    setValue k2 v2 w1 = Done () w12 →
    ∃ w2 w21,
      setValue k2 v2 w = Done () w2
      ∧ setValue k1 v1 w2 = Done () w21
      ∧ files w21 = files w12.
Proof.
  intros w w1 w12 config k1 k2 v1 v2 Hload Hvalid Hv1 Hv2 Hne Hset1 Hset2.
  destruct (setValue_round_trip _ _ _ _ _ Hload Hvalid Hv1 Hset1)
    as (config1 & j1 & perm & Hsw1 & Hvalid1 & Hj1 & [d Hfile] & -> & Hload1).
  destruct (setValue_Done _ _ _ _ Hset2)
    as (c & config12 & j12 & perm' & d' & Hload1' & Hsw12 & Hj12 & Hfile' & ->).
  assert (c = config1) as -> by congruence.
  unfold after_set in Hfile'. cbn [files] in Hfile'.
  change (configPath (mkWorld (home w) _ _)) with (configPath w) in Hfile'.
  rewrite lookup_insert_eq in Hfile'. injection Hfile' as <- <-.
  destruct (setValue_switch_commute _ _ _ _ _ _ _ Hne Hsw1 Hsw12)
    as (config2 & Hsw2 & Hsw21 & Hfin).
  pose proof Hload as (_ & p0 & v0 & _ & Hread)%loadConfig_Done.
  pose proof (Hfin (Unmarshal_finite _ _ Hread) (Marshal_Some_finite _ _ Hj12))
    as Hfin2.
  destruct (Marshal_finite _ Hfin2) as [j2 Hj2].
  pose proof (setValue_switch_valid _ _ _ _ Hvalid Hv2 Hsw2 Hfin2) as Hvalid2.
  pose proof (setValue_loaded w config k2 v2 config2 j2 perm d
                Hload Hfile Hsw2 Hj2) as Hrun2.
  fold (after_set k2 perm j2 w) in Hrun2.
  assert (loadConfig (after_set k2 perm j2 w)
          = Done config2 (after_set k2 perm j2 w)) as Hload2.
  { apply loadConfig_after_set.
    destruct (Marshal_Unmarshal _ Hvalid2) as (j & Hj & Hr). congruence. }
  assert (files (after_set k2 perm j2 w) !! configPath (after_set k2 perm j2 w)
          = Some (File perm (JSON j2))) as Hfile2.
  { unfold after_set at 1. cbn [files]. apply lookup_insert_eq. }
  pose proof (setValue_loaded _ config2 k1 v1 config12 j12 perm _
                Hload2 Hfile2 Hsw21 Hj12) as Hrun21.
  eexists _, _. split; [exact Hrun2|]. split; [exact Hrun21|].
  unfold after_set. cbn [files home].
  change (configPath (mkWorld (home w) _ _)) with (configPath w).
  by rewrite !insert_insert_eq.
Qed.

Lemma X12_witness :
  ∃ w2 w21,
    setValue "wallet.daily_limit" "0.25" initWorld = Done () w2
    ∧ setValue "api_keys.etherscan" "E1" w2 = Done () w21
    ∧ files w21
      = files (world_of (setValue "wallet.daily_limit" "0.25"
                           (world_of (setValue "api_keys.etherscan" "E1"
                                        initWorld)))).
Proof.
  apply (X12_set_commutes initWorld
           (world_of (setValue "api_keys.etherscan" "E1" initWorld))
           (world_of (setValue "wallet.daily_limit" "0.25"
                        (world_of (setValue "api_keys.etherscan" "E1" initWorld))))
           defaultConfig "api_keys.etherscan" "wallet.daily_limit" "E1" "0.25"
           loadConfig_initWorld valid_defaultConfig).
  - intros _. vm_compute. reflexivity.
  - intros Hk. unfold string_keys in Hk.
    rewrite !elem_of_cons, elem_of_nil in Hk. intuition discriminate.
  - discriminate.
  - vm_compute. reflexivity.
  - vm_compute. reflexivity.
Defined.
(** ** Numbers given to set *)

Lemma Sscanf_f_decimal_any d t arg :
  decimal_wf d = true → stops_float t = true →
  Fmt.Sscanf_f (decimal_text d ++ t) arg
  = match Strconv.ParseFloat (decimal_text d) with
    | Some f => (f, 1, false)
    | None => (arg, 0, true)
    end.
Proof.
  intros Hwf Ht.
  destruct (Strconv.ParseFloat (decimal_text d)) as [f|] eqn:Hf;
    [by apply Sscanf_f_decimal|].
  unfold Fmt.Sscanf_f, Fmt.Sscanf1, Fmt.scanFloat.
  destruct (decimal_head d t Hwf) as (c & r & Hs & Hc).
  rewrite Hs, SkipSpace_number by done. cbn [mbind option_bind Fmt.rs].
  rewrite SkipSpace_number by done. cbn [mbind option_bind Fmt.notEOF Fmt.rs].
  rewrite <- Hs, floatToken_decimal by done.
  unfold Fmt.convertFloat. rewrite index_of_decimal, Hf by done. reflexivity.
Qed.

Lemma digits_value_digits ds : ∀ acc,
  all_in decimalDigits ds = true → is_Some (Strconv.digits_value acc ds).
Proof.
  induction ds as [|c ds IH]; intros acc H; cbn [Strconv.digits_value]; [eauto|].
  cbn [all_in] in H. apply andb_true_iff in H as [Hc Hds].
  unfold isDigit. rewrite Hc. by apply IH.
Qed.

Lemma Sscanf_d_decimal_any sg ds t arg :
  is_sign sg = true → all_in decimalDigits ds = true → ds ≠ "" →
  stops_int t = true →
  Fmt.Sscanf_d (sg ++ ds ++ t) arg
  = match Strconv.ParseInt (sg ++ ds) with
    | Some n => (n, 1, false)
    | None => (arg, 0, true)
    end.
Proof.
  intros Hsg Hds Hne Ht.
  destruct (Strconv.ParseInt (sg ++ ds)) as [n|] eqn:Hn;
    [by apply Sscanf_d_decimal|].
  unfold Fmt.Sscanf_d, Fmt.Sscanf1, Fmt.scanInt.
  destruct ds as [|c ds]; [done|].
  cbn [all_in] in Hds. apply andb_true_iff in Hds as [Hc Hds].
  destruct (digit_classes c Hc) as (_ & Hc2 & _).
  apply negb_true_iff in Ht. fold (starts_in decimalDigits t) in Ht.
  revert Hn.
  destruct (is_sign_cases sg Hsg) as [-> | [-> | ->]]; intros Hn;
    normalize_append;
    (rewrite SkipSpace_number by first [reflexivity | by_chars Hc ltac:(reflexivity)]);
    cbn [mbind option_bind Fmt.rs];
    (rewrite SkipSpace_number by first [reflexivity | by_chars Hc ltac:(reflexivity)]);
    cbn [mbind option_bind Fmt.notEOF Fmt.rs];
    unfold Fmt.scanNumber; scan; cbn [mbind option_bind Fmt.notEOF Fmt.rs negb];
    scan; normalize_append; cbn [negb mbind option_bind];
    revert Hn; normalize_append; intros ->; reflexivity.
Qed.

(** The value of a sign and digits: what [ParseInt] gives when it is an
    int64. *)
Lemma ParseInt_digits sg ds :
  is_sign sg = true → all_in decimalDigits ds = true → ds ≠ "" →
  ∃ un, Strconv.digits_value 0 ds = Some un ∧ 0 ≤ un
        ∧ Strconv.ParseInt (sg ++ ds)
          = (let n := if String.eqb sg "-" then - un else un in
             if Json.inInt64 n then Some n else None).
Proof.
  intros Hsg Hds Hne.
  destruct (digits_value_digits ds 0 Hds) as [un Hun].
  pose proof (digits_value_ge _ _ _ (Z.le_refl 0) Hun) as Hpos.
  exists un. split; [done|]. split; [done|].
  destruct ds as [|c ds]; [done|].
  assert (isDigit c = true) as Hc.
  { cbn [all_in] in Hds. by apply andb_true_iff in Hds as [Hc _]. }
  destruct (digit_classes c Hc) as (_ & Hc2 & _).
  unfold sign in Hc2. cbn [indexRune] in Hc2.
  apply orb_false_iff in Hc2 as [Hp Hc2]. apply orb_false_iff in Hc2 as [Hm _].
  rewrite Ascii.eqb_sym in Hp. rewrite Ascii.eqb_sym in Hm.
  unfold Json.inInt64.
  destruct (is_sign_cases sg Hsg) as [-> | [-> | ->]];
    normalize_append; unfold Strconv.ParseInt;
    rewrite ?Hp, ?Hm; cbn [Ascii.eqb Bool.eqb String.eqb];
    unfold Strconv.ParseUint; rewrite Hun; cbn [negb andb];
    repeat match goal with
      | |- context [?a <=? ?b] => destruct (Z.leb_spec a b)
      | |- context [?a <? ?b] => destruct (Z.ltb_spec a b)
      end; cbn [negb andb]; try reflexivity; lia.
Qed.
(** X13: a number out of range is stored as zero.  For the two float keys,
    a well-formed decimal number that [strconv.ParseFloat] refuses, as it
    does one whose nearest float64 is an infinity, makes the scan fail and
    zero is stored, not the infinity and not the largest float64.  For
    [monitoring.check_interval], a sign or none and decimal digits, followed
    by text that does not start with a digit, store the number the digits
    spell when it is an int64, and zero when it is not. *)
Theorem X13_set_number_out_of_range :
  ∀ (config : AgentConfig) (d : decimal) (sg ds t : string),
    (decimal_wf d = true → stops_float t = true →
     Strconv.ParseFloat (decimal_text d) = None →
     setValue_switch config "wallet.daily_limit" (decimal_text d ++ t)
     = Some (set_Wallet (set_DailyLimit Float64.zero) config)
     ∧ setValue_switch config "wallet.alert_threshold" (decimal_text d ++ t)
       = Some (set_Wallet (set_AlertThreshold Float64.zero) config))
    ∧ (is_sign sg = true → all_in decimalDigits ds = true → ds ≠ "" →
       stops_int t = true →
       ∃ un, Strconv.digits_value 0 ds = Some un
             ∧ let n := if String.eqb sg "-" then - un else un in
               setValue_switch config "monitoring.check_interval" (sg ++ ds ++ t)
               = Some (set_Monitoring
                         (set_CheckInterval (if Json.inInt64 n then n else 0))
                         config)).
Proof.
  intros config d sg ds t. split.
  - intros Hwf Ht Hf. unfold setValue_switch. cbn [String.eqb Ascii.eqb Bool.eqb].
    by rewrite (Sscanf_f_decimal_any d t Float64.zero Hwf Ht), Hf.
  - intros Hsg Hds Hne Ht.
    destruct (ParseInt_digits sg ds Hsg Hds Hne) as (un & Hun & _ & Hparse).
    exists un. split; [done|]. cbn zeta in *.
    unfold setValue_switch. cbn [String.eqb Ascii.eqb Bool.eqb].
    rewrite (Sscanf_d_decimal_any sg ds t 0 Hsg Hds Hne Ht), Hparse.
    by destruct (Json.inInt64 _).
Qed.

Lemma X13_witness :
  setValue_switch defaultConfig "wallet.daily_limit" "1e400"
  = Some (set_Wallet (set_DailyLimit Float64.zero) defaultConfig)
  ∧ setValue_switch defaultConfig "monitoring.check_interval" "9223372036854775808 min"
    = Some (set_Monitoring (set_CheckInterval 0) defaultConfig).
Proof.
  destruct (X13_set_number_out_of_range defaultConfig
              (Decimal "" "1" None (Some ("e"%char, "", "400")))
              "" "9223372036854775808" "") as [Hf _].
  destruct (X13_set_number_out_of_range defaultConfig
              (Decimal "" "1" None None)
              "" "9223372036854775808" " min") as [_ Hd].
  split.
  - apply Hf; [reflexivity | reflexivity | vm_compute; reflexivity].
  - destruct (Hd eq_refl eq_refl ltac:(discriminate) eq_refl)
      as (un & Hun & Hset).
    vm_compute in Hun. injection Hun as <-. cbn zeta in Hset. exact Hset.
Defined.
Lemma skipSpace_blanks ws s :
  all_in blanks ws = true →
  Fmt.skipSpace_from 0 (ws ++ s) = Fmt.skipSpace_from 0 s.
Proof.
  induction ws as [|c ws IH]; [done|]. cbn [all_in]. intros H.
  apply andb_true_iff in H as [Hc Hws]. rewrite append_cons, <- (IH Hws).
  unfold blanks in Hc. cbn [indexRune] in Hc.
  repeat (apply orb_true_iff in Hc as [Hc|Hc];
          [apply Ascii.eqb_eq in Hc; subst c; reflexivity|]).
  discriminate Hc.
Qed.

Lemma Sscanf1_blanks {A} (scanOne : Fmt.ss → option (A * Fmt.ss)) ws s arg :
  all_in blanks ws = true →
  Fmt.Sscanf1 scanOne (ws ++ s) arg = Fmt.Sscanf1 scanOne s arg.
Proof.
  intros H. unfold Fmt.Sscanf1, Fmt.SkipSpace. cbn [Fmt.rs Fmt.buf].
  by rewrite skipSpace_blanks.
Qed.

Lemma Sscanf1_newline {A} (scanOne : Fmt.ss → option (A * Fmt.ss)) s arg :
  Fmt.Sscanf1 scanOne (nl ++ s) arg = (arg, 0, true).
Proof. reflexivity. Qed.

(** X14: white space before a number.  For the three numeric keys, spaces,
    tabs and carriage returns before the value are skipped: the value with
    them stores what the value without them stores.  A newline before the
    number, after such white space or none, is an error of the scan, and
    zero is stored whatever follows it. *)
Theorem X14_set_number_leading_space :
  ∀ (config : AgentConfig) (key ws value : string),
    key ∈ "monitoring.check_interval" :: float_keys →
    all_in blanks ws = true →
    setValue_switch config key (ws ++ value) = setValue_switch config key value
    ∧ setValue_switch config key (ws ++ nl ++ value)
      = setValue_switch config key "".
Proof.
  intros config key ws value Hkey Hws. unfold float_keys in Hkey.
  rewrite !elem_of_cons, elem_of_nil in Hkey.
  unfold setValue_switch, Fmt.Sscanf_f, Fmt.Sscanf_d.
  destruct Hkey as [-> | [-> | [-> | []]]]; cbn [String.eqb Ascii.eqb Bool.eqb];
    rewrite !Sscanf1_blanks by done; rewrite Sscanf1_newline; done.
Qed.

Lemma X14_witness :
  setValue_switch defaultConfig "wallet.daily_limit" "  0.25"
  = Some (set_Wallet (set_DailyLimit (Float64.of_decimal false 25 (-2))) defaultConfig)
  ∧ setValue_switch defaultConfig "wallet.daily_limit" (" " ++ nl ++ "0.25")
    = Some (set_Wallet (set_DailyLimit Float64.zero) defaultConfig).
Proof.
  destruct (X14_set_number_leading_space defaultConfig "wallet.daily_limit" "  " "0.25")
    as [H1 _]; [unfold float_keys; rewrite !elem_of_cons; tauto | reflexivity |].
  destruct (X14_set_number_leading_space defaultConfig "wallet.daily_limit" " " "0.25")
    as [_ H2]; [unfold float_keys; rewrite !elem_of_cons; tauto | reflexivity |].
  split.
  - change ("  " ++ "0.25") with "  0.25" in H1. rewrite H1.
    vm_compute. reflexivity.
  - rewrite H2. vm_compute. reflexivity.
Defined.
(** X15: a value that scans as NaN or an infinity.  For the two float
    keys, when the scan of the value gives a float64 that is not finite (as
    for [inf], [-Inf] and [nan]), [set] passes its switch but [saveConfig]
    cannot marshal the document: the run ends with the marshal message and
    status 1, and the configuration file keeps the document it had. *)
Theorem X15_set_non_finite_fails :
  ∀ (w : world) (config : AgentConfig) (key value : string) (x : float64),
    loadConfig w = Done config w →
    key ∈ float_keys →
    Fmt.Sscanf_f value Float64.zero = (x, 1, false) →
    Float64.finite x = false →
    setValue key value w = MarshalError w
    ∧ files (world_of (setValue key value w)) = files w
    ∧ loadConfig (world_of (setValue key value w))
      = Done config (world_of (setValue key value w)).
Proof.
  intros w config key value x Hload Hkey Hscan Hx.
  assert (setValue key value w = MarshalError w) as Hrun.
  { unfold float_keys in Hkey. rewrite !elem_of_cons, elem_of_nil in Hkey.
    unfold setValue, bind. rewrite Hload.
    destruct Hkey as [-> | [-> | []]]; unfold setValue_switch;
      cbn [String.eqb Ascii.eqb Bool.eqb]; rewrite Hscan, saveConfig_eq;
      unfold Codec.Marshal, Codec.encWalletConfig, Json.float;
      cbn [Wallet set_Wallet DailyLimit AlertThreshold set_DailyLimit
           set_AlertThreshold]; rewrite Hx; cbn [mbind option_bind];
      [done|].
    by destruct (Float64.finite (DailyLimit (Wallet config))). }
  rewrite Hrun. split; [done|]. split; [done|].
  unfold MarshalError, world_of, print. by apply (loadConfig_transfer w).
Qed.

Lemma X15_witness :
  setValue "wallet.daily_limit" "-Inf" initWorld = MarshalError initWorld
  ∧ files (world_of (setValue "wallet.daily_limit" "-Inf" initWorld))
    = files initWorld
  ∧ loadConfig (world_of (setValue "wallet.daily_limit" "-Inf" initWorld))
    = Done defaultConfig (world_of (setValue "wallet.daily_limit" "-Inf" initWorld)).
Proof.
  apply (X15_set_non_finite_fails initWorld defaultConfig "wallet.daily_limit" "-Inf"
           (S754_infinity true) loadConfig_initWorld).
  - unfold float_keys. rewrite !elem_of_cons. tauto.
  - vm_compute. reflexivity.
  - reflexivity.
Defined.

(** X16: [set], then [validate].  For a valid loaded document, after a
    [set] of [wallet.daily_limit] that returned, [validate] reports that the
    daily limit should be positive exactly when the value scanned is not
    above zero; it does so in particular after a value that does not parse,
    from which zero is stored. *)
Theorem X16_set_then_validate :
  ∀ (w w' : world) (config : AgentConfig) (value : string),
    loadConfig w = Done config w →
    valid_config config →
    setValue "wallet.daily_limit" value w = Done () w' →
    let x := fst (fst (Fmt.Sscanf_f value Float64.zero)) in
    let config' := set_Wallet (set_DailyLimit x) config in
    loadConfig w' = Done config' w'
    ∧ validateConfig w'
      = Done () (mkWorld (home w') (files w')
                   (stdout w' ++ validate_report (validateConfig_issues config')))
    ∧ ("⚠️  Daily limit should be positive" ∈ validateConfig_issues config'
       ↔ Float64.leb x Float64.zero = true)
    ∧ (parses_as_float value = false →
       x = Float64.zero
       ∧ "⚠️  Daily limit should be positive" ∈ validateConfig_issues config').
Proof.
  intros w w' config value Hload Hvalid Hset x config'.
  destruct (setValue_round_trip w w' config "wallet.daily_limit" value Hload Hvalid)
    as (c' & v & perm & Hsw & _ & _ & _ & _ & Hload'); [|done|].
  { intros Hk. unfold string_keys in Hk.
    rewrite !elem_of_cons, elem_of_nil in Hk. intuition discriminate. }
  assert (c' = config') as ->.
  { revert Hsw. unfold setValue_switch. cbn [String.eqb Ascii.eqb Bool.eqb].
    subst config' x. destruct (Fmt.Sscanf_f value Float64.zero) as [[? ?] ?].
    by intros [= <-]. }
  assert ("⚠️  Daily limit should be positive" ∈ validateConfig_issues config'
          ↔ Float64.leb x Float64.zero = true) as Hiff.
  { unfold validateConfig_issues.
    change (DailyLimit (Wallet config')) with x.
    destruct (String.eqb (Address (Wallet config')) "");
      destruct (Float64.leb x Float64.zero);
      destruct (String.eqb (Etherscan (APIKeys config')) "");
      destruct (String.eqb (Basescan (APIKeys config')) "");
      destruct (negb (FirewallEnabled (Security config'))
                && negb (HoneypotEnabled (Security config')));
      cbn [app]; rewrite ?elem_of_cons, ?elem_of_nil;
      split; try done; try tauto; intuition discriminate. }
  split; [done|]. split; [by apply (validateConfig_loaded _ w')|].
  split; [done|]. intros Hp.
  assert (x = Float64.zero) as Hx.
  { subst x. apply negb_false_iff, Sscanf1_error in Hp.
    unfold Fmt.Sscanf_f. by rewrite Hp. }
  split; [done|]. apply Hiff. by rewrite Hx.
Qed.

Lemma X16_witness :
  "⚠️  Daily limit should be positive"
  ∈ validateConfig_issues
      (set_Wallet (set_DailyLimit
                     (fst (fst (Fmt.Sscanf_f "not-a-number" Float64.zero))))
         defaultConfig).
Proof.
  destruct (X16_set_then_validate initWorld
              (world_of (setValue "wallet.daily_limit" "not-a-number" initWorld))
              defaultConfig "not-a-number"
              loadConfig_initWorld valid_defaultConfig)
    as (_ & _ & _ & Hzero).
  - vm_compute. reflexivity.
  - apply Hzero. vm_compute. reflexivity.
Defined.
(** ** What show shows *)

Lemma keyStatus_mask a b : mask a = mask b → keyStatus a = keyStatus b.
Proof. unfold mask, keyStatus. by destruct a, b. Qed.

Lemma webhookStatus_mask a b : mask a = mask b → webhookStatus a = webhookStatus b.
Proof. unfold mask, webhookStatus. by destruct a, b. Qed.

Lemma len_count (a b : strings) :
  replicate (length (default [] a)) "" = replicate (length (default [] b)) "" →
  len a = len b.
Proof.
  unfold len. intros H. apply (f_equal length) in H.
  rewrite !length_replicate in H. by rewrite H.
Qed.

(** X17: [show] shows no secret.  Two loaded documents that differ only in
    the values of API keys and of the webhook URL that are set in both, and
    in the addresses of their white and black lists but not in the number of
    them, are shown by the same output: of a key and of the webhook URL only
    whether it is set is printed, and of the lists only their length. *)
Theorem X17_show_hides_secrets :
  ∀ (w1 w2 : world) (c1 c2 : AgentConfig),
    loadConfig w1 = Done c1 w1 →
    loadConfig w2 = Done c2 w2 →
    redact c1 = redact c2 →
    ∃ out,
      showConfig w1 = Done () (mkWorld (home w1) (files w1) (stdout w1 ++ out))
      ∧ showConfig w2 = Done () (mkWorld (home w2) (files w2) (stdout w2 ++ out)).
Proof.
  intros w1 w2 c1 c2 H1 H2 Hred.
  destruct c1 as [ver1 a1 wal1 [f1 h1 p1 s1 wl1 bl1] [e1 b1 o1 an1 d1] [de1 dp1 u1 ci1]].
  destruct c2 as [ver2 a2 wal2 [f2 h2 p2 s2 wl2 bl2] [e2 b2 o2 an2 d2] [de2 dp2 u2 ci2]].
  unfold redact in Hred.
  cbn [Version Agent Wallet Security APIKeys Monitoring FirewallEnabled
       HoneypotEnabled PromptGuardEnabled SimulatorEnabled WhitelistedAddresses
       BlacklistedAddresses Etherscan Basescan OpenAI Anthropic Discord
       DashboardEnabled DashboardPort WebhookURL CheckInterval] in Hred.
  injection Hred as -> -> -> -> -> -> -> Hwl Hbl He Hb Ho Han Hd -> -> Hu ->.
  apply len_count in Hwl, Hbl.
  apply keyStatus_mask in He, Hb, Ho, Han, Hd. apply webhookStatus_mask in Hu.
  eexists. split.
  - unfold showConfig. unfold bind at 1. rewrite H1.
    io_steps. rewrite <- !app_assoc. reflexivity.
  - unfold showConfig. unfold bind at 1. rewrite H2.
    io_steps. rewrite <- !app_assoc.
    cbn [Version Agent Wallet Security APIKeys Monitoring FirewallEnabled
         HoneypotEnabled PromptGuardEnabled SimulatorEnabled WhitelistedAddresses
         BlacklistedAddresses Etherscan Basescan OpenAI Anthropic Discord
         DashboardEnabled DashboardPort WebhookURL CheckInterval].
    rewrite <- Hwl, <- Hbl, <- He, <- Hb, <- Ho, <- Han, <- Hd, <- Hu.
    reflexivity.
Qed.

Lemma X17_witness :
  ∃ out,
    showConfig (world_of (setValue "api_keys.openai" "sk-1" initWorld))
    = Done () (mkWorld (home initWorld)
                 (files (world_of (setValue "api_keys.openai" "sk-1" initWorld)))
                 (stdout (world_of (setValue "api_keys.openai" "sk-1" initWorld))
                  ++ out))
    ∧ showConfig (world_of (setValue "api_keys.openai" "sk-2" initWorld))
      = Done () (mkWorld (home initWorld)
                   (files (world_of (setValue "api_keys.openai" "sk-2" initWorld)))
                   (stdout (world_of (setValue "api_keys.openai" "sk-2" initWorld))
                    ++ out)).
Proof.
  apply (X17_show_hides_secrets
           (world_of (setValue "api_keys.openai" "sk-1" initWorld))
           (world_of (setValue "api_keys.openai" "sk-2" initWorld))
           (set_APIKeys (set_OpenAI "sk-1") defaultConfig)
           (set_APIKeys (set_OpenAI "sk-2") defaultConfig)).
  - vm_compute. reflexivity.
  - vm_compute. reflexivity.
  - reflexivity.
Defined.
(** ** export, again *)

(** [mkdirAll] looks at the path and its ancestors only. *)
Lemma mkdirAll_ext rp : ∀ fs fs',
  (∀ p, p `prefix_of` rev rp → fs !! p = fs' !! p) →
  match OS.mkdirAll rp fs, OS.mkdirAll rp fs' with
  | Some a, Some b => ∀ p, p `prefix_of` rev rp → a !! p = b !! p
  | None, None => True
  | _, _ => False
  end.
Proof.
  induction rp as [|c rp IH]; intros fs fs' Hagree.
  - cbn. exact Hagree.
  - rewrite (mkdirAll_unfold (c :: rp) fs), (mkdirAll_unfold (c :: rp) fs').
    assert (OS.lookup fs (rev (c :: rp)) = OS.lookup fs' (rev (c :: rp))) as ->.
    { rewrite !lookup_nonempty by apply rev_cons_nonempty. by apply Hagree. }
    destruct (OS.lookup fs' (rev (c :: rp))) as [[|]|]; [exact Hagree | done |].
    assert (∀ p, p `prefix_of` rev rp → fs !! p = fs' !! p) as Hagree'.
    { intros p Hp. apply Hagree. cbn [rev]. by apply prefix_app_r. }
    specialize (IH fs fs' Hagree').
    destruct (OS.mkdirAll rp fs) as [a|], (OS.mkdirAll rp fs') as [b|];
      try done; cbn [mbind option_bind].
    assert (OS.lookup a (rev rp) = OS.lookup b (rev rp)) as ->.
    { destruct (rev rp) eqn:E; [done|]. cbn [OS.lookup]. by apply IH. }
    destruct (OS.lookup b (rev rp)) as [[|]|]; try done.
    intros p Hp. destruct (decide (p = rev (c :: rp))) as [->|Hne].
    + by rewrite !lookup_insert_eq.
    + rewrite !lookup_insert_ne by done. apply IH.
      cbn [rev] in Hp, Hne. destruct Hp as [k Hk].
      induction k as [|x k' _] using rev_ind.
      * rewrite app_nil_r in Hk. congruence.
      * rewrite app_assoc in Hk. apply app_inj_tail in Hk as [-> _].
        by exists k'.
Qed.

Lemma removelast_snoc {A} (l : list A) x : removelast (l ++ [x]) = l.
Proof. by rewrite removelast_app, app_nil_r. Qed.

(** A write that has been made makes no difference when made again. *)
Lemma export_write_settled dir name m fs Y :
  Y !! (dir ++ [name])%list = export_write dir name m fs !! (dir ++ [name])%list →
  OS.lookup Y dir = OS.lookup fs dir →
  export_write dir name m Y = Y.
Proof.
  unfold export_write, OS.writeFile.
  assert (dir ++ [name] ≠ [])%list as Hne by (by destruct dir).
  rewrite !(lookup_nonempty _ _ Hne), !removelast_snoc.
  intros HY Hdir. rewrite Hdir.
  destruct (fs !! (dir ++ [name])%list) as [[|perm d]|] eqn:E;
    cbn [default from_option id] in HY.
  - rewrite E in HY. by rewrite HY.
  - rewrite lookup_insert_eq in HY. rewrite HY. cbn [default from_option id].
    by apply insert_id.
  - destruct (OS.lookup fs dir) as [[|]|]; cbn [default from_option id] in HY.
    + rewrite lookup_insert_eq in HY. rewrite HY. cbn [default from_option id].
      by apply insert_id.
    + rewrite E in HY. by rewrite HY.
    + rewrite E in HY. by rewrite HY.
Qed.

Lemma lookup_export_write_dir dir name m fs :
  OS.lookup (export_write dir name m fs) dir = OS.lookup fs dir.
Proof.
  destruct dir as [|c dir]; [done|]. cbn [OS.lookup].
  apply export_write_other. intros H. apply (f_equal length) in H.
  rewrite length_app in H. cbn in H. lia.
Qed.

Lemma export_files_idempotent config dir fs :
  export_files config dir (export_files config dir fs)
  = export_files config dir fs.
Proof.
  assert (∀ a b : string, a ≠ b →
            (dir ++ [a])%list ≠ (dir ++ [b])%list) as Hdiff.
  { intros a b Hab Heq. apply app_inv_head in Heq. congruence. }
  set (Y := export_files config dir fs).
  set (X := default fs (OS.mkdirAll (rev dir) fs)).
  assert (∀ p, p `prefix_of` dir → Y !! p = X !! p) as Hpre.
  { intros p Hp. subst Y. unfold export_files. fold X.
    rewrite !export_write_other; [done|..];
      intros ->; apply prefix_length in Hp; rewrite length_app in Hp;
      cbn in Hp; lia. }
  assert (OS.lookup Y dir = OS.lookup X dir) as Hdir.
  { subst Y. unfold export_files. fold X. by rewrite !lookup_export_write_dir. }
  assert (default Y (OS.mkdirAll (rev dir) Y) = Y) as HM.
  { destruct (OS.mkdirAll (rev dir) fs) as [fsM|] eqn:E.
    - rewrite mkdirAll_there; [done|]. rewrite rev_involutive, Hdir.
      subst X. cbn [default from_option id].
      apply mkdirAll_Dir in E. by rewrite rev_involutive in E.
    - pose proof (mkdirAll_ext (rev dir) fs Y) as Hext.
      rewrite E in Hext. destruct (OS.mkdirAll (rev dir) Y); [|done].
      exfalso. apply Hext. intros p Hp. rewrite rev_involutive in Hp.
      rewrite (Hpre p Hp). by subst X. }
  unfold export_files at 1. rewrite HM.
  assert (export_write dir "wallet-monitor.json" (walletConfig config) Y = Y) as ->.
  { apply (export_write_settled _ _ _ X); [|done].
    subst Y. unfold export_files. fold X.
    by rewrite !(export_write_other _ _ _ _ (dir ++ ["wallet-monitor.json"]))
      by (by apply Hdiff). }
  assert (export_write dir "reputation-scanner.json" (scannerConfig config) Y = Y)
    as ->.
  { apply (export_write_settled _ _ _
             (export_write dir "wallet-monitor.json" (walletConfig config) X)).
    - subst Y. unfold export_files. fold X.
      by rewrite (export_write_other _ "security-dashboard.json") by (by apply Hdiff).
    - by rewrite lookup_export_write_dir. }
  apply (export_write_settled _ _ _
           (export_write dir "reputation-scanner.json" (scannerConfig config)
              (export_write dir "wallet-monitor.json" (walletConfig config) X))).
  - done.
  - by rewrite !lookup_export_write_dir.
Qed.
Lemma configPath_not_export w (p : list string) :
  p = configPath w → (p ∉ exportPaths w) ∧ ¬ (p `prefix_of` exportDir w).
Proof.
  intros ->. unfold exportPaths, exportDir, configPath. split.
  - rewrite !elem_of_cons, elem_of_nil.
    intros [H | [H | [H | []]]]; apply (f_equal length) in H;
      rewrite !length_app in H; cbn in H; lia.
  - intros [k Hk]. rewrite <- app_assoc in Hk. apply app_inv_head in Hk.
    discriminate Hk.
Qed.

Lemma loadConfig_after_export w config out :
  loadConfig w = Done config w →
  loadConfig (mkWorld (home w) (export_files config (exportDir w) (files w)) out)
  = Done config (mkWorld (home w) (export_files config (exportDir w) (files w)) out).
Proof.
  intros H. apply loadConfig_Done in H as (_ & perm & v & Hfile & Hread).
  apply loadConfig_Done. split; [done|]. exists perm, v. split; [|done].
  change (configPath (mkWorld (home w) _ _)) with (configPath w). cbn [files].
  rewrite lookup_configPath in *.
  destruct (configPath_not_export w _ eq_refl) as [H1 H2].
  by rewrite export_files_frame.
Qed.

(** X18: [export] run again changes nothing.  Whatever the files, the
    files after a second [export] are the files after the first: each export
    file that could be written holds the same text, and what could not be
    written the first time is not written the second time.  [export] leaves
    the configuration file alone, so the document loaded after it is the
    document loaded before. *)
Theorem X18_export_idempotent :
  ∀ (w : world),
    let w1 := world_of (exportConfig w) in
    files (world_of (exportConfig w1)) = files w1
    ∧ (∀ config, loadConfig w = Done config w → loadConfig w1 = Done config w1).
Proof.
  intros w w1. subst w1.
  destruct (loadConfig w) as [config w'|code w'] eqn:Hload.
  - pose proof (loadConfig_same _ _ _ Hload) as ->.
    rewrite (exportConfig_loaded _ _ _ Hload). cbn [world_of].
    pose proof (loadConfig_after_export w config
                  (stdout w ++ exported_report (exportDir w)) Hload) as Hload1.
    split.
    + rewrite (exportConfig_loaded _ _ _ Hload1). cbn [world_of files home].
      change (exportDir (mkWorld (home w) _ _)) with (exportDir w).
      apply export_files_idempotent.
    + intros c [= <-]. exact Hload1.
  - split; [|discriminate].
    assert (exportConfig w = Exit code w') as ->
      by (by apply bind_loadConfig_Exit).
    cbn [world_of].
    assert (home w' = home w ∧ files w' = files w) as [Hh Hf].
    { rewrite loadConfig_eq in Hload. destruct (stored w) as [d|].
      - destruct (decode d); [discriminate|]. by injection Hload as <- <-.
      - by injection Hload as <- <-. }
    destruct (loadConfig w') as [c w''|code' w''] eqn:Hload'.
    + pose proof (loadConfig_same _ _ _ Hload') as ->.
      pose proof (loadConfig_transfer w' w c (eq_sym Hh) (eq_sym Hf) Hload').
      congruence.
    + assert (exportConfig w' = Exit code' w'') as ->
        by (by apply bind_loadConfig_Exit).
      cbn [world_of]. by destruct (loadConfig_Exit _ _ _ Hload') as [_ Hf'].
Qed.

(** X19: [export] does not report what it could not write.  When the
    document loads but a regular file is where the export directory should
    be (and nothing is below it), [MkdirAll] and the three writes fail, their
    errors are dropped, and [export] still prints its success report and
    returns with exit status 0, with no file written. *)
Theorem X19_export_reports_success_without_writing :
  ∀ (w : world) (config : AgentConfig) (perm : Z) (d : data),
    loadConfig w = Done config w →
    files w !! exportDir w = Some (File perm d) →
    (∀ p, p ∈ exportPaths w → files w !! p = None) →
    run ["acm"; "export"] w
    = (0, mkWorld (home w) (files w) (stdout w ++ exported_report (exportDir w))).
Proof.
  intros w config perm d Hload Hdir Habs.
  rewrite run_eq. unfold main. cbn [length Nat.ltb Nat.leb nth String.eqb
                                      Ascii.eqb Bool.eqb].
  rewrite (exportConfig_loaded _ _ _ Hload). cbn [exit_code world_of].
  f_equal. f_equal. unfold export_files.
  assert (exportDir w ≠ []) as Hne by (unfold exportDir; by destruct (home w)).
  assert (OS.mkdirAll (rev (exportDir w)) (files w) = None) as ->.
  { rewrite mkdirAll_unfold, rev_involutive, lookup_nonempty, Hdir by done.
    done. }
  cbn [default from_option id].
  assert (∀ name m fs, fs = files w → (exportDir w ++ [name])%list ∈ exportPaths w →
            export_write (exportDir w) name m fs = files w) as Hw.
  { intros name m fs -> Hin. unfold export_write, OS.writeFile.
    assert (exportDir w ++ [name] ≠ [])%list as Hne' by (by destruct (exportDir w)).
    rewrite (lookup_nonempty _ _ Hne'), (Habs _ Hin), removelast_snoc.
    by rewrite lookup_nonempty, Hdir by done. }
  rewrite (Hw "wallet-monitor.json"); [|done|unfold exportPaths; rewrite !elem_of_cons; tauto].
  rewrite (Hw "reputation-scanner.json"); [|done|unfold exportPaths; rewrite !elem_of_cons; tauto].
  rewrite (Hw "security-dashboard.json"); [|done|unfold exportPaths; rewrite !elem_of_cons; tauto].
  done.
Qed.
Lemma X19_witness :
  run ["acm"; "export"] blockedWorld
  = (0, mkWorld (home blockedWorld) (files blockedWorld)
          (stdout blockedWorld ++ exported_report (exportDir blockedWorld))).
Proof.
  apply (X19_export_reports_success_without_writing blockedWorld defaultConfig
           420 (Raw "x")).
  - vm_compute. reflexivity.
  - vm_compute. reflexivity.
  - intros p Hp. unfold exportPaths in Hp.
    rewrite !elem_of_cons, elem_of_nil in Hp.
    destruct Hp as [-> | [-> | [-> | []]]]; vm_compute; reflexivity.
Defined.

(** ** Members the program does not know *)




(** ** repeat *)


(** ** init, then validate *)

(** X22: a configuration fresh from [init] does not validate cleanly.
    When nothing is at the configuration path and [init] has returned,
    [validate] finds exactly two issues, the Etherscan and the Basescan key
    not being set, in that order, and prints them with the count 2: the
    default document passes the other three rules. *)
Theorem X22_init_then_validate :
  ∀ (w w1 : world),
    files w !! configPath w = None →
    initConfig w = Done () w1 →
    validateConfig_issues defaultConfig
    = ["⚠️  Etherscan API key not set (needed for monitoring)";
       "⚠️  Basescan API key not set (needed for monitoring)"]
    ∧ validateConfig w1
      = Done () (mkWorld (home w1) (files w1)
                   (stdout w1
                    ++ [Println [AString "🔍 Validating configuration..."];
                        Println [];
                        Println [AString "⚠️  Etherscan API key not set (needed for monitoring)"];
                        Println [AString "⚠️  Basescan API key not set (needed for monitoring)"];
                        Println [];
                        Printf ("Found %d issue(s)" ++ nl) [AInt 2]])).
Proof.
  intros w w1 Habs Hinit.
  destruct (initConfig_absent w w1 Habs Hinit) as (fs & v & Hmk & Hv & ->).
  assert (loadConfig (mkWorld (home w) (<[configPath w := File 384 (JSON v)]> fs)
                        (stdout w ++ created_report (configPath w)))
          = Done defaultConfig
              (mkWorld (home w) (<[configPath w := File 384 (JSON v)]> fs)
                 (stdout w ++ created_report (configPath w)))) as Hload.
  { apply loadConfig_Done. split; [done|]. exists 384, v.
    change (configPath (mkWorld (home w) _ _)) with (configPath w).
    cbn [files]. rewrite lookup_configPath, lookup_insert_eq.
    split; [done|]. by apply Unmarshal_defaultConfig. }
  split; [vm_compute; reflexivity|].
  rewrite (validateConfig_loaded _ _ _ Hload). reflexivity.
Qed.

Lemma X22_witness :
  validateConfig (world_of (initConfig emptyWorld))
  = Done () (mkWorld (home (world_of (initConfig emptyWorld)))
               (files (world_of (initConfig emptyWorld)))
               (stdout (world_of (initConfig emptyWorld))
                ++ [Println [AString "🔍 Validating configuration..."];
                    Println [];
                    Println [AString "⚠️  Etherscan API key not set (needed for monitoring)"];
                    Println [AString "⚠️  Basescan API key not set (needed for monitoring)"];
                    Println [];
                    Printf ("Found %d issue(s)" ++ nl) [AInt 2]])).
Proof.
  refine (proj2 (X22_init_then_validate emptyWorld (world_of (initConfig emptyWorld))
                   _ initConfig_emptyWorld)).
  vm_compute. reflexivity.
Defined.

(** ** The modes of the export files *)



(** ** When set and export do their work *)






